(** * VoltorbFlip visible-state CNN: a shallow embedding of [src/visible_cnn.py]

    The Python module defines a small convolutional network
    ([VoltorbFlipCNN]), a dataset of labelled screenshots
    ([VoltorbFlipScreenshotDataset]), a [Trainer] and the entry point [main].

    Conventions of the embedding:
    - a tensor is its shape together with its contiguous row-major storage,
      as the framework keeps it; floating-point entries are idealised as real
      numbers ([R]), integer (int64) entries are [Z];
    - a Python exception is the [Raise] outcome of the [result] monad; the
      source has no [try]/[except], so every exception propagates through
      [≫=];
    - framework operations (convolution, pooling, [view], [one_hot],
      [torch.max], [random_split], ...) are modelled after their documented
      behaviour, including the checks that make them raise. *)

From Stdlib Require Import ZArith QArith Reals Lra Lia List Ascii String Permutation.
From stdpp Require Import base decidable option list strings gmap pretty.

Local Open Scope Z_scope.
Local Open Scope nat_scope.

(** ** Exceptions and the [result] monad *)

Inductive exn : Type :=
| FileNotFoundError (path : string)
| IndexError (msg : string)
| RuntimeError (msg : string)
| ValueError (msg : string)
| TypeError (msg : string)
| ZeroDivisionError.

Inductive result (A : Type) : Type :=
| Ok (a : A)
| Raise (e : exn).
Arguments Ok {A} a.
Arguments Raise {A} e.

#[global] Instance result_ret : MRet result := @Ok.
#[global] Instance result_bind : MBind result := λ A B f m,
  match m with
  | Ok a => f a
  | Raise e => Raise e
  end.
#[global] Instance result_fmap : FMap result := λ A B f m,
  match m with
  | Ok a => Ok (f a)
  | Raise e => Raise e
  end.

Definition is_Ok {A} (m : result A) : Prop := ∃ a, m = Ok a.
Definition raises {A} (m : result A) : Prop := ∃ e, m = Raise e.

(** Monadic left fold: the body of a Python [for] loop that may raise. *)
Fixpoint foldM {A B} (f : B → A → result B) (acc : B) (l : list A) : result B :=
  match l with
  | [] => Ok acc
  | x :: l' => acc' ← f acc x; foldM f acc' l'
  end.

(** ** Tensors *)

Record tensor (A : Type) : Type := Tensor { shape : list nat; data : list A }.
Arguments Tensor {A} shape data.
Arguments shape {A} t.
Arguments data {A} t.

(** Number of elements announced by a shape. *)
Definition numel (s : list nat) : nat := foldr Nat.mul 1 s.

(** A tensor is well formed when its storage has as many entries as its
    shape announces. *)
Definition wf {A} (t : tensor A) : Prop := length (data t) = numel (shape t).

Definition tabulate {A} (n : nat) (f : nat → A) : list A := f <$> seq 0 n.

(** [for_ n f] concatenates [f 0], ..., [f (n-1)]: one storage dimension. *)
Definition for_ {A} (n : nat) (f : nat → list A) : list A := flat_map f (seq 0 n).

Definition tmap {A B} (f : A → B) (t : tensor A) : tensor B :=
  Tensor (shape t) (f <$> data t).

(** [torch.zeros] at shape [s] *)
Definition zeros (s : list nat) : tensor R := Tensor s (repeat 0%R (numel s)).

(** [t.size(i)] *)
Definition tensor_size {A} (t : tensor A) (i : nat) : result nat :=
  match shape t !! i with
  | Some d => Ok d
  | None => Raise (IndexError "Dimension out of range")
  end.

(** [torch.unsqueeze(t, 0)] *)
Definition unsqueeze0 {A} (t : tensor A) : tensor A := Tensor (1 :: shape t) (data t).

(** [t.flatten()] *)
Definition flatten {A} (t : tensor A) : tensor A := Tensor [numel (shape t)] (data t).

(** Size inference of [view]/[reshape]: at most one entry may be [-1]; it is
    inferred from the number of elements, which is refused as ambiguous when
    the other entries multiply to zero. *)
Definition infer_size (dims : list Z) (n : nat) : result (list nat) :=
  if existsb (λ d, d <? -1)%Z dims then
    Raise (RuntimeError "invalid shape dimension")
  else
    let holes := length (filter (λ d, d = (-1)%Z) dims) in
    let known := numel (Z.to_nat <$> filter (λ d, d ≠ (-1)%Z) dims) in
    if 1 <? holes then Raise (RuntimeError "only one dimension can be inferred")
    else if holes =? 1 then
      if known =? 0 then
        Raise (RuntimeError "the unspecified dimension size -1 can be any value and is ambiguous")
      else if n mod known =? 0 then
        Ok ((λ d, if (d =? -1)%Z then n / known else Z.to_nat d) <$> dims)
      else Raise (RuntimeError "shape is invalid for input size")
    else if n =? known then Ok (Z.to_nat <$> dims)
    else Raise (RuntimeError "shape is invalid for input size").

(** [t.view] with sizes [dims] on a contiguous tensor: same storage, new shape. *)
Definition view {A} (t : tensor A) (dims : list Z) : result (tensor A) :=
  s ← infer_size dims (numel (shape t));
  Ok (Tensor s (data t)).

(** ** Layers of [torch.nn] / [torch.nn.functional] *)

Definition Rsum (l : list R) : R := foldr Rplus 0%R l.

Definition Rmaximum (l : list R) : R :=
  match l with
  | [] => 0%R
  | v :: l' => foldl Rmax v l'
  end.

(** Entry [(b, c, i, j)] of a 4-dimensional storage with channel count [C]
    and spatial size [H]x[W]. *)
Definition at4 (C H W : nat) (d : list R) (b c i j : nat) : R :=
  nth (((b * C + c) * H + i) * W + j) d 0%R.

(** The same entry of the zero-padded input: coordinates [u], [v] range over
    the padded image. *)
Definition at4_padded (C H W p : nat) (d : list R) (b c u v : nat) : R :=
  if (p <=? u) && (u - p <? H) && (p <=? v) && (v - p <? W)
  then at4 C H W d b c (u - p) (v - p) else 0%R.

Record Conv2d : Type := {
  in_channels : nat;
  out_channels : nat;
  kernel_size : nat;
  stride : nat;
  padding : nat;
  weight : tensor R;   (* [out_channels; in_channels; k; k] *)
  bias : tensor R      (* [out_channels] *)
}.

(** [nn.Conv2d(cin, cout, kernel_size=k, stride=s, padding=p)]; the initial
    parameter values come from the framework's random initialiser, here the
    arbitrary functions [w] and [b] of the flat index. *)
Definition nn_Conv2d (cin cout k s p : nat) (w b : nat → R) : Conv2d :=
  {| in_channels := cin; out_channels := cout; kernel_size := k; stride := s;
     padding := p;
     weight := Tensor [cout; cin; k; k] (tabulate (cout * cin * k * k) w);
     bias := Tensor [cout] (tabulate cout b) |}.

Definition conv_out_size (h k s p : nat) : nat := (h + 2 * p - k) / s + 1.

(** A 3-dimensional input [(C, H, W)] is read as one unbatched sample. *)
Definition batched (s : list nat) : list nat :=
  match s with
  | [c; h; w] => [1; c; h; w]
  | _ => s
  end.

Definition unbatched_like (s s' : list nat) : list nat :=
  match s with
  | [_; _; _] => tail s'
  | _ => s'
  end.

Definition conv2d_shape (L : Conv2d) (s : list nat) : result (list nat) :=
  match s with
  | [n; c; h; w] =>
      if negb (c =? in_channels L) then
        Raise (RuntimeError "input channels do not match the weight")
      else if stride L =? 0 then
        Raise (RuntimeError "non-positive stride is not supported")
      else if (h + 2 * padding L <? kernel_size L) || (w + 2 * padding L <? kernel_size L) then
        Raise (RuntimeError "Kernel size can't be greater than actual input size")
      else Ok [n; out_channels L;
               conv_out_size h (kernel_size L) (stride L) (padding L);
               conv_out_size w (kernel_size L) (stride L) (padding L)]
  | _ => Raise (RuntimeError "Expected 3D (unbatched) or 4D (batched) input to conv2d")
  end.

Definition conv2d_at (L : Conv2d) (c h w : nat) (d : list R) (b co i j : nat) : R :=
  let k := kernel_size L in
  (nth co (data (bias L)) 0 +
   Rsum (for_ c (λ ci, for_ k (λ di, tabulate k (λ dj,
     at4 c k k (data (weight L)) co ci di dj *
     at4_padded c h w (padding L) d b ci (i * stride L + di) (j * stride L + dj))))))%R.

Definition conv2d_data (L : Conv2d) (s s' : list nat) (d : list R) : list R :=
  match s, s' with
  | [_; c; h; w], [n; cout; ho; wo] =>
      for_ n (λ b, for_ cout (λ co, for_ ho (λ i, tabulate wo (λ j,
        conv2d_at L c h w d b co i j))))
  | _, _ => []
  end.

(** [L(x)] for a convolution layer [L] *)
Definition conv2d (L : Conv2d) (x : tensor R) : result (tensor R) :=
  s' ← conv2d_shape L (batched (shape x));
  Ok (Tensor (unbatched_like (shape x) s')
             (conv2d_data L (batched (shape x)) s' (data x))).

(** [F.relu] *)
Definition F_relu (x : tensor R) : tensor R := tmap (Rmax 0) x.

Definition max_pool2d_shape (k : nat) (s : list nat) : result (list nat) :=
  match s with
  | [n; c; h; w] =>
      if k =? 0 then Raise (RuntimeError "kernel size should be greater than zero")
      else if (c =? 0) || (h <? k) || (w <? k) then
        Raise (RuntimeError "Output size is too small")
      else Ok [n; c; (h - k) / k + 1; (w - k) / k + 1]
  | _ => Raise (RuntimeError "Expected 3D (unbatched) or 4D (batched) input to max_pool2d")
  end.

Definition max_pool2d_data (k : nat) (s s' : list nat) (d : list R) : list R :=
  match s, s' with
  | [_; c; h; w], [n; _; ho; wo] =>
      for_ n (λ b, for_ c (λ ch, for_ ho (λ i, tabulate wo (λ j,
        Rmaximum (for_ k (λ di, tabulate k (λ dj,
          at4 c h w d b ch (i * k + di) (j * k + dj))))))))
  | _, _ => []
  end.

(** [F.max_pool2d(x, k)]: window [k]x[k], stride [k], no padding. *)
Definition F_max_pool2d (x : tensor R) (k : nat) : result (tensor R) :=
  s' ← max_pool2d_shape k (batched (shape x));
  Ok (Tensor (unbatched_like (shape x) s')
             (max_pool2d_data k (batched (shape x)) s' (data x))).

Record Linear : Type := {
  in_features : nat;
  out_features : nat;
  lweight : tensor R;   (* [out_features; in_features] *)
  lbias : tensor R      (* [out_features] *)
}.

(** [nn.Linear(fin, fout)] *)
Definition nn_Linear (fin fout : nat) (w b : nat → R) : Linear :=
  {| in_features := fin; out_features := fout;
     lweight := Tensor [fout; fin] (tabulate (fout * fin) w);
     lbias := Tensor [fout] (tabulate fout b) |}.

Definition linear_shape (L : Linear) (s : list nat) : result (list nat) :=
  match reverse s with
  | fin :: lead =>
      if fin =? in_features L then Ok (reverse lead ++ [out_features L])
      else Raise (RuntimeError "mat1 and mat2 shapes cannot be multiplied")
  | [] => Raise (RuntimeError "mat1 and mat2 shapes cannot be multiplied")
  end.

Definition linear_data (L : Linear) (rows : nat) (d : list R) : list R :=
  for_ rows (λ r, tabulate (out_features L) (λ o,
    (nth o (data (lbias L)) 0 +
     Rsum (tabulate (in_features L) (λ i,
       nth (r * in_features L + i) d 0 *
       nth (o * in_features L + i) (data (lweight L)) 0)))%R)).

(** [L(x)] for a fully-connected layer [L] *)
Definition linear (L : Linear) (x : tensor R) : result (tensor R) :=
  s' ← linear_shape L (shape x);
  Ok (Tensor s' (linear_data L (numel (removelast (shape x))) (data x))).

Definition sigmoid (v : R) : R := (1 / (1 + exp (- v)))%R.

(** [F.sigmoid] *)
Definition F_sigmoid (x : tensor R) : tensor R := tmap sigmoid x.

(** ** Integer tensors: [one_hot] and [torch.max] *)

Definition one_hot_row (n : nat) (v : Z) : list Z :=
  tabulate n (λ j, if (Z.of_nat j =? v)%Z then 1%Z else 0%Z).

(** [F.one_hot(t, num_classes=n)]: a negative class or a class that does not
    fit in [n] is refused. *)
Definition F_one_hot (t : tensor Z) (n : nat) : result (tensor Z) :=
  if existsb (λ v, v <? 0)%Z (data t) then
    Raise (RuntimeError "Class values must be non-negative.")
  else if existsb (λ v, Z.of_nat n <=? v)%Z (data t) then
    Raise (RuntimeError "Class values must be smaller than num_classes.")
  else Ok (Tensor (shape t ++ [n]) (flat_map (one_hot_row n) (data t))).

(** [torch.tensor(l)] of a flat list of integers *)
Definition torch_tensor (l : list Z) : tensor Z := Tensor [length l] l.

(** Entries that [torch.max] can compare. *)
Class Scalar (A : Type) : Type := { szero : A; sltb : A → A → bool }.

#[global] Instance Z_Scalar : Scalar Z := {| szero := 0%Z; sltb := Z.ltb |}.
#[global] Instance R_Scalar : Scalar R :=
  {| szero := 0%R; sltb := λ x y, if Rlt_dec x y then true else false |}.

(** Scan of one row: the running maximum is replaced only by a strictly
    larger entry, so the first maximal position is returned. *)
Fixpoint argmax_from {A} `{Scalar A} (best_i : nat) (best : A) (i : nat) (l : list A)
  : A * nat :=
  match l with
  | [] => (best, best_i)
  | v :: l' =>
      if sltb best v then argmax_from i v (S i) l'
      else argmax_from best_i best (S i) l'
  end.

Definition row_max {A} `{Scalar A} (row : list A) : A * nat :=
  match row with
  | [] => (szero, 0)
  | v :: l => argmax_from 0 v 1 l
  end.

(** Row [r] of a storage read as rows of width [k]. *)
Definition row_of {A} (k : nat) (d : list A) (r : nat) : list A := take k (drop (r * k) d).

(** [torch.max(t, 1)] on a 2-dimensional tensor: the pair (values, indices). *)
Definition torch_max_dim1 {A} `{Scalar A} (t : tensor A) : result (tensor A * tensor Z) :=
  match shape t with
  | [m; k] =>
      if k =? 0 then Raise (IndexError "Expected reduction dim 1 to have non-zero size")
      else
        let res := tabulate m (λ r, row_max (row_of k (data t) r)) in
        Ok (Tensor [m] (fst <$> res), Tensor [m] ((λ p, Z.of_nat (snd p)) <$> res))
  | _ => Raise (IndexError "Dimension out of range")
  end.

(** [a == b] on 1-dimensional integer tensors, with broadcasting of a
    one-element operand. *)
Definition tensor_eq (a b : tensor Z) : result (tensor bool) :=
  match shape a, shape b with
  | [n], [m] =>
      if n =? m then Ok (Tensor [n] (zip_with Z.eqb (data a) (data b)))
      else if m =? 1 then Ok (Tensor [n] ((λ v, Z.eqb v (nth 0 (data b) 0%Z)) <$> data a))
      else if n =? 1 then Ok (Tensor [m] ((λ v, Z.eqb (nth 0 (data a) 0%Z) v) <$> data b))
      else Raise (RuntimeError "The size of tensor a must match the size of tensor b")
  | _, _ => Raise (RuntimeError "The size of tensor a must match the size of tensor b")
  end.

(** [t.sum().item()] of a boolean tensor *)
Definition sum_item (t : tensor bool) : Z :=
  Z.of_nat (length (filter (λ b, b = true) (data t))).

(** ** The imaging library

    PIL images and the torchvision transforms are external; the embedding
    keeps what the program relies on: an image has bands, a height and a
    width, [convert('RGB')] yields three bands, [Resize] sets the spatial
    size, and [ToTensor] yields a well-formed [bands x height x width]
    tensor. *)

Class Imaging (image : Type) : Type := {
  bands : image → nat;
  height : image → nat;
  width : image → nat;
  convert_RGB : image → image;
  Resize : nat * nat → image → image;
  ToTensor : image → tensor R;
  convert_RGB_bands : ∀ i, bands (convert_RGB i) = 3;
  convert_RGB_height : ∀ i, height (convert_RGB i) = height i;
  convert_RGB_width : ∀ i, width (convert_RGB i) = width i;
  Resize_bands : ∀ hw i, bands (Resize hw i) = bands i;
  Resize_height : ∀ hw i, height (Resize hw i) = hw.1;
  Resize_width : ∀ hw i, width (Resize hw i) = hw.2;
  ToTensor_shape : ∀ i, shape (ToTensor i) = [bands i; height i; width i];
  ToTensor_wf : ∀ i, wf (ToTensor i)
}.

(** ** The model *)

Module VoltorbFlipCNN.

Definition MODEL_PATH : string := "./weights/visible_cnn.pth".
Definition N_CLASSES : nat := 13.
Definition N_FEATURES : nat := 45.

(** [transforms.Compose([transforms.Resize((32, 32)), transforms.ToTensor()])] *)
Definition TRANSFORM {image} `{Imaging image} (i : image) : tensor R :=
  ToTensor (Resize (32, 32) i).

Record t : Type := {
  conv1 : Conv2d;
  conv2 : Conv2d;
  conv3 : Conv2d;
  flattened_size : nat;
  fc1 : Linear;
  fc2 : Linear
}.

Definition _get_flattened_size (conv1 conv2 conv3 : Conv2d) : result nat :=
  let x := zeros [1; 3; 32; 32] in
  x ← F_relu <$> conv2d conv1 x;
  x ← F_max_pool2d x 2;
  x ← F_relu <$> conv2d conv2 x;
  x ← F_max_pool2d x 2;
  x ← F_relu <$> conv2d conv3 x;
  x ← view x [1; -1]%Z;
  tensor_size x 1.

(** [θ name i] is the initial value of entry [i] of the parameter [name]. *)
Definition __init__ (θ : string → nat → R) : result t :=
  let conv1 := nn_Conv2d 3 32 3 1 1 (θ "conv1.weight") (θ "conv1.bias") in
  let conv2 := nn_Conv2d 32 64 3 1 1 (θ "conv2.weight") (θ "conv2.bias") in
  let conv3 := nn_Conv2d 64 128 3 1 1 (θ "conv3.weight") (θ "conv3.bias") in
  flattened_size ← _get_flattened_size conv1 conv2 conv3;
  let fc1 := nn_Linear flattened_size 256 (θ "fc1.weight") (θ "fc1.bias") in
  let fc2 := nn_Linear 256 585 (θ "fc2.weight") (θ "fc2.bias") in
  Ok {| conv1 := conv1; conv2 := conv2; conv3 := conv3;
        flattened_size := flattened_size; fc1 := fc1; fc2 := fc2 |}.

(** The convolutional part of [forward], up to the flattening. *)
Definition features (self : t) (x : tensor R) : result (tensor R) :=
  x ← F_relu <$> conv2d (conv1 self) x;
  x ← F_max_pool2d x 2;
  x ← F_relu <$> conv2d (conv2 self) x;
  x ← F_max_pool2d x 2;
  F_relu <$> conv2d (conv3 self) x.

(** [x.view(x.size(0), -1)] *)
Definition flatten_batch (x : tensor R) : result (tensor R) :=
  n ← tensor_size x 0;
  view x [Z.of_nat n; -1]%Z.

Definition forward (self : t) (x : tensor R) : result (tensor R) :=
  x ← features self x;
  x ← flatten_batch x;
  x ← F_relu <$> linear (fc1 self) x;
  x ← linear (fc2 self) x;
  Ok (F_sigmoid x).

(** [torch.max(output.view(-1, N_CLASSES), 1)] *)
Definition decode {A} `{Scalar A} (output : tensor A) : result (tensor A * tensor Z) :=
  v ← view output [-1; Z.of_nat N_CLASSES]%Z;
  torch_max_dim1 v.

(** [self.eval()] and [torch.no_grad()] change nothing here: the model has
    no dropout or normalisation layer, and gradients are not part of the
    embedding. *)
Definition predict {image} `{Imaging image} (self : t) (input_image : image)
  : result (tensor Z) :=
  let input_image := unsqueeze0 (TRANSFORM (convert_RGB input_image)) in
  output ← forward self input_image;
  '(_, decoded_output) ← decode output;
  Ok decoded_output.

End VoltorbFlipCNN.

(** ** Files, paths and the label table *)

(** [os.path.join(a, b)] on POSIX paths *)
Definition ends_with_slash (a : string) : bool :=
  match String.get (String.length a - 1) a with
  | Some c => bool_decide (c = "/"%char)
  | None => false
  end.

Definition os_path_join (a b : string) : string :=
  if String.prefix "/" b then b
  else if bool_decide (a = "") || ends_with_slash a then a +:+ b
  else a +:+ "/" +:+ b.

(** [Image.open(path)]: the directory is a finite map from paths to
    (decodable) images; a path that is not there raises. *)
Definition Image_open {image} (fs : gmap string image) (path : string) : result image :=
  match fs !! path with
  | Some i => Ok i
  | None => Raise (FileNotFoundError path)
  end.

(** The label table read by [pd.read_csv]: a list of integer rows, the
    first column being an id. *)
Definition DataFrame : Type := list (list Z).

(** [df.iloc[idx]]: positional row access; a negative position counts from
    the end, a position outside the table raises. *)
Definition iloc (df : DataFrame) (idx : Z) : result (list Z) :=
  let n := Z.of_nat (length df) in
  let i := if (idx <? 0)%Z then (idx + n)%Z else idx in
  if (0 <=? i)%Z && (i <? n)%Z then
    match df !! Z.to_nat i with
    | Some row => Ok row
    | None => Raise (IndexError "single positional indexer is out-of-bounds")
    end
  else Raise (IndexError "single positional indexer is out-of-bounds").

(** ** The dataset *)

Module VoltorbFlipScreenshotDataset.
Section Dataset.
Context {image : Type} `{Imaging image}.

Record t : Type := {
  image_folder : string;
  visible_states : DataFrame;
  transform : option (image → tensor R)
}.

Definition __init__ (image_folder : string) (visible_states : DataFrame)
  (transform : option (image → tensor R)) : t :=
  {| image_folder := image_folder; visible_states := visible_states;
     transform := transform |}.

Definition __len__ (self : t) : Z := Z.of_nat (length (visible_states self)).

(** The first component of a sample: the transform's tensor, or the image
    itself when no transform is configured. *)
Inductive picture : Type :=
| PILImage (i : image)
| TensorImage (x : tensor R).

(** The file that [__getitem__] opens for [idx]. *)
Definition image_path (self : t) (idx : Z) : string :=
  os_path_join (image_folder self) (pretty idx +:+ ".png").

Definition __getitem__ (fs : gmap string image) (self : t) (idx : Z)
  : result (picture * tensor Z) :=
  let img_path := os_path_join (image_folder self) (pretty idx +:+ ".png") in
  image ← convert_RGB <$> Image_open fs img_path;
  labels ← drop 1 <$> iloc (visible_states self) idx;
  encoded_labels ← flatten <$> F_one_hot (torch_tensor labels) VoltorbFlipCNN.N_CLASSES;
  let image :=
    match transform self with
    | Some f => TensorImage (f image)
    | None => PILImage image
    end in
  Ok (image, encoded_labels).

End Dataset.
Arguments t : clear implicits.
Arguments picture : clear implicits.
End VoltorbFlipScreenshotDataset.

(** ** Splitting and loading ([torch.utils.data]) *)

(** Python's [l[a:b]] *)
Definition slice_bound (len i : Z) : nat :=
  Z.to_nat (if (i <? 0)%Z then Z.max (i + len) 0 else Z.min i len).

Definition py_slice {A} (l : list A) (a b : Z) : list A :=
  let len := Z.of_nat (length l) in
  drop (slice_bound len a) (take (slice_bound len b) l).

Definition sumZ (l : list Z) : Z := foldr Z.add 0%Z l.

(** [itertools.accumulate(l)]: the running sums. *)
Fixpoint accumulate_from (acc : Z) (l : list Z) : list Z :=
  match l with
  | [] => []
  | x :: l' => (acc + x)%Z :: accumulate_from (acc + x) l'
  end.
Definition accumulate (l : list Z) : list Z := accumulate_from 0 l.

(** Lengths that sum to one are read by [random_split] as fractions of the
    dataset; the remainder is then handed out round-robin. *)
Definition fraction_lengths (len : Z) (lengths : list Z) : result (list Z) :=
  if existsb (λ frac, (frac <? 0)%Z || (1 <? frac)%Z) lengths then
    Raise (ValueError "Fraction is not between 0 and 1")
  else
    let subset_lengths := (λ frac, len * frac)%Z <$> lengths in
    let remainder := (len - sumZ subset_lengths)%Z in
    Ok (foldl (λ sl i, alter Z.succ (i mod length sl) sl) subset_lengths
              (seq 0 (Z.to_nat remainder))).

(** [random_split(dataset, lengths)] for a dataset of [len] items; [randperm]
    is the generator's [torch.randperm].  The result lists, for each subset,
    the dataset indices it holds. *)
Definition random_split (len : Z) (lengths : list Z) (randperm : Z → list Z)
  : result (list (list Z)) :=
  lengths ← (if (sumZ lengths =? 1)%Z then fraction_lengths len lengths else Ok lengths);
  if negb (sumZ lengths =? len)%Z then
    Raise (ValueError "Sum of input lengths does not equal the length of the input dataset!")
  else
    let indices := randperm (sumZ lengths) in
    Ok (zip_with (λ offset length, py_slice indices (offset - length) offset)
                 (accumulate lengths) lengths).

(** [int(x)]: truncation toward zero. *)
Definition python_int (x : Q) : Z := Z.quot (Qnum x) (Z.pos (Qden x)).

(** The sizes computed by [main]: [int(0.8 * len(dataset))] and the rest.
    The product is taken exactly; binary64 rounding of [0.8 * n] does not
    change its integer part for any table length that fits in memory. *)
Definition train_size (n : Z) : Z := python_int (0.8 * inject_Z n).
Definition test_size (n : Z) : Z := (n - train_size n)%Z.

(** [torch.stack(ts)] along a new first dimension *)
Definition torch_stack {A} (ts : list (tensor A)) : result (tensor A) :=
  match ts with
  | [] => Raise (RuntimeError "stack expects a non-empty TensorList")
  | t0 :: _ =>
      if forallb (λ t, bool_decide (shape t = shape t0)) ts
      then Ok (Tensor (length ts :: shape t0) (flat_map data ts))
      else Raise (RuntimeError "stack expects each tensor to be equal size")
  end.

(** Consecutive groups of [k] items, the last one possibly shorter. *)
Fixpoint chunks_go {A} (fuel k : nat) (l : list A) : list (list A) :=
  match fuel, l with
  | _, [] => []
  | 0, _ => []
  | S fuel, _ => take k l :: chunks_go fuel k (drop k l)
  end.
Definition chunks {A} (k : nat) (l : list A) : list (list A) := chunks_go (length l) k l.

Record Subset (D : Type) : Type := { dataset : D; indices : list Z }.
Arguments dataset {D} s.
Arguments indices {D} s.

(** A batch as the loader yields it: (screenshots, labels). *)
Definition batch : Type := tensor R * tensor Z.

Section Loading.
Context {image : Type} `{Imaging image}.

Definition Subset_getitem (fs : gmap string image)
  (s : Subset (VoltorbFlipScreenshotDataset.t image)) (i : nat)
  : result (VoltorbFlipScreenshotDataset.picture image * tensor Z) :=
  match indices s !! i with
  | Some idx => VoltorbFlipScreenshotDataset.__getitem__ fs (dataset s) idx
  | None => Raise (IndexError "list index out of range")
  end.

Record DataLoader : Type := {
  loader_dataset : Subset (VoltorbFlipScreenshotDataset.t image);
  batch_size : nat;
  shuffle : bool
}.

(** [DataLoader(dataset, batch_size=k, shuffle=sh)]: the random sampler of a
    shuffling loader refuses an empty dataset. *)
Definition new_DataLoader (ds : Subset (VoltorbFlipScreenshotDataset.t image)) (k : nat) (sh : bool)
  : result DataLoader :=
  if k =? 0 then Raise (ValueError "batch_size should be a positive integer value")
  else if sh && (length (indices ds) =? 0) then
    Raise (ValueError "num_samples should be a positive integer value")
  else Ok {| loader_dataset := ds; batch_size := k; shuffle := sh |}.

(** [default_collate] of a list of samples *)
Definition default_collate
  (samples : list (VoltorbFlipScreenshotDataset.picture image * tensor Z)) : result batch :=
  images ← mapM (λ s, match s.1 with
                      | VoltorbFlipScreenshotDataset.TensorImage x => Ok x
                      | VoltorbFlipScreenshotDataset.PILImage _ =>
                          Raise (TypeError "default_collate: batch must contain tensors")
                      end) samples;
  screenshots ← torch_stack images;
  labels ← torch_stack (snd <$> samples);
  Ok (screenshots, labels).

(** One pass over a loader.  [perm] is the order drawn by the random sampler
    of a shuffling loader; a sequential loader visits positions in order. *)
Definition DataLoader_iter (fs : gmap string image) (dl : DataLoader) (perm : list nat)
  : result (list batch) :=
  let order := if shuffle dl then perm else seq 0 (length (indices (loader_dataset dl))) in
  mapM (λ chunk, samples ← mapM (Subset_getitem fs (loader_dataset dl)) chunk;
                 default_collate samples)
       (chunks (batch_size dl) order).

End Loading.
Arguments DataLoader : clear implicits.

(** What the trainer sees of a loader: [l n] is the outcome of the pass
    number [n] over it, the batches it yields or the exception raised while
    they are loaded. *)
Definition loader : Type := nat → result (list batch).

(** ** Observable effects of the program *)

Inductive method : Type := m_train | m_evaluate | m_save_model | m_print_weights.

Inductive event : Type :=
| Invoke (m : method)                                  (* a [Trainer] method is entered *)
| PrintEpisode (episode episodes : nat) (total_loss : R)
| PrintAccuracy (accuracy : Q)
| PrintSaved (path : string)
| PrintLayer (name : string) (param : tensor R)
| Saved (path : string) (state_dict : list (string * tensor R)).

(** Computations that log events and may raise; the log survives the
    exception. *)
Definition M (A : Type) : Type := list event → result A * list event.

#[global] Instance M_ret : MRet M := λ A a tr, (Ok a, tr).
#[global] Instance M_bind : MBind M := λ A B f m tr,
  match m tr with
  | (Ok a, tr') => f a tr'
  | (Raise e, tr') => (Raise e, tr')
  end.

Definition emit (e : event) : M unit := λ tr, (Ok tt, tr ++ [e]).
Definition lift {A} (r : result A) : M A := λ tr, (r, tr).

Fixpoint forM {A B} (f : B → A → M B) (acc : B) (l : list A) : M B :=
  match l with
  | [] => mret acc
  | x :: l' => acc' ← f acc x; forM f acc' l'
  end.

(** The [Trainer] methods entered during a run, in order. *)
Definition invoked (tr : list event) : list method :=
  omap (λ e, match e with Invoke m => Some m | _ => None end) tr.

(** ** The trainer *)

(** [correct / total] on Python integers: the exact quotient, which Python
    rounds to binary64 *)
Definition py_truediv (a b : Z) : result Q :=
  if (b =? 0)%Z then Raise ZeroDivisionError else Ok (inject_Z a / inject_Z b)%Q.

Module Trainer.
Section Trainer.
(** The optimizer is external.  [backward_step o m x y] stands for
    [optimizer.zero_grad(); loss.backward(); optimizer.step()] after the
    forward pass of model [m] on the batch [(x, y)]: the new optimizer state
    and the model with updated parameters. *)
Context {optimizer : Type}
  (backward_step : optimizer → VoltorbFlipCNN.t → tensor R → tensor R →
                   optimizer * VoltorbFlipCNN.t).

Record t : Type := {
  model : VoltorbFlipCNN.t;
  optimizer_ : optimizer;
  loss_fn : tensor R → tensor R → result R;
  train_loader : loader;
  test_loader : loader;
  episodes : nat;
  model_path : string
}.

Definition __init__ model optimizer_ loss_fn train_loader test_loader model_path episodes : t :=
  {| model := model; optimizer_ := optimizer_; loss_fn := loss_fn;
     train_loader := train_loader; test_loader := test_loader;
     episodes := episodes; model_path := model_path |}.

Definition with_model (self : t) (o : optimizer) (m : VoltorbFlipCNN.t) : t :=
  {| model := m; optimizer_ := o; loss_fn := loss_fn self;
     train_loader := train_loader self; test_loader := test_loader self;
     episodes := episodes self; model_path := model_path self |}.

(** The body of the inner loop of [train]. *)
Definition train_batch (acc : t * R) (b : batch) : result (t * R) :=
  let '(self, total_loss) := acc in
  let '(screenshots, labels) := b in
  output ← VoltorbFlipCNN.forward (model self) screenshots;
  loss ← loss_fn self output (tmap IZR labels);
  let '(o, m) := backward_step (optimizer_ self) (model self) screenshots (tmap IZR labels) in
  Ok (with_model self o m, (total_loss + loss)%R).

(** [self.model.train()] only switches the mode of dropout and
    normalisation layers, which this model does not have. *)
Definition train (self : t) : M t :=
  _ ← emit (Invoke m_train);
  forM (λ self episode,
          batches ← lift (train_loader self episode);
          '(self, total_loss) ← lift (foldM train_batch (self, 0%R) batches);
          _ ← emit (PrintEpisode (episode + 1) (episodes self) total_loss);
          mret self)
       self (seq 0 (episodes self)).

(** The body of the loop of [evaluate]. *)
Definition evaluate_batch (m : VoltorbFlipCNN.t) (acc : Z * Z) (b : batch) : result (Z * Z) :=
  let '(correct, total) := acc in
  let '(screenshots, labels) := b in
  output ← VoltorbFlipCNN.forward m screenshots;
  '(_, decoded_output) ← VoltorbFlipCNN.decode output;
  '(_, decoded_labels) ← VoltorbFlipCNN.decode labels;
  let total := (total + Z.of_nat (numel (shape decoded_labels)))%Z in
  hits ← tensor_eq decoded_output decoded_labels;
  let correct := (correct + sum_item hits)%Z in
  Ok (correct, total).

Definition evaluate (self : t) : M Q :=
  _ ← emit (Invoke m_evaluate);
  batches ← lift (test_loader self 0);
  '(correct, total) ← lift (foldM (evaluate_batch (model self)) (0%Z, 0%Z) batches);
  ratio ← lift (py_truediv correct total);
  let accuracy := (ratio * 100)%Q in
  _ ← emit (PrintAccuracy accuracy);
  mret accuracy.

(** [model.named_parameters()] / [model.state_dict()] *)
Definition named_parameters (m : VoltorbFlipCNN.t) : list (string * tensor R) :=
  [ ("conv1.weight", weight (VoltorbFlipCNN.conv1 m));
    ("conv1.bias", bias (VoltorbFlipCNN.conv1 m));
    ("conv2.weight", weight (VoltorbFlipCNN.conv2 m));
    ("conv2.bias", bias (VoltorbFlipCNN.conv2 m));
    ("conv3.weight", weight (VoltorbFlipCNN.conv3 m));
    ("conv3.bias", bias (VoltorbFlipCNN.conv3 m));
    ("fc1.weight", lweight (VoltorbFlipCNN.fc1 m));
    ("fc1.bias", lbias (VoltorbFlipCNN.fc1 m));
    ("fc2.weight", lweight (VoltorbFlipCNN.fc2 m));
    ("fc2.bias", lbias (VoltorbFlipCNN.fc2 m)) ].

(** [writable path] tells whether [torch.save] can create the file. *)
Definition save_model (writable : string → bool) (self : t) : M unit :=
  _ ← emit (Invoke m_save_model);
  _ ← (if writable (model_path self)
       then emit (Saved (model_path self) (named_parameters (model self)))
       else lift (Raise (RuntimeError "Parent directory does not exist.")));
  emit (PrintSaved (model_path self)).

Definition print_weights (self : t) : M unit :=
  _ ← emit (Invoke m_print_weights);
  forM (λ _ p, emit (PrintLayer p.1 p.2)) tt (named_parameters (model self)).

End Trainer.
Arguments t : clear implicits.
End Trainer.

(** ** The entry point *)

(** What a run of [main] takes from its surroundings. *)
Record environment (image optimizer : Type) : Type := {
  csv_files : gmap string DataFrame;          (* [pd.read_csv] *)
  image_files : gmap string image;            (* [Image.open] *)
  writable : string → bool;                   (* [torch.save] *)
  randperm : Z → list Z;                      (* the split's permutation *)
  sampler_perms : nat → list nat;             (* the training sampler, per episode *)
  initial_parameters : string → nat → R;      (* parameter initialisation *)
  Adam : VoltorbFlipCNN.t → Q → optimizer;    (* [optim.Adam(params, lr)] *)
  backward_step : optimizer → VoltorbFlipCNN.t → tensor R → tensor R →
                  optimizer * VoltorbFlipCNN.t;
  BCELoss : tensor R → tensor R → result R    (* [nn.BCELoss()] *)
}.
Arguments csv_files {image optimizer} e.
Arguments image_files {image optimizer} e.
Arguments writable {image optimizer} e.
Arguments randperm {image optimizer} e.
Arguments sampler_perms {image optimizer} e.
Arguments initial_parameters {image optimizer} e.
Arguments Adam {image optimizer} e.
Arguments backward_step {image optimizer} e.
Arguments BCELoss {image optimizer} e.

Definition pd_read_csv (files : gmap string DataFrame) (path : string) : result DataFrame :=
  match files !! path with
  | Some df => Ok df
  | None => Raise (FileNotFoundError path)
  end.

Section Main.
Context {image : Type} `{Imaging image} {optimizer : Type}.

(** Everything [main] does before the trainer runs. *)
Definition setup (env : environment image optimizer) : result (Trainer.t optimizer) :=
  visible_states ← pd_read_csv (csv_files env) "./training_data/visible_states.csv";
  let transform := VoltorbFlipCNN.TRANSFORM in
  let image_folder := "./training_data/screenshots/" in
  let screenshot_dataset :=
    VoltorbFlipScreenshotDataset.__init__ image_folder visible_states (Some transform) in
  let n := VoltorbFlipScreenshotDataset.__len__ screenshot_dataset in
  parts ← random_split n [train_size n; test_size n] (randperm env);
  match parts with
  | [train_indices; test_indices] =>
      let train_dataset := {| dataset := screenshot_dataset; indices := train_indices |} in
      let test_dataset := {| dataset := screenshot_dataset; indices := test_indices |} in
      train_loader ← new_DataLoader train_dataset 16 true;
      test_loader ← new_DataLoader test_dataset 16 false;
      (* what iterating the two loaders yields *)
      let train_loader : loader :=
        λ pass, DataLoader_iter (image_files env) train_loader (sampler_perms env pass) in
      let test_loader : loader :=
        λ pass, DataLoader_iter (image_files env) test_loader [] in
      cnn_model ← VoltorbFlipCNN.__init__ (initial_parameters env);
      let optimizer_ := Adam env cnn_model 0.001 in
      let loss_fn := BCELoss env in
      Ok (Trainer.__init__ cnn_model optimizer_ loss_fn train_loader test_loader
            VoltorbFlipCNN.MODEL_PATH 50)
  | _ => Raise (ValueError "not enough values to unpack")
  end.

Definition main (env : environment image optimizer) : M unit :=
  trainer ← lift (setup env);
  trainer ← Trainer.train (backward_step env) trainer;
  _ ← Trainer.evaluate trainer;
  _ ← Trainer.save_model (writable env) trainer;
  Trainer.print_weights trainer.

End Main.

(** ** The architecture fixed by [VoltorbFlipCNN.__init__]

    Training and [load_weights] change parameter values only; the layer
    hyper-parameters below are those of every model instance. *)

Definition conv3x3 (L : Conv2d) (cin cout : nat) : Prop :=
  in_channels L = cin ∧ out_channels L = cout ∧
  kernel_size L = 3 ∧ stride L = 1 ∧ padding L = 1.

Definition architecture (m : VoltorbFlipCNN.t) : Prop :=
  conv3x3 (VoltorbFlipCNN.conv1 m) 3 32 ∧
  conv3x3 (VoltorbFlipCNN.conv2 m) 32 64 ∧
  conv3x3 (VoltorbFlipCNN.conv3 m) 64 128 ∧
  in_features (VoltorbFlipCNN.fc1 m) = VoltorbFlipCNN.flattened_size m ∧
  out_features (VoltorbFlipCNN.fc1 m) = 256 ∧
  in_features (VoltorbFlipCNN.fc2 m) = 256 ∧
  out_features (VoltorbFlipCNN.fc2 m) = 585.

(** ** Predicates used in the statements *)

(** The predictions and targets of a batch agree cell by cell. *)
Definition all_correct (m : VoltorbFlipCNN.t) (b : batch) : Prop :=
  ∃ output values_o values_l decoded,
    VoltorbFlipCNN.forward m b.1 = Ok output ∧
    VoltorbFlipCNN.decode output = Ok (values_o, decoded) ∧
    VoltorbFlipCNN.decode b.2 = Ok (values_l, decoded).

(** A computation that enters no [Trainer] method. *)
Definition quiet {A} (c : M A) : Prop := ∀ tr, invoked (c tr).2 = invoked tr.

(** A computation that enters exactly the method [m], first thing. *)
Definition enters {A} (m : method) (c : M A) : Prop :=
  ∀ tr, invoked (c tr).2 = invoked tr ++ [m].

(** ** Concrete instances used in the examples *)

(** The model whose parameters are all zero. *)
Definition zero_parameters : string → nat → R := λ _ _, 0%R.

Definition zero_model : VoltorbFlipCNN.t :=
  {| VoltorbFlipCNN.conv1 := nn_Conv2d 3 32 3 1 1 (zero_parameters "conv1.weight") (zero_parameters "conv1.bias");
     VoltorbFlipCNN.conv2 := nn_Conv2d 32 64 3 1 1 (zero_parameters "conv2.weight") (zero_parameters "conv2.bias");
     VoltorbFlipCNN.conv3 := nn_Conv2d 64 128 3 1 1 (zero_parameters "conv3.weight") (zero_parameters "conv3.bias");
     VoltorbFlipCNN.flattened_size := 128 * 8 * 8;
     VoltorbFlipCNN.fc1 := nn_Linear (128 * 8 * 8) 256 (zero_parameters "fc1.weight") (zero_parameters "fc1.bias");
     VoltorbFlipCNN.fc2 := nn_Linear 256 585 (zero_parameters "fc2.weight") (zero_parameters "fc2.bias") |}.

(** Blank images: an image is its (height, width); every pixel is black. *)
Definition blank_image : Type := nat * nat.

#[global, refine] Instance blank_Imaging : Imaging blank_image :=
  {| bands := λ _, 3;
     height := fst;
     width := snd;
     convert_RGB := λ i, i;
     Resize := λ hw _, hw;
     ToTensor := λ i, zeros [3; i.1; i.2] |}.
Proof.
  all: try reflexivity.
  intros i. unfold wf, zeros. cbn [data shape]. apply repeat_length.
Defined.

(** A two-row label table over blank screenshots: row 0 is well formed, row 1
    holds the class 13, which does not exist. *)
Definition example_labels : list Z := (λ i, Z.of_nat (i mod 13)) <$> seq 0 45.

Definition example_dataset : VoltorbFlipScreenshotDataset.t blank_image :=
  VoltorbFlipScreenshotDataset.__init__ "./training_data/screenshots/"
    [0%Z :: example_labels; 1%Z :: 13%Z :: replicate 44 0%Z]
    (Some VoltorbFlipCNN.TRANSFORM).

(** A table with two label columns instead of 45. *)
Definition short_dataset : VoltorbFlipScreenshotDataset.t blank_image :=
  VoltorbFlipScreenshotDataset.__init__ "./training_data/screenshots/" [[0; 2; 5]%Z] None.

Definition example_files : gmap string blank_image :=
  {[ "./training_data/screenshots/0.png" := (480, 640);
     "./training_data/screenshots/1.png" := (480, 640) ]}.

(** A complete run: two blank screenshots whose cells are all of class 0,
    parameters that start at zero, and an optimizer that leaves them there. *)
Definition run_table : DataFrame := [0%Z :: replicate 45 0%Z; 1%Z :: replicate 45 0%Z].

Definition run_dataset : VoltorbFlipScreenshotDataset.t blank_image :=
  VoltorbFlipScreenshotDataset.__init__ "./training_data/screenshots/" run_table
    (Some VoltorbFlipCNN.TRANSFORM).

Definition example_environment : environment blank_image unit :=
  {| csv_files := {[ "./training_data/visible_states.csv" := run_table ]};
     image_files := example_files;
     writable := λ _, true;
     randperm := λ _, [1; 0]%Z;
     sampler_perms := λ _, [0];
     initial_parameters := zero_parameters;
     Adam := λ _ _, tt;
     backward_step := λ o m _ _, (o, m);
     BCELoss := λ _ _, Ok 0%R |}.

(** The trainer that [setup] builds in this environment. *)
Definition run_trainer : Trainer.t unit :=
  Trainer.__init__ zero_model tt (λ _ _, Ok 0%R)
    (λ _, DataLoader_iter example_files
            {| loader_dataset := {| dataset := run_dataset; indices := [1%Z] |};
               batch_size := 16; shuffle := true |} [0])
    (λ _, DataLoader_iter example_files
            {| loader_dataset := {| dataset := run_dataset; indices := [0%Z] |};
               batch_size := 16; shuffle := false |} [])
    VoltorbFlipCNN.MODEL_PATH 50.

(** One blank screenshot whose 45 cells are all of class 0. *)
Definition example_batch : batch :=
  (zeros [1; 3; 32; 32], Tensor [1; 585] (flat_map (one_hot_row 13) (replicate 45 0%Z))).

Definition example_trainer : Trainer.t unit :=
  Trainer.__init__ zero_model tt (λ _ _, Ok 0%R)
    (λ _, Ok [example_batch]) (λ _, Ok [example_batch]) VoltorbFlipCNN.MODEL_PATH 50.

(** ** Further predicates used in the statements *)

(** A batch of [n] resized screenshots with their 45 x 13 targets. *)
Definition well_shaped (b : batch) : Prop :=
  ∃ n, 0 < n ∧ shape b.1 = [n; 3; 32; 32] ∧ shape b.2 = [n; 585].

(** Two trainers that differ at most in their model and optimizer state. *)
Definition same_configuration {optimizer} (a b : Trainer.t optimizer) : Prop :=
  Trainer.loss_fn a = Trainer.loss_fn b ∧
  Trainer.train_loader a = Trainer.train_loader b ∧
  Trainer.test_loader a = Trainer.test_loader b ∧
  Trainer.episodes a = Trainer.episodes b ∧
  Trainer.model_path a = Trainer.model_path b.

(** The lines [train] prints for episodes 1, 2, ... with the given total
    losses. *)
Definition episode_lines (episodes : nat) (losses : list R) : list event :=
  imap (λ i total_loss, PrintEpisode (i + 1) episodes total_loss) losses.

(** The lines [print_weights] prints for a list of parameters. *)
Definition layer_lines (params : list (string * tensor R)) : list event :=
  (λ p, PrintLayer p.1 p.2) <$> params.

(** The calls of [torch.save] during a run, in order: path and state. *)
Definition saved_files (tr : list event) : list (string * list (string * tensor R)) :=
  omap (λ e, match e with Saved path sd => Some (path, sd) | _ => None end) tr.

(** ** Saved weights ([torch.load], [load_state_dict])

    The weights directory is a finite map from paths to saved states, each
    the list of named tensors written by [torch.save(model.state_dict())]. *)

Definition state_dict : Type := list (string * tensor R).

Definition torch_load (disk : gmap string state_dict) (path : string) : result state_dict :=
  match disk !! path with
  | Some sd => Ok sd
  | None => Raise (FileNotFoundError path)
  end.

(** [state_dict[key]], if the key is there *)
Fixpoint state_get (sd : state_dict) (key : string) : option (tensor R) :=
  match sd with
  | [] => None
  | (k, v) :: sd' => if String.eqb k key then Some v else state_get sd' key
  end.

(** One parameter in [Module._load_from_state_dict]: a saved tensor of the
    parameter's shape is copied into it; a missing key or a tensor of
    another shape is reported and the parameter keeps its value. *)
Definition load_param (sd : state_dict) (key : string) (param : tensor R)
  : tensor R * list string :=
  match state_get sd key with
  | Some input_param =>
      if bool_decide (shape input_param = shape param) then (input_param, [])
      else (param, ["size mismatch for " +:+ key])
  | None => (param, ["missing key " +:+ key])
  end.

Definition load_Conv2d (sd : state_dict) (prefix : string) (L : Conv2d)
  : Conv2d * list string :=
  let w := load_param sd (prefix +:+ "weight") (weight L) in
  let b := load_param sd (prefix +:+ "bias") (bias L) in
  ({| in_channels := in_channels L; out_channels := out_channels L;
      kernel_size := kernel_size L; stride := stride L; padding := padding L;
      weight := w.1; bias := b.1 |}, w.2 ++ b.2).

Definition load_Linear (sd : state_dict) (prefix : string) (L : Linear)
  : Linear * list string :=
  let w := load_param sd (prefix +:+ "weight") (lweight L) in
  let b := load_param sd (prefix +:+ "bias") (lbias L) in
  ({| in_features := in_features L; out_features := out_features L;
      lweight := w.1; lbias := b.1 |}, w.2 ++ b.2).

(** The keys of the model's state. *)
Definition parameter_names : list string :=
  [ "conv1.weight"; "conv1.bias"; "conv2.weight"; "conv2.bias";
    "conv3.weight"; "conv3.bias"; "fc1.weight"; "fc1.bias"; "fc2.weight"; "fc2.bias" ].

(** [self.load_state_dict(sd)] with the default [strict=True]: the model
    after the call and the outcome.  Every layer is loaded before the
    errors are raised, so parameters that could be copied stay copied. *)
Definition load_state_dict (self : VoltorbFlipCNN.t) (sd : state_dict)
  : VoltorbFlipCNN.t * result unit :=
  let c1 := load_Conv2d sd "conv1." (VoltorbFlipCNN.conv1 self) in
  let c2 := load_Conv2d sd "conv2." (VoltorbFlipCNN.conv2 self) in
  let c3 := load_Conv2d sd "conv3." (VoltorbFlipCNN.conv3 self) in
  let f1 := load_Linear sd "fc1." (VoltorbFlipCNN.fc1 self) in
  let f2 := load_Linear sd "fc2." (VoltorbFlipCNN.fc2 self) in
  let unexpected_keys :=
    filter (λ k, existsb (String.eqb k) parameter_names = false) (fst <$> sd) in
  let error_msgs := unexpected_keys ++ c1.2 ++ c2.2 ++ c3.2 ++ f1.2 ++ f2.2 in
  ({| VoltorbFlipCNN.conv1 := c1.1; VoltorbFlipCNN.conv2 := c2.1;
      VoltorbFlipCNN.conv3 := c3.1;
      VoltorbFlipCNN.flattened_size := VoltorbFlipCNN.flattened_size self;
      VoltorbFlipCNN.fc1 := f1.1; VoltorbFlipCNN.fc2 := f2.1 |},
   match error_msgs with
   | [] => Ok tt
   | _ => Raise (RuntimeError "Error(s) in loading state_dict for VoltorbFlipCNN")
   end).

(** [VoltorbFlipCNN.load_weights]: the model after the call and the outcome *)
Definition load_weights (disk : gmap string state_dict) (self : VoltorbFlipCNN.t)
  : VoltorbFlipCNN.t * result unit :=
  match torch_load disk VoltorbFlipCNN.MODEL_PATH with
  | Ok sd => load_state_dict self sd
  | Raise e => (self, Raise e)
  end.

(** The weights directory after the saves of a run. *)
Definition written (disk : gmap string state_dict) (tr : list event) : gmap string state_dict :=
  foldl (λ d f, <[f.1 := f.2]> d) disk (saved_files tr).

(** What [load_state_dict] leaves alone: the hyper-parameters of the
    layers and the shapes of their parameters. *)
Definition Conv2d_layout (L : Conv2d) :=
  (in_channels L, out_channels L, kernel_size L, stride L, padding L,
   shape (weight L), shape (bias L)).

Definition Linear_layout (L : Linear) :=
  (in_features L, out_features L, shape (lweight L), shape (lbias L)).

Definition layout (m : VoltorbFlipCNN.t) :=
  (Conv2d_layout (VoltorbFlipCNN.conv1 m), Conv2d_layout (VoltorbFlipCNN.conv2 m),
   Conv2d_layout (VoltorbFlipCNN.conv3 m), VoltorbFlipCNN.flattened_size m,
   Linear_layout (VoltorbFlipCNN.fc1 m), Linear_layout (VoltorbFlipCNN.fc2 m)).

(** * Properties *)

(** ** The [result] monad *)

Lemma bind_Ok {A B} (a : A) (f : A → result B) : (Ok a ≫= f) = f a.
Proof. reflexivity. Qed.

Lemma fmap_Ok {A B} (a : A) (f : A → B) : f <$> Ok a = Ok (f a).
Proof. reflexivity. Qed.

Lemma bind_Ok_inv {A B} (m : result A) (f : A → result B) (b : B) :
  m ≫= f = Ok b → ∃ a, m = Ok a ∧ f a = Ok b.
Proof. destruct m as [a|e]; [eauto | discriminate]. Qed.

Lemma fmap_Ok_inv {A B} (m : result A) (f : A → B) (b : B) :
  f <$> m = Ok b → ∃ a, m = Ok a ∧ b = f a.
Proof. destruct m as [a|e]; [intros [= <-]; eauto | discriminate]. Qed.

(** ** Storage sizes *)

Lemma length_tabulate {A} n (f : nat → A) : length (tabulate n f) = n.
Proof. unfold tabulate. by rewrite length_fmap, length_seq. Qed.

Lemma length_flat_map_const {A B} (f : A → list B) (k : nat) (l : list A) :
  (∀ x, length (f x) = k) → length (flat_map f l) = length l * k.
Proof.
  intros Hf. induction l as [|x l IH]; [done|].
  cbn [flat_map]. rewrite length_app, Hf, IH. cbn [length]. lia.
Qed.

Lemma length_for_ {A} n k (f : nat → list A) :
  (∀ i, length (f i) = k) → length (for_ n f) = n * k.
Proof.
  intros Hf. unfold for_. by rewrite (length_flat_map_const _ k), length_seq.
Qed.

Lemma numel_4 a b c d : numel [a; b; c; d] = a * (b * (c * d)).
Proof. unfold numel. cbn [foldr]. lia. Qed.

Lemma length_conv2d_data L s n cout ho wo d :
  length (batched s) = 4 →
  length (conv2d_data L (batched s) [n; cout; ho; wo] d) = numel [n; cout; ho; wo].
Proof.
  intros Hs. destruct (batched s) as [|? [|c [|h [|w [|]]]]]; try discriminate.
  cbn [conv2d_data]. rewrite numel_4.
  rewrite (length_for_ _ (cout * (ho * wo))); [done|]. intros b.
  rewrite (length_for_ _ (ho * wo)); [done|]. intros co.
  rewrite (length_for_ _ wo); [done|]. intros i. apply length_tabulate.
Qed.

Lemma length_max_pool2d_data k s n c ho wo d :
  (∃ b h w, batched s = [b; c; h; w]) →
  length (max_pool2d_data k (batched s) [n; c; ho; wo] d) = numel [n; c; ho; wo].
Proof.
  intros (b & h & w & ->). cbn [max_pool2d_data]. rewrite numel_4.
  rewrite (length_for_ _ (c * (ho * wo))); [done|]. intros b'.
  rewrite (length_for_ _ (ho * wo)); [done|]. intros ch.
  rewrite (length_for_ _ wo); [done|]. intros i. apply length_tabulate.
Qed.

Lemma length_linear_data L rows d :
  length (linear_data L rows d) = rows * out_features L.
Proof.
  unfold linear_data. apply length_for_. intros r. apply length_tabulate.
Qed.

Lemma wf_tmap {A B} (f : A → B) (t : tensor A) : wf t → wf (tmap f t).
Proof. unfold wf, tmap. cbn [data shape]. by rewrite length_fmap. Qed.

Lemma shape_relu x : shape (F_relu x) = shape x.
Proof. reflexivity. Qed.

Lemma wf_relu x : wf x → wf (F_relu x).
Proof. apply wf_tmap. Qed.

Lemma wf_zeros s : wf (zeros s).
Proof. unfold wf, zeros. cbn [data shape]. apply repeat_length. Qed.

(** ** Layers on batched input *)

Lemma conv2d_4d L x n c h w s' :
  shape x = [n; c; h; w] →
  conv2d_shape L [n; c; h; w] = Ok s' →
  ∃ y, conv2d L x = Ok y ∧ shape y = s' ∧ wf y.
Proof.
  intros Hx Hs. unfold conv2d. rewrite Hx. cbn [batched]. rewrite Hs, bind_Ok.
  eexists; split; [reflexivity|]. cbn [shape unbatched_like]. split; [done|].
  unfold wf. cbn [shape data].
  unfold conv2d_shape in Hs. repeat case_match; try discriminate.
  injection Hs as <-.
  apply (length_conv2d_data L [n; c; h; w]). reflexivity.
Qed.

(** A 3x3 convolution of stride 1 and padding 1 keeps the spatial size. *)
Lemma conv2d_shape_same L n h w :
  kernel_size L = 3 → stride L = 1 → padding L = 1 → 0 < h → 0 < w →
  conv2d_shape L [n; in_channels L; h; w] = Ok [n; out_channels L; h; w].
Proof.
  intros Hk Hs Hp Hh Hw. unfold conv2d_shape, conv_out_size.
  rewrite Hk, Hs, Hp, Nat.eqb_refl. cbn [negb Nat.eqb].
  destruct (h + 2 * 1 <? 3) eqn:E1; [apply Nat.ltb_lt in E1; lia|].
  destruct (w + 2 * 1 <? 3) eqn:E2; [apply Nat.ltb_lt in E2; lia|].
  cbn [orb]. rewrite !Nat.div_1_r.
  repeat f_equal; lia.
Qed.

Lemma max_pool2d_4d x k n c h w s' :
  shape x = [n; c; h; w] →
  max_pool2d_shape k [n; c; h; w] = Ok s' →
  ∃ y, F_max_pool2d x k = Ok y ∧ shape y = s' ∧ wf y.
Proof.
  intros Hx Hs. unfold F_max_pool2d. rewrite Hx. cbn [batched]. rewrite Hs, bind_Ok.
  eexists; split; [reflexivity|]. cbn [shape unbatched_like]. split; [done|].
  unfold wf. cbn [shape data].
  unfold max_pool2d_shape in Hs. repeat case_match; try discriminate.
  injection Hs as <-.
  apply (length_max_pool2d_data k [n; c; h; w]). by exists n, h, w.
Qed.

Lemma linear_2d L x n :
  shape x = [n; in_features L] →
  ∃ y, linear L x = Ok y ∧ shape y = [n; out_features L] ∧ wf y.
Proof.
  intros Hx. unfold linear, linear_shape. rewrite Hx.
  cbn [reverse rev_append]. rewrite Nat.eqb_refl, bind_Ok.
  eexists; split; [reflexivity|]. cbn [shape data app]. split; [done|].
  unfold wf. cbn [shape data removelast]. rewrite length_linear_data.
  unfold numel. cbn [foldr]. lia.
Qed.

(** ** [view] *)

Lemma of_nat_ltb_m1 (b : nat) : (Z.of_nat b <? -1)%Z = false.
Proof. apply Z.ltb_ge. lia. Qed.

Lemma of_nat_eqb_m1 (b : nat) : (Z.of_nat b =? -1)%Z = false.
Proof. apply Z.eqb_neq. lia. Qed.

Lemma infer_size_batch (b n : nat) :
  infer_size [Z.of_nat b; -1]%Z n =
  if b =? 0 then
    Raise (RuntimeError "the unspecified dimension size -1 can be any value and is ambiguous")
  else if n mod b =? 0 then Ok [b; n / b]
  else Raise (RuntimeError "shape is invalid for input size").
Proof.
  unfold infer_size. cbn [existsb].
  rewrite of_nat_ltb_m1.
  cbn [orb Z.ltb Z.compare]. rewrite !filter_cons, !filter_nil.
  destruct (decide (Z.of_nat b = (-1)%Z)) as [?|_]; [lia|].
  destruct (decide (Z.of_nat b ≠ (-1)%Z)) as [_|?]; [|lia].
  destruct (decide ((-1)%Z = (-1)%Z)) as [_|?]; [|done].
  destruct (decide ((-1)%Z ≠ (-1)%Z)) as [?|_]; [done|].
  cbn [length Nat.ltb Nat.leb Nat.eqb fmap list_fmap numel foldr].
  rewrite Nat2Z.id, Nat.mul_1_r.
  destruct (b =? 0); [done|]. destruct (n mod b =? 0); [|done].
  cbn [Z.eqb]. by rewrite of_nat_eqb_m1.
Qed.

Lemma infer_size_rows (k n : nat) :
  0 < k → n mod k = 0 →
  infer_size [-1; Z.of_nat k]%Z n = Ok [n / k; k].
Proof.
  intros Hk Hn. unfold infer_size. cbn [existsb].
  rewrite of_nat_ltb_m1.
  cbn [orb Z.ltb Z.compare]. rewrite !filter_cons, !filter_nil.
  destruct (decide (Z.of_nat k = (-1)%Z)) as [?|_]; [lia|].
  destruct (decide (Z.of_nat k ≠ (-1)%Z)) as [_|?]; [|lia].
  destruct (decide ((-1)%Z = (-1)%Z)) as [_|?]; [|done].
  destruct (decide ((-1)%Z ≠ (-1)%Z)) as [?|_]; [done|].
  cbn [length Nat.ltb Nat.leb Nat.eqb fmap list_fmap numel foldr].
  rewrite Nat2Z.id, Nat.mul_1_r.
  destruct (k =? 0) eqn:E; [apply Nat.eqb_eq in E; lia|].
  rewrite Hn. cbn [Nat.eqb Z.eqb].
  by rewrite of_nat_eqb_m1.
Qed.

Lemma view_shape {A} (t : tensor A) dims s :
  infer_size dims (numel (shape t)) = Ok s →
  view t dims = Ok (Tensor s (data t)).
Proof. intros Hs. unfold view. by rewrite Hs. Qed.

(** ** The convolutional stack *)

Lemma conv3x3_step L cin cout x n h w :
  conv3x3 L cin cout → shape x = [n; cin; h; w] → 0 < h → 0 < w →
  ∃ y, F_relu <$> conv2d L x = Ok y ∧ shape y = [n; cout; h; w] ∧ wf y.
Proof.
  intros (Hin & Hout & Hk & Hs & Hp) Hx Hh Hw. subst cin cout.
  destruct (conv2d_4d L x n (in_channels L) h w _ Hx
              (conv2d_shape_same L n h w Hk Hs Hp Hh Hw)) as (y & Ey & Sy & Wy).
  exists (F_relu y). rewrite Ey, fmap_Ok. split; [done|].
  split; [by rewrite shape_relu | by apply wf_relu].
Qed.

Lemma features_ok m x b :
  architecture m → shape x = [b; 3; 32; 32] →
  ∃ f, VoltorbFlipCNN.features m x = Ok f ∧ shape f = [b; 128; 8; 8] ∧ wf f.
Proof.
  intros (H1 & H2 & H3 & _) Hx. unfold VoltorbFlipCNN.features.
  destruct (conv3x3_step _ _ _ x b 32 32 H1 Hx) as (x1 & -> & S1 & _); [lia..|].
  rewrite bind_Ok.
  destruct (max_pool2d_4d x1 2 b 32 32 32 [b; 32; 16; 16] S1 eq_refl)
    as (x2 & -> & S2 & _).
  rewrite bind_Ok.
  destruct (conv3x3_step _ _ _ x2 b 16 16 H2 S2) as (x3 & -> & S3 & _); [lia..|].
  rewrite bind_Ok.
  destruct (max_pool2d_4d x3 2 b 64 16 16 [b; 64; 8; 8] S3 eq_refl)
    as (x4 & -> & S4 & _).
  rewrite bind_Ok.
  destruct (conv3x3_step _ _ _ x4 b 8 8 H3 S4) as (x5 & E5 & S5 & W5); [lia..|].
  eauto.
Qed.

Lemma get_flattened_size_ok c1 c2 c3 :
  conv3x3 c1 3 32 → conv3x3 c2 32 64 → conv3x3 c3 64 128 →
  VoltorbFlipCNN._get_flattened_size c1 c2 c3 = Ok (128 * 8 * 8).
Proof.
  intros H1 H2 H3. unfold VoltorbFlipCNN._get_flattened_size.
  destruct (conv3x3_step _ _ _ (zeros [1; 3; 32; 32]) 1 32 32 H1 eq_refl)
    as (x1 & -> & S1 & _); [lia..|].
  rewrite bind_Ok.
  destruct (max_pool2d_4d x1 2 1 32 32 32 [1; 32; 16; 16] S1 eq_refl)
    as (x2 & -> & S2 & _).
  rewrite bind_Ok.
  destruct (conv3x3_step _ _ _ x2 1 16 16 H2 S2) as (x3 & -> & S3 & _); [lia..|].
  rewrite bind_Ok.
  destruct (max_pool2d_4d x3 2 1 64 16 16 [1; 64; 8; 8] S3 eq_refl)
    as (x4 & -> & S4 & _).
  rewrite bind_Ok.
  destruct (conv3x3_step _ _ _ x4 1 8 8 H3 S4) as (x5 & -> & S5 & _); [lia..|].
  rewrite bind_Ok.
  rewrite (view_shape x5 _ [1; 128 * 8 * 8]).
  - reflexivity.
  - rewrite S5. change [1; -1]%Z with [Z.of_nat 1; -1]%Z.
    rewrite infer_size_batch. reflexivity.
Qed.

Lemma nn_Conv2d_conv3x3 cin cout w b : conv3x3 (nn_Conv2d cin cout 3 1 1 w b) cin cout.
Proof. repeat split. Qed.

Lemma init_ok θ :
  ∃ m, VoltorbFlipCNN.__init__ θ = Ok m ∧ architecture m ∧
       VoltorbFlipCNN.flattened_size m = 128 * 8 * 8.
Proof.
  unfold VoltorbFlipCNN.__init__.
  rewrite get_flattened_size_ok by apply nn_Conv2d_conv3x3.
  rewrite bind_Ok. eexists; split; [reflexivity|].
  repeat split.
Qed.

Lemma init_architecture θ m :
  VoltorbFlipCNN.__init__ θ = Ok m →
  architecture m ∧ VoltorbFlipCNN.flattened_size m = 128 * 8 * 8.
Proof.
  intros Hm. destruct (init_ok θ) as (m' & Hm' & Ha). congruence.
Qed.

(** ** [forward] *)

Lemma flatten_batch_ok x b c h w :
  shape x = [b; c; h; w] → 0 < b →
  VoltorbFlipCNN.flatten_batch x = Ok (Tensor [b; c * (h * w)] (data x)).
Proof.
  intros Hx Hb. unfold VoltorbFlipCNN.flatten_batch, tensor_size.
  rewrite Hx. cbn [lookup list_lookup]. rewrite bind_Ok.
  apply view_shape. rewrite Hx, infer_size_batch, numel_4.
  destruct (b =? 0) eqn:E; [apply Nat.eqb_eq in E; lia|].
  rewrite (Nat.mul_comm b), Nat.Div0.mod_mul, Nat.div_mul by lia.
  reflexivity.
Qed.

Lemma flatten_batch_empty x s :
  shape x = 0 :: s →
  VoltorbFlipCNN.flatten_batch x =
  Raise (RuntimeError "the unspecified dimension size -1 can be any value and is ambiguous").
Proof.
  intros Hx. unfold VoltorbFlipCNN.flatten_batch, tensor_size.
  rewrite Hx. cbn [lookup list_lookup]. rewrite bind_Ok.
  unfold view. rewrite infer_size_batch. reflexivity.
Qed.

Lemma classifier_ok m v b :
  architecture m → shape v = [b; VoltorbFlipCNN.flattened_size m] →
  ∃ h z, F_relu <$> linear (VoltorbFlipCNN.fc1 m) v = Ok h ∧
         linear (VoltorbFlipCNN.fc2 m) h = Ok z ∧
         shape z = [b; 585] ∧ wf z.
Proof.
  intros (_ & _ & _ & Hi1 & Ho1 & Hi2 & Ho2) Hv.
  rewrite <- Hi1 in Hv.
  destruct (linear_2d _ v b Hv) as (h & Eh & Sh & _).
  rewrite Ho1, <- Hi2 in Sh.
  destruct (linear_2d _ (F_relu h) b Sh) as (z & Ez & Sz & Wz).
  exists (F_relu h), z. rewrite Eh, fmap_Ok, Ez, Sz, Ho2. done.
Qed.

Lemma forward_ok m x b :
  architecture m → VoltorbFlipCNN.flattened_size m = 128 * 8 * 8 →
  shape x = [b; 3; 32; 32] → 0 < b →
  ∃ y, VoltorbFlipCNN.forward m x = Ok y ∧ shape y = [b; 585] ∧ wf y.
Proof.
  intros Ha Hfs Hx Hb. unfold VoltorbFlipCNN.forward.
  destruct (features_ok m x b Ha Hx) as (f & -> & Sf & _). rewrite bind_Ok.
  rewrite (flatten_batch_ok f b _ _ _ Sf Hb), bind_Ok.
  destruct (classifier_ok m (Tensor [b; 128 * (8 * 8)] (data f)) b Ha)
    as (h & z & -> & Ez & Sz & Wz).
  { cbn [shape]. rewrite Hfs. reflexivity. }
  rewrite bind_Ok, Ez, bind_Ok.
  eexists; split; [reflexivity|]. split; [done | by apply wf_tmap].
Qed.

Lemma forward_empty m x :
  architecture m → shape x = [0; 3; 32; 32] →
  VoltorbFlipCNN.forward m x =
  Raise (RuntimeError "the unspecified dimension size -1 can be any value and is ambiguous").
Proof.
  intros Ha Hx. unfold VoltorbFlipCNN.forward.
  destruct (features_ok m x 0 Ha Hx) as (f & -> & Sf & _). rewrite bind_Ok.
  by rewrite (flatten_batch_empty f _ Sf).
Qed.

(** ** The sigmoid *)



(** ** One-hot rows and their arg-max *)

Lemma tabulate_lookup {A} (l : list A) (f : nat → A) :
  (∀ i x, l !! i = Some x → f i = x) → tabulate (length l) f = l.
Proof.
  intros Hf. apply list_eq. intros i. unfold tabulate.
  rewrite list_lookup_fmap. destruct (l !! i) as [x|] eqn:E.
  - rewrite lookup_seq_lt by (by eapply lookup_lt_Some). cbn. by rewrite (Hf i x).
  - apply lookup_ge_None in E. rewrite lookup_seq_ge by done. done.
Qed.

Lemma length_one_hot_row n v : length (one_hot_row n v) = n.
Proof. apply length_tabulate. Qed.

(** A one-hot row is zero except for a single one at the class position. *)
Lemma one_hot_row_split n (v : Z) :
  (0 ≤ v < Z.of_nat n)%Z →
  one_hot_row n v = replicate (Z.to_nat v) 0%Z ++ 1%Z :: replicate (n - Z.to_nat v - 1) 0%Z.
Proof.
  intros Hv. apply list_eq. intros i. unfold one_hot_row, tabulate.
  rewrite list_lookup_fmap.
  destruct (decide (i < n)) as [Hi|Hi].
  - rewrite lookup_seq_lt by done. cbn [fmap option_fmap option_map Nat.add].
    destruct (decide (i < Z.to_nat v)) as [Hlt|Hge].
    + rewrite lookup_app_l by (rewrite length_replicate; lia).
      rewrite (lookup_replicate_2 (Z.to_nat v) 0%Z i) by done.
      destruct (Z.eqb_spec (Z.of_nat i) v); [lia | done].
    + rewrite lookup_app_r by (rewrite length_replicate; lia).
      rewrite length_replicate.
      destruct (decide (i = Z.to_nat v)) as [->|Hne].
      * rewrite Nat.sub_diag. cbn [lookup list_lookup].
        destruct (Z.eqb_spec (Z.of_nat (Z.to_nat v)) v); [done | lia].
      * destruct (i - Z.to_nat v) as [|j] eqn:Ej; [lia|]. rewrite lookup_cons.
        rewrite (lookup_replicate_2 (n - Z.to_nat v - 1) 0%Z j) by lia.
        destruct (Z.eqb_spec (Z.of_nat i) v); [lia | done].
  - rewrite lookup_seq_ge by lia. cbn [fmap option_fmap option_map].
    symmetry. apply lookup_ge_None.
    rewrite length_app, length_cons, !length_replicate. lia.
Qed.

(** Entries that do not exceed the running maximum leave it in place. *)
Lemma argmax_from_replicate {A} `{Scalar A} bi (best z : A) i k :
  sltb best z = false → argmax_from bi best i (replicate k z) = (best, bi).
Proof.
  intros Hz. revert i. induction k as [|k IH]; intros i; [done|].
  cbn [replicate argmax_from]. by rewrite Hz.
Qed.

Lemma argmax_from_skip {A} `{Scalar A} bi (best z : A) i k l :
  sltb best z = false →
  argmax_from bi best i (replicate k z ++ l) = argmax_from bi best (i + k) l.
Proof.
  intros Hz. revert i. induction k as [|k IH]; intros i.
  - cbn [replicate app]. by rewrite Nat.add_0_r.
  - cbn [replicate app argmax_from]. rewrite Hz, IH. f_equal. lia.
Qed.

Lemma row_max_one_hot n (v : Z) :
  (0 ≤ v < Z.of_nat n)%Z → row_max (one_hot_row n v) = (1%Z, Z.to_nat v).
Proof.
  intros Hv. rewrite one_hot_row_split by done.
  destruct (Z.to_nat v) as [|a] eqn:Ea.
  - cbn [replicate app row_max]. by apply argmax_from_replicate.
  - cbn [replicate app row_max].
    rewrite (argmax_from_skip 0 0%Z 0%Z 1 a) by done.
    cbn [argmax_from]. change (sltb 0%Z 1%Z) with true. cbv iota.
    by apply argmax_from_replicate.
Qed.

(** Rows of a concatenation of equally long pieces are the pieces. *)
Lemma row_of_flat_map {A B} (f : A → list B) k (l : list A) r x :
  (∀ y, length (f y) = k) → l !! r = Some x →
  row_of k (flat_map f l) r = f x.
Proof.
  intros Hf. unfold row_of. revert r. induction l as [|y l IH]; intros r Hr; [done|].
  cbn [flat_map]. destruct r as [|r].
  - injection Hr as ->. rewrite Nat.mul_0_l, drop_0.
    rewrite take_app_le by (rewrite Hf; lia).
    apply take_ge. rewrite Hf. lia.
  - rewrite lookup_cons in Hr. rewrite Nat.mul_succ_l, (Nat.add_comm (r * k)).
    rewrite drop_app_ge by (rewrite Hf; lia).
    rewrite Hf. replace (k + r * k - k) with (r * k) by lia. by apply IH.
Qed.

Lemma existsb_false_Forall {A} (p : A → bool) (l : list A) :
  Forall (λ x, p x = false) l → existsb p l = false.
Proof. induction 1 as [|x l Hx _ IH]; [done|]. cbn [existsb]. by rewrite Hx, IH. Qed.

Lemma one_hot_ok (t : tensor Z) n :
  Forall (λ v, 0 ≤ v < Z.of_nat n)%Z (data t) →
  F_one_hot t n = Ok (Tensor (shape t ++ [n]) (flat_map (one_hot_row n) (data t))).
Proof.
  intros Hv. unfold F_one_hot.
  rewrite !existsb_false_Forall; [done| |].
  - eapply Forall_impl; [exact Hv|]. cbn. intros v Hvn. apply Z.leb_gt. lia.
  - eapply Forall_impl; [exact Hv|]. cbn. intros v Hvn. apply Z.ltb_ge. lia.
Qed.

(** Decoding a storage made of one-hot rows gives back the classes. *)
Lemma torch_max_one_hot (labels : list Z) n :
  0 < n → Forall (λ v, 0 ≤ v < Z.of_nat n)%Z labels →
  torch_max_dim1 (Tensor [length labels; n] (flat_map (one_hot_row n) labels)) =
  Ok (Tensor [length labels] ((λ _, 1%Z) <$> labels), Tensor [length labels] labels).
Proof.
  intros Hn Hv. unfold torch_max_dim1. cbn [shape data].
  destruct (n =? 0) eqn:E; [apply Nat.eqb_eq in E; lia|].
  assert (tabulate (length labels)
            (λ r, row_max (row_of n (flat_map (one_hot_row n) labels) r)) =
          (λ v, (1%Z, Z.to_nat v)) <$> labels) as ->.
  { rewrite <- (length_fmap (λ v, (1%Z, Z.to_nat v)) labels) at 1.
    apply tabulate_lookup. intros i x Hi.
    apply list_lookup_fmap_Some in Hi as (v & -> & Hi).
    rewrite (row_of_flat_map _ n labels i v) by (done || apply length_one_hot_row).
    apply row_max_one_hot. rewrite Forall_lookup in Hv. by apply (Hv i). }
  rewrite <- !list_fmap_compose. do 3 f_equal.
  rewrite <- (list_fmap_id labels) at 2.
  apply Forall_fmap_ext. eapply Forall_impl; [exact Hv|].
  cbn. intros v Hvn. lia.
Qed.

(** ** Arg-max indices are positions of the row *)

Lemma argmax_from_bound {A} `{Scalar A} bi (best : A) i l :
  bi < i → (argmax_from bi best i l).2 < i + length l.
Proof.
  revert bi best i. induction l as [|v l IH]; intros bi best i Hbi.
  - cbn [argmax_from length snd]. lia.
  - cbn [argmax_from length]. destruct (sltb best v).
    + specialize (IH i v (S i)). lia.
    + specialize (IH bi best (S i)). lia.
Qed.

Lemma row_max_bound {A} `{Scalar A} (row : list A) k :
  0 < k → length row ≤ k → (row_max row).2 < k.
Proof.
  intros Hk Hrow. destruct row as [|v l]; [done|].
  cbn [row_max]. cbn [length] in Hrow.
  pose proof (argmax_from_bound 0 v 1 l). lia.
Qed.

Lemma length_row_of {A} k (d : list A) r : length (row_of k d r) ≤ k.
Proof. unfold row_of. rewrite length_take. lia. Qed.

(** What [decode] returns on a well-shaped output: one index per group. *)
Lemma decode_rows {A} `{Scalar A} (t : tensor A) n :
  numel (shape t) = n * 13 →
  ∃ values,
    VoltorbFlipCNN.decode t =
    Ok (values,
        Tensor [n] ((λ g, Z.of_nat (row_max (row_of 13 (data t) g)).2) <$> seq 0 n)).
Proof.
  intros Hn. unfold VoltorbFlipCNN.decode, VoltorbFlipCNN.N_CLASSES.
  rewrite (view_shape t _ [n; 13]).
  - rewrite bind_Ok. unfold torch_max_dim1. cbn [shape data Nat.eqb].
    eexists. f_equal. f_equal. f_equal.
    unfold tabulate. by rewrite <- list_fmap_compose.
  - rewrite infer_size_rows by (lia || (rewrite Hn; apply Nat.Div0.mod_mul)).
    by rewrite Hn, Nat.div_mul.
Qed.

Lemma zero_model_init : VoltorbFlipCNN.__init__ zero_parameters = Ok zero_model.
Proof.
  unfold VoltorbFlipCNN.__init__.
  rewrite get_flattened_size_ok by apply nn_Conv2d_conv3x3.
  reflexivity.
Qed.

(** ** The shape and range of the model output *)

(** C1 (as stated, for every batch size) fails on the empty batch: with
    [batch = 0] the flattening [x.view(x.size(0), -1)] cannot infer the
    second dimension and [forward] raises instead of returning a tensor of
    shape (0, 585). *)
Lemma forward_empty_batch_raises :
  VoltorbFlipCNN.__init__ zero_parameters = Ok zero_model ∧
  shape (zeros [0; 3; 32; 32]) = [0; 3; 32; 32] ∧
  wf (zeros [0; 3; 32; 32]) ∧
  VoltorbFlipCNN.forward zero_model (zeros [0; 3; 32; 32]) =
  Raise (RuntimeError "the unspecified dimension size -1 can be any value and is ambiguous").
Proof.
  split; [apply zero_model_init|]. split; [reflexivity|]. split; [apply wf_zeros|].
  apply forward_empty; [|reflexivity].
  by destruct (init_architecture _ _ zero_model_init).
Qed.

(** C1 (amended): for every input batch of shape (batch, 3, 32, 32) with
    batch >= 1, [VoltorbFlipCNN.forward] returns a (well-formed) tensor of
    shape (batch, 585), where 585 = 45 cells times 13 classes. *)
Theorem forward_output_shape θ m b x :
  VoltorbFlipCNN.__init__ θ = Ok m →
  shape x = [b; 3; 32; 32] →
  0 < b →
  ∃ y, VoltorbFlipCNN.forward m x = Ok y ∧
       shape y = [b; 585] ∧ wf y ∧
       585 = VoltorbFlipCNN.N_FEATURES * VoltorbFlipCNN.N_CLASSES.
Proof.
  intros Hm Hx Hb. destruct (init_architecture θ m Hm) as [Ha Hfs].
  destruct (forward_ok m x b Ha Hfs Hx Hb) as (y & Hy & Sy & Wy).
  exists y. done.
Qed.

Lemma forward_output_shape_witness :
  ∃ y, VoltorbFlipCNN.forward zero_model (zeros [1; 3; 32; 32]) = Ok y ∧
       shape y = [1; 585] ∧ wf y ∧
       585 = VoltorbFlipCNN.N_FEATURES * VoltorbFlipCNN.N_CLASSES.
Proof.
  apply (forward_output_shape zero_parameters zero_model 1 (zeros [1; 3; 32; 32])).
  - apply zero_model_init.
  - reflexivity.
  - lia.
Defined.



(** C10: for every input of spatial size 32x32, the feature map that
    [forward] flattens has 128 * 8 * 8 entries per sample, which is the
    value [_get_flattened_size] computed at construction time and the input
    width of [fc1]; hence whenever the flattening yields a tensor (it does
    for every non-empty batch), [fc1] accepts it. *)
Theorem flattened_size_matches_forward θ m b x :
  VoltorbFlipCNN.__init__ θ = Ok m →
  shape x = [b; 3; 32; 32] →
  VoltorbFlipCNN._get_flattened_size
    (VoltorbFlipCNN.conv1 m) (VoltorbFlipCNN.conv2 m) (VoltorbFlipCNN.conv3 m) =
    Ok (VoltorbFlipCNN.flattened_size m) ∧
  in_features (VoltorbFlipCNN.fc1 m) = VoltorbFlipCNN.flattened_size m ∧
  ∃ f, VoltorbFlipCNN.features m x = Ok f ∧
       shape f = [b; 128; 8; 8] ∧
       128 * 8 * 8 = VoltorbFlipCNN.flattened_size m ∧
       (0 < b → is_Ok (VoltorbFlipCNN.flatten_batch f)) ∧
       ∀ v, VoltorbFlipCNN.flatten_batch f = Ok v →
            shape v = [b; VoltorbFlipCNN.flattened_size m] ∧
            is_Ok (linear (VoltorbFlipCNN.fc1 m) v).
Proof.
  intros Hm Hx. destruct (init_architecture θ m Hm) as [Ha Hfs].
  pose proof Ha as (H1 & H2 & H3 & Hi1 & _).
  split; [|split; [done|]].
  { rewrite Hfs. by apply get_flattened_size_ok. }
  destruct (features_ok m x b Ha Hx) as (f & Hf & Sf & _).
  exists f. split; [done|]. split; [done|]. split; [done|]. split.
  - intros Hb. rewrite (flatten_batch_ok f b _ _ _ Sf Hb). by eexists.
  - intros v Hv. destruct b as [|b].
    { by rewrite (flatten_batch_empty f _ Sf) in Hv. }
    rewrite (flatten_batch_ok f (S b) _ _ _ Sf) in Hv by lia.
    injection Hv as <-. cbn [shape]. rewrite Hfs. split; [reflexivity|].
    destruct (linear_2d (VoltorbFlipCNN.fc1 m)
                (Tensor [S b; 128 * (8 * 8)] (data f)) (S b)) as (h & Hh & _).
    { cbn [shape]. rewrite Hi1, Hfs. reflexivity. }
    by exists h.
Qed.

Lemma flattened_size_matches_forward_witness :
  VoltorbFlipCNN._get_flattened_size
    (VoltorbFlipCNN.conv1 zero_model) (VoltorbFlipCNN.conv2 zero_model)
    (VoltorbFlipCNN.conv3 zero_model) =
    Ok (VoltorbFlipCNN.flattened_size zero_model) ∧
  in_features (VoltorbFlipCNN.fc1 zero_model) = VoltorbFlipCNN.flattened_size zero_model ∧
  ∃ f, VoltorbFlipCNN.features zero_model (zeros [1; 3; 32; 32]) = Ok f ∧
       shape f = [1; 128; 8; 8] ∧
       128 * 8 * 8 = VoltorbFlipCNN.flattened_size zero_model ∧
       (0 < 1 → is_Ok (VoltorbFlipCNN.flatten_batch f)) ∧
       ∀ v, VoltorbFlipCNN.flatten_batch f = Ok v →
            shape v = [1; VoltorbFlipCNN.flattened_size zero_model] ∧
            is_Ok (linear (VoltorbFlipCNN.fc1 zero_model) v).
Proof.
  apply (flattened_size_matches_forward zero_parameters zero_model 1 (zeros [1; 3; 32; 32])).
  - apply zero_model_init.
  - reflexivity.
Defined.

(** C2: a label vector of 45 entries in [0, 13), encoded as in
    [VoltorbFlipScreenshotDataset.__getitem__] (one-hot, flattened to width
    585) and decoded as in [Trainer.evaluate] (arg-max of each group of 13),
    gives back exactly the original 45 indices. *)
Theorem one_hot_argmax_roundtrip (labels : list Z) :
  length labels = VoltorbFlipCNN.N_FEATURES →
  Forall (λ v, 0 ≤ v < 13)%Z labels →
  ∃ encoded values,
    flatten <$> F_one_hot (torch_tensor labels) VoltorbFlipCNN.N_CLASSES = Ok encoded ∧
    shape encoded = [585] ∧
    VoltorbFlipCNN.decode encoded = Ok (values, Tensor [45] labels).
Proof.
  unfold VoltorbFlipCNN.N_FEATURES, VoltorbFlipCNN.N_CLASSES. intros Hlen Hv.
  rewrite one_hot_ok by exact Hv. rewrite fmap_Ok.
  unfold flatten, torch_tensor. cbn [shape data]. rewrite Hlen.
  eexists _, _. split; [reflexivity|]. split; [reflexivity|].
  unfold VoltorbFlipCNN.decode, VoltorbFlipCNN.N_CLASSES.
  rewrite (view_shape _ _ [45; 13]) by reflexivity.
  rewrite bind_Ok. cbn [data]. rewrite <- Hlen.
  apply torch_max_one_hot; [lia | exact Hv].
Qed.

Lemma one_hot_argmax_roundtrip_witness :
  ∃ encoded values,
    flatten <$> F_one_hot (torch_tensor ((λ i, Z.of_nat (i mod 13)) <$> seq 0 45))
                  VoltorbFlipCNN.N_CLASSES = Ok encoded ∧
    shape encoded = [585] ∧
    VoltorbFlipCNN.decode encoded =
    Ok (values, Tensor [45] ((λ i, Z.of_nat (i mod 13)) <$> seq 0 45)).
Proof.
  apply (one_hot_argmax_roundtrip ((λ i, Z.of_nat (i mod 13)) <$> seq 0 45)).
  - reflexivity.
  - apply Forall_forall. intros v Hv. apply list_elem_of_fmap in Hv as (i & -> & _).
    pose proof (Nat.mod_upper_bound i 13). lia.
Defined.



(** ** The dataset *)

Lemma existsb_false_inv {A} (p : A → bool) (l : list A) :
  existsb p l = false → Forall (λ x, p x = false) l.
Proof.
  induction l as [|x l IH]; [by constructor|]. cbn [existsb].
  intros [Hx Hl]%orb_false_iff. constructor; auto.
Qed.

Lemma one_hot_raises (t : tensor Z) n :
  Exists (λ v, ¬ (0 ≤ v < Z.of_nat n)%Z) (data t) → raises (F_one_hot t n).
Proof.
  intros Hbad. unfold F_one_hot.
  destruct (existsb (λ v, (v <? 0)%Z) (data t)) eqn:Eneg; [by eexists|].
  destruct (existsb (λ v, (Z.of_nat n <=? v)%Z) (data t)) eqn:Ebig; [by eexists|].
  exfalso. apply existsb_false_inv in Eneg, Ebig.
  apply Exists_exists in Hbad as (v & Hv & Hbad). apply Hbad.
  rewrite Forall_forall in Eneg, Ebig.
  specialize (Eneg v Hv). specialize (Ebig v Hv). cbn in Eneg, Ebig.
  apply Z.ltb_ge in Eneg. apply Z.leb_gt in Ebig. lia.
Qed.




(** C6 (as stated, for any malformed label row) fails on a row of the wrong
    width: [__getitem__] does not check the number of labels, so a row with
    two labels instead of 45 (its image being present) makes the call return
    a sample, with a target of width 26, instead of raising. *)
Lemma getitem_accepts_short_row :
  example_files !! VoltorbFlipScreenshotDataset.image_path short_dataset 0 = Some (480, 640) ∧
  iloc (VoltorbFlipScreenshotDataset.visible_states short_dataset) 0 = Ok [0; 2; 5]%Z ∧
  length (drop 1 [0; 2; 5]%Z) ≠ VoltorbFlipCNN.N_FEATURES ∧
  VoltorbFlipScreenshotDataset.__getitem__ example_files short_dataset 0 =
  Ok (VoltorbFlipScreenshotDataset.PILImage (480, 640),
      Tensor [26] (one_hot_row 13 2 ++ one_hot_row 13 5)).
Proof.
  split; [vm_compute; reflexivity|]. split; [reflexivity|].
  split; [discriminate | vm_compute; reflexivity].
Qed.

(** C6 (amended): [__getitem__] handles no error: when the image file
    [{idx}.png] is missing, or when the label row has an entry outside
    [0, 13), the call raises (the exception of [Image.open], respectively of
    [one_hot], propagates) instead of returning a sample, an error value or
    a default. *)
Theorem getitem_propagates_errors {image} `{Imaging image} (fs : gmap string image)
    (self : VoltorbFlipScreenshotDataset.t image) (idx : Z) :
  fs !! VoltorbFlipScreenshotDataset.image_path self idx = None ∨
  (∃ row, iloc (VoltorbFlipScreenshotDataset.visible_states self) idx = Ok row ∧
          Exists (λ v, ¬ (0 ≤ v < 13)%Z) (drop 1 row)) →
  ∃ e, VoltorbFlipScreenshotDataset.__getitem__ fs self idx = Raise e ∧
       (fs !! VoltorbFlipScreenshotDataset.image_path self idx = None →
        e = FileNotFoundError (VoltorbFlipScreenshotDataset.image_path self idx)).
Proof.
  intros Hbad.
  unfold VoltorbFlipScreenshotDataset.__getitem__, Image_open.
  fold (VoltorbFlipScreenshotDataset.image_path self idx).
  destruct (fs !! VoltorbFlipScreenshotDataset.image_path self idx) as [img|] eqn:Eimg.
  - destruct Hbad as [?|(row & Hrow & Hbad)]; [done|].
    rewrite fmap_Ok, bind_Ok, Hrow, fmap_Ok, bind_Ok.
    destruct (one_hot_raises (torch_tensor (drop 1 row)) VoltorbFlipCNN.N_CLASSES Hbad)
      as [e He].
    rewrite He. exists e. split; [reflexivity | done].
  - eexists. split; [reflexivity | done].
Qed.

Lemma getitem_propagates_errors_witness :
  ∃ e, VoltorbFlipScreenshotDataset.__getitem__ example_files example_dataset 1 = Raise e ∧
       (example_files !! VoltorbFlipScreenshotDataset.image_path example_dataset 1 = None →
        e = FileNotFoundError (VoltorbFlipScreenshotDataset.image_path example_dataset 1)).
Proof.
  apply (getitem_propagates_errors example_files example_dataset 1).
  right. exists (1%Z :: 13%Z :: replicate 44 0%Z). split; [reflexivity|].
  apply Exists_cons_hd. lia.
Defined.

(** A missing file: index 2 has no screenshot in [example_files]. *)
Example getitem_missing_file :
  VoltorbFlipScreenshotDataset.__getitem__ example_files example_dataset 2 =
  Raise (FileNotFoundError "./training_data/screenshots/2.png").
Proof. vm_compute. reflexivity. Qed.

(** ** The train/test split *)

Lemma train_size_bounds n : (0 ≤ n)%Z → (0 ≤ train_size n ≤ n)%Z.
Proof.
  intros Hn. unfold train_size, python_int.
  change (Qnum (0.8 * inject_Z n)) with (8 * n)%Z.
  change (Z.pos (Qden (0.8 * inject_Z n))) with 10%Z.
  pose proof (Z.quot_rem' (8 * n) 10) as Hq.
  pose proof (Z.rem_bound_pos (8 * n) 10) as Hr. lia.
Qed.

Lemma slice_bound_nonneg len i :
  (0 ≤ i)%Z → slice_bound len i = Z.to_nat (Z.min i len).
Proof. intros Hi. unfold slice_bound. destruct (Z.ltb_spec i 0); [lia | done]. Qed.

(** [l[a:b]] with both bounds inside the list. *)
Lemma py_slice_inside {A} (l : list A) (a b : nat) :
  a ≤ b ≤ length l →
  py_slice l (Z.of_nat a) (Z.of_nat b) = drop a (take b l).
Proof.
  intros Hab. unfold py_slice. rewrite !slice_bound_nonneg by lia.
  f_equal; [|f_equal]; lia.
Qed.

Lemma random_split_two (n a : nat) (randperm : Z → list Z) :
  a ≤ n → n ≠ 1 → length (randperm (Z.of_nat n)) = n →
  random_split (Z.of_nat n) [Z.of_nat a; Z.of_nat (n - a)] randperm =
  Ok [take a (randperm (Z.of_nat n)); drop a (randperm (Z.of_nat n))].
Proof.
  intros Ha Hn Hlen. unfold random_split.
  assert (sumZ [Z.of_nat a; Z.of_nat (n - a)] = Z.of_nat n) as Hsum.
  { unfold sumZ. cbn [foldr]. lia. }
  rewrite Hsum. destruct (Z.eqb_spec (Z.of_nat n) 1); [lia|].
  rewrite bind_Ok, Hsum, Z.eqb_refl. cbn [negb].
  unfold accumulate. cbn [accumulate_from zip_with]. do 2 f_equal.
  - replace (0 + Z.of_nat a - Z.of_nat a)%Z with (Z.of_nat 0) by lia.
    replace (0 + Z.of_nat a)%Z with (Z.of_nat a) by lia.
    rewrite py_slice_inside by lia. apply drop_0.
  - f_equal.
    replace (0 + Z.of_nat a + Z.of_nat (n - a) - Z.of_nat (n - a))%Z
      with (Z.of_nat a) by lia.
    replace (0 + Z.of_nat a + Z.of_nat (n - a))%Z with (Z.of_nat n) by lia.
    rewrite py_slice_inside by lia. by rewrite take_ge by lia.
Qed.

(** With a single item the two lengths [0; 1] sum to one and are read as
    fractions; the subsets are the same. *)
Lemma random_split_single (randperm : Z → list Z) :
  length (randperm 1%Z) = 1 →
  random_split 1 [0%Z; 1%Z] randperm = Ok [take 0 (randperm 1%Z); drop 0 (randperm 1%Z)].
Proof.
  intros Hlen. unfold random_split.
  assert ((if (sumZ [0%Z; 1%Z] =? 1)%Z then fraction_lengths 1 [0%Z; 1%Z]
           else Ok [0%Z; 1%Z]) = Ok [0%Z; 1%Z]) as -> by reflexivity.
  rewrite bind_Ok. change (sumZ [0%Z; 1%Z]) with 1%Z.
  change (negb (1 =? 1)%Z) with false. cbv iota.
  change (accumulate [0%Z; 1%Z]) with [0%Z; 1%Z]. cbn [zip_with].
  change (0 - 0)%Z with (Z.of_nat 0). change (1 - 1)%Z with (Z.of_nat 0).
  change (py_slice (randperm 1%Z) (Z.of_nat 0) 0)
    with (py_slice (randperm 1%Z) (Z.of_nat 0) (Z.of_nat 0)).
  change (py_slice (randperm 1%Z) (Z.of_nat 0) 1)
    with (py_slice (randperm 1%Z) (Z.of_nat 0) (Z.of_nat 1)).
  rewrite !py_slice_inside by lia.
  by rewrite (take_ge _ 1) by lia.
Qed.

(** C3: for a dataset of length [n], the split computed in [main]
    ([train_size = int(0.8 * n)], [test_size = n - train_size], realised by
    [random_split]) yields two index subsets of these sizes, which sum to
    [n], are disjoint, and together hold every index once. *)
Theorem train_test_split_partition (n : nat) (randperm : Z → list Z) :
  randperm (Z.of_nat n) ≡ₚ (Z.of_nat <$> seq 0 n) →
  ∃ train test,
    random_split (Z.of_nat n) [train_size (Z.of_nat n); test_size (Z.of_nat n)] randperm =
      Ok [train; test] ∧
    Z.of_nat (length train) = train_size (Z.of_nat n) ∧
    Z.of_nat (length test) = test_size (Z.of_nat n) ∧
    length train + length test = n ∧
    (∀ i, i ∈ train → i ∉ test) ∧
    train ++ test ≡ₚ (Z.of_nat <$> seq 0 n).
Proof.
  intros Hperm.
  assert (length (randperm (Z.of_nat n)) = n) as Hlen.
  { by rewrite Hperm, length_fmap, length_seq. }
  assert (NoDup (randperm (Z.of_nat n))) as Hnd.
  { rewrite Hperm. apply NoDup_fmap; [apply Nat2Z.inj' | apply NoDup_seq]. }
  pose proof (train_size_bounds (Z.of_nat n) ltac:(lia)) as Hts.
  set (a := Z.to_nat (train_size (Z.of_nat n))).
  assert (train_size (Z.of_nat n) = Z.of_nat a) as Ea by (unfold a; lia).
  assert (test_size (Z.of_nat n) = Z.of_nat (n - a)) as Eb by (unfold test_size; lia).
  exists (take a (randperm (Z.of_nat n))), (drop a (randperm (Z.of_nat n))).
  split; [|split; [|split; [|split; [|split]]]].
  - rewrite Ea, Eb. destruct (decide (n = 1)) as [->|Hn1].
    + replace a with 0 by (unfold a; reflexivity). by apply random_split_single.
    + apply random_split_two; lia.
  - rewrite length_take. lia.
  - rewrite length_drop. lia.
  - rewrite length_take, length_drop. lia.
  - rewrite <- (take_drop a (randperm (Z.of_nat n))) in Hnd.
    apply NoDup_app in Hnd as (_ & Hdisj & _). done.
  - by rewrite take_drop.
Qed.

Lemma train_test_split_partition_witness :
  ∃ train test,
    random_split 10 [train_size 10; test_size 10] (λ _, [3; 8; 1; 9; 4; 0; 7; 2; 6; 5]%Z) =
      Ok [train; test] ∧
    Z.of_nat (length train) = train_size 10 ∧
    Z.of_nat (length test) = test_size 10 ∧
    length train + length test = 10 ∧
    (∀ i, i ∈ train → i ∉ test) ∧
    train ++ test ≡ₚ (Z.of_nat <$> seq 0 10).
Proof.
  apply (train_test_split_partition 10 (λ _, [3; 8; 1; 9; 4; 0; 7; 2; 6; 5]%Z)).
  apply (bool_decide_unpack _). vm_compute. exact I.
Defined.

Example split_of_ten :
  random_split 10 [train_size 10; test_size 10] (λ _, [3; 8; 1; 9; 4; 0; 7; 2; 6; 5]%Z) =
  Ok [[3; 8; 1; 9; 4; 0; 7; 2]%Z; [6; 5]%Z].
Proof. vm_compute. reflexivity. Qed.

Example split_of_one : random_split 1 [train_size 1; test_size 1] (λ _, [0%Z]) = Ok [[]; [0%Z]].
Proof. vm_compute. reflexivity. Qed.

(** ** Logged computations *)

Lemma bind_emit {A} (e : event) (f : unit → M A) tr :
  (emit e ≫= f) tr = f tt (tr ++ [e]).
Proof. reflexivity. Qed.

Lemma bind_lift_Ok {A B} (a : A) (f : A → M B) tr : (lift (Ok a) ≫= f) tr = f a tr.
Proof. reflexivity. Qed.

Lemma bind_lift_Raise {A B} (e : exn) (f : A → M B) tr :
  (lift (Raise e) ≫= f) tr = (Raise e, tr).
Proof. reflexivity. Qed.

(** ** Evaluation *)

Lemma linear_2d_inv L x y n k :
  shape x = [n; k] → linear L x = Ok y → shape y = [n; out_features L].
Proof.
  intros Hx. unfold linear, linear_shape. rewrite Hx. cbn [reverse rev_append].
  destruct (k =? in_features L); [|discriminate].
  rewrite bind_Ok. by intros [= <-].
Qed.

Lemma flatten_batch_inv x v :
  VoltorbFlipCNN.flatten_batch x = Ok v → ∃ n k, 0 < n ∧ shape v = [n; k].
Proof.
  unfold VoltorbFlipCNN.flatten_batch. intros Hv.
  apply bind_Ok_inv in Hv as (n & _ & Hv). unfold view in Hv.
  rewrite infer_size_batch in Hv.
  destruct (n =? 0) eqn:En; [discriminate|]. apply Nat.eqb_neq in En.
  destruct (_ mod n =? 0); [|discriminate].
  rewrite bind_Ok in Hv. injection Hv as <-.
  eexists n, _. split; [lia | reflexivity].
Qed.

(** Whatever the input, a tensor returned by [forward] has one row of 585
    entries per sample, and at least one row. *)
Lemma forward_shape_inv m x y :
  architecture m → VoltorbFlipCNN.forward m x = Ok y →
  ∃ n, 0 < n ∧ shape y = [n; 585].
Proof.
  intros (_ & _ & _ & _ & Ho1 & _ & Ho2). unfold VoltorbFlipCNN.forward. intros Hy.
  apply bind_Ok_inv in Hy as (f & _ & Hy).
  apply bind_Ok_inv in Hy as (v & Hv & Hy).
  apply bind_Ok_inv in Hy as (h & Hh & Hy).
  apply bind_Ok_inv in Hy as (z & Hz & Hy).
  injection Hy as <-.
  apply flatten_batch_inv in Hv as (n & k & Hn & Sv).
  apply fmap_Ok_inv in Hh as (h0 & Hh0 & ->).
  apply (linear_2d_inv _ _ _ n k Sv) in Hh0.
  apply (linear_2d_inv _ (F_relu h0) _ n (out_features (VoltorbFlipCNN.fc1 m)) Hh0) in Hz.
  exists n. split; [done|]. cbn [F_sigmoid tmap shape]. by rewrite Hz, Ho2.
Qed.

Lemma sum_item_eq_self (s : list nat) (l : list Z) :
  sum_item (Tensor s (zip_with Z.eqb l l)) = Z.of_nat (length l).
Proof.
  unfold sum_item. cbn [data]. f_equal.
  induction l as [|v l IH]; [done|].
  cbn [zip_with]. rewrite Z.eqb_refl, filter_cons_True by done.
  cbn [length]. by rewrite IH.
Qed.

Lemma decode_cells {A} `{Scalar A} (t : tensor A) values decoded n :
  shape t = [n; 585] → VoltorbFlipCNN.decode t = Ok (values, decoded) →
  shape decoded = [n * 45] ∧ length (data decoded) = n * 45.
Proof.
  intros St Hd. destruct (decode_rows t (n * 45)) as (values' & Hd').
  { rewrite St. unfold numel. cbn [foldr]. lia. }
  rewrite Hd in Hd'. injection Hd' as _ ->. cbn [shape data].
  by rewrite length_fmap, length_seq.
Qed.

Lemma evaluate_batch_all_correct m b correct total :
  architecture m → all_correct m b →
  ∃ cells, (0 < cells)%Z ∧
    Trainer.evaluate_batch m (correct, total) b = Ok (correct + cells, total + cells)%Z.
Proof.
  intros Ha (output & vo & vl & decoded & Hout & Hdo & Hdl).
  destruct b as [screenshots labels]. cbn [fst snd] in *.
  destruct (forward_shape_inv m screenshots output Ha Hout) as (n & Hn & Sout).
  destruct (decode_cells output vo decoded n Sout Hdo) as [Sd Ld].
  exists (Z.of_nat (n * 45)). split; [lia|].
  unfold Trainer.evaluate_batch. rewrite Hout, bind_Ok, Hdo, bind_Ok, Hdl, bind_Ok.
  unfold tensor_eq. rewrite Sd, Nat.eqb_refl, bind_Ok.
  rewrite sum_item_eq_self, Ld. unfold numel. cbn [foldr].
  by rewrite Nat.mul_1_r.
Qed.

Lemma evaluate_loop_all_correct m batches correct total :
  architecture m → Forall (all_correct m) batches →
  ∃ cells, (Z.of_nat (length batches) ≤ cells)%Z ∧
    foldM (Trainer.evaluate_batch m) (correct, total) batches =
    Ok (correct + cells, total + cells)%Z.
Proof.
  intros Ha Hall. revert correct total.
  induction Hall as [|b batches Hb _ IH]; intros correct total.
  - exists 0%Z. split; [done|]. cbn [foldM]. by rewrite !Z.add_0_r.
  - destruct (evaluate_batch_all_correct m b correct total Ha Hb) as (c1 & Hc1 & E1).
    destruct (IH (correct + c1)%Z (total + c1)%Z) as (c2 & Hc2 & E2).
    exists (c1 + c2)%Z. split; [cbn [length]; lia|].
    cbn [foldM]. rewrite E1, bind_Ok, E2. by rewrite !Z.add_assoc.
Qed.

(** A sequential loader over a non-empty subset yields at least one batch. *)
Lemma DataLoader_iter_nonempty {image} `{Imaging image} (fs : gmap string image)
    (ds : Subset (VoltorbFlipScreenshotDataset.t image)) (k : nat) (dl : DataLoader image)
    (perm : list nat) (batches : list batch) :
  new_DataLoader ds k false = Ok dl →
  indices ds ≠ [] →
  DataLoader_iter fs dl perm = Ok batches →
  batches ≠ [].
Proof.
  unfold new_DataLoader. destruct (k =? 0) eqn:Ek; [discriminate|].
  cbn [andb]. intros [= <-] Hne. unfold DataLoader_iter.
  cbn [shuffle loader_dataset batch_size].
  destruct (indices ds) as [|i l]; [done|]. cbn [length seq].
  unfold chunks. cbn [length chunks_go mapM].
  intros Hb. apply bind_Ok_inv in Hb as (b & _ & Hb).
  apply bind_Ok_inv in Hb as (bs & _ & Hb). by injection Hb as <-.
Qed.

(** C4: when the held-out set is not empty, so that its loader yields at
    least one batch, and, in every batch, the per-cell arg-max of the model
    output equals the per-cell arg-max of the one-hot labels, the accuracy
    that [Trainer.evaluate] computes ([correct / total * 100], [total]
    counting cells), prints and returns is 100. *)
Theorem evaluate_all_correct {optimizer} θ (self : Trainer.t optimizer)
    (batches : list batch) (tr : list event) :
  VoltorbFlipCNN.__init__ θ = Ok (Trainer.model self) →
  Trainer.test_loader self 0 = Ok batches →
  batches ≠ [] →
  Forall (all_correct (Trainer.model self)) batches →
  ∃ accuracy,
    Trainer.evaluate self tr =
      (Ok accuracy, tr ++ [Invoke m_evaluate; PrintAccuracy accuracy]) ∧
    (accuracy == 100)%Q.
Proof.
  intros Hm Hloader Hne Hall.
  destruct (init_architecture θ _ Hm) as [Ha _].
  destruct (evaluate_loop_all_correct _ batches 0%Z 0%Z Ha Hall) as (cells & Hcells & Hloop).
  assert (0 < cells)%Z as Hpos.
  { destruct batches; [done|]. cbn [length] in Hcells. lia. }
  exists (inject_Z cells / inject_Z cells * 100)%Q. split.
  - unfold Trainer.evaluate. rewrite bind_emit, Hloader, bind_lift_Ok, Hloop, bind_lift_Ok.
    rewrite !Z.add_0_l. unfold py_truediv.
    destruct (Z.eqb_spec cells 0); [lia|].
    rewrite bind_lift_Ok, bind_emit. unfold mret, M_ret.
    by rewrite <- app_assoc.
  - assert (¬ inject_Z cells == 0)%Q as Hnz.
    { unfold Qeq, inject_Z. cbn [Qnum Qden]. lia. }
    unfold Qdiv. rewrite Qmult_inv_r by exact Hnz. reflexivity.
Qed.

(** ** The zero model on a blank screenshot *)

Lemma tabulate_const {A} (f : nat → A) (c : A) n :
  (∀ i, i < n → f i = c) → tabulate n f = replicate n c.
Proof.
  intros Hf. apply list_eq. intros i. unfold tabulate. rewrite list_lookup_fmap.
  destruct (decide (i < n)) as [Hi|Hi].
  - rewrite lookup_seq_lt, (lookup_replicate_2 n c i) by done. cbn. by rewrite Hf.
  - rewrite lookup_seq_ge by lia. symmetry. apply lookup_replicate_None. lia.
Qed.

Lemma for_replicate {A} (f : nat → list A) (c : A) n k :
  (∀ i, f i = replicate k c) → for_ n f = replicate (n * k) c.
Proof.
  intros Hf. unfold for_. generalize 0 as s.
  induction n as [|n IH]; intros s; [done|].
  cbn [seq flat_map]. rewrite Hf, IH, <- replicate_add. done.
Qed.

Lemma nth_tabulate_zero k n : nth k (tabulate n (λ _, 0%R)) 0%R = 0%R.
Proof.
  rewrite (tabulate_const _ 0%R) by done. rewrite nth_lookup.
  destruct (replicate n 0%R !! k) as [v|] eqn:E; [|done].
  by apply lookup_replicate in E as [-> _].
Qed.

Lemma Rsum_zero (l : list R) : Forall (λ v, v = 0%R) l → Rsum l = 0%R.
Proof.
  induction 1 as [|v l -> _ IH]; [done|]. unfold Rsum in *. cbn [foldr].
  rewrite IH. lra.
Qed.

(** A fully-connected layer whose parameters are zero outputs zeros. *)
Lemma linear_data_zero fin fout rows d :
  linear_data (nn_Linear fin fout (λ _, 0%R) (λ _, 0%R)) rows d =
  replicate (rows * fout) 0%R.
Proof.
  unfold linear_data. cbn [nn_Linear in_features out_features lweight lbias data].
  apply for_replicate. intros r. apply tabulate_const. intros o _.
  rewrite nth_tabulate_zero, Rsum_zero; [lra|].
  apply Forall_fmap, Forall_forall. intros i _. cbn.
  rewrite nth_tabulate_zero. lra.
Qed.

Lemma forward_last_layer m x y :
  VoltorbFlipCNN.forward m x = Ok y →
  ∃ rows d, data y = sigmoid <$> linear_data (VoltorbFlipCNN.fc2 m) rows d.
Proof.
  unfold VoltorbFlipCNN.forward. intros Hy.
  apply bind_Ok_inv in Hy as (f & _ & Hy).
  apply bind_Ok_inv in Hy as (v & _ & Hy).
  apply bind_Ok_inv in Hy as (h & _ & Hy).
  apply bind_Ok_inv in Hy as (z & Hz & Hy).
  injection Hy as <-. unfold linear in Hz.
  apply bind_Ok_inv in Hz as (s' & _ & Hz). injection Hz as <-.
  eexists _, _. reflexivity.
Qed.

(** The zero model answers one half in every cell and class. *)
Lemma zero_model_forward :
  ∃ y, VoltorbFlipCNN.forward zero_model (zeros [1; 3; 32; 32]) = Ok y ∧
       shape y = [1; 585] ∧ data y = replicate (1 * 585) (sigmoid 0).
Proof.
  destruct (init_architecture _ _ zero_model_init) as [Ha Hfs].
  destruct (forward_ok zero_model (zeros [1; 3; 32; 32]) 1 Ha Hfs eq_refl)
    as (y & Hy & Sy & Wy); [lia|].
  exists y. split; [done|]. split; [done|].
  destruct (forward_last_layer _ _ _ Hy) as (rows & d & Hd).
  unfold zero_model in Hd. cbn [VoltorbFlipCNN.fc2] in Hd.
  unfold zero_parameters in Hd. rewrite linear_data_zero, fmap_replicate in Hd.
  unfold wf in Wy. rewrite Sy, Hd, length_replicate in Wy.
  rewrite Hd. f_equal. exact Wy.
Qed.

Lemma row_of_replicate {A} (c : A) k n g :
  g < n → row_of k (replicate (n * k) c) g = replicate k c.
Proof.
  intros Hg. unfold row_of. rewrite drop_replicate, take_replicate. f_equal. nia.
Qed.

Lemma row_max_replicate_R (c : R) k : (row_max (replicate k c)).2 = 0.
Proof.
  destruct k as [|k]; [done|]. cbn [replicate row_max].
  rewrite argmax_from_replicate; [done|].
  cbn. destruct (Rlt_dec c c) as [Hlt|_]; [lra | done].
Qed.

(** With equal scores in every group, the first class is predicted. *)
Lemma decode_constant (t : tensor R) (c : R) n :
  shape t = [n; 585] → data t = replicate (n * 585) c →
  ∃ values, VoltorbFlipCNN.decode t = Ok (values, Tensor [n * 45] (replicate (n * 45) 0%Z)).
Proof.
  intros St Dt. destruct (decode_rows t (n * 45)) as (values & ->).
  { rewrite St. unfold numel. cbn [foldr]. lia. }
  exists values. do 3 f_equal.
  apply (tabulate_const _ 0%Z). intros g Hg.
  rewrite Dt. replace (n * 585) with (n * 45 * 13) by lia.
  by rewrite row_of_replicate, row_max_replicate_R.
Qed.

Lemma example_batch_all_correct : all_correct zero_model example_batch.
Proof.
  destruct zero_model_forward as (y & Hy & Sy & Dy).
  destruct (decode_constant y _ 1 Sy Dy) as (values & Hdec).
  exists y, values, (Tensor [45] (replicate 45 1%Z)), (Tensor [45] (replicate 45 0%Z)).
  split; [exact Hy|]. split; [exact Hdec|]. vm_compute. reflexivity.
Qed.

Lemma evaluate_all_correct_witness :
  ∃ accuracy,
    Trainer.evaluate example_trainer [] =
      (Ok accuracy, [] ++ [Invoke m_evaluate; PrintAccuracy accuracy]) ∧
    (accuracy == 100)%Q.
Proof.
  apply (evaluate_all_correct zero_parameters example_trainer [example_batch] []).
  - apply zero_model_init.
  - reflexivity.
  - discriminate.
  - constructor; [apply example_batch_all_correct | constructor].
Defined.

(** ** The order of the trainer's methods *)

Lemma invoked_app tr tr' : invoked (tr ++ tr') = invoked tr ++ invoked tr'.
Proof. apply omap_app. Qed.

Lemma quiet_lift {A} (r : result A) : quiet (lift r).
Proof. by intros tr. Qed.

Lemma quiet_mret {A} (a : A) : quiet (mret a : M A).
Proof. by intros tr. Qed.

Lemma quiet_emit e : invoked [e] = [] → quiet (emit e).
Proof.
  intros He tr. unfold emit. cbn [snd]. by rewrite invoked_app, He, app_nil_r.
Qed.

Lemma quiet_bind {A B} (c : M A) (f : A → M B) :
  quiet c → (∀ a, quiet (f a)) → quiet (c ≫= f).
Proof.
  intros Hc Hf tr. unfold mbind, M_bind. specialize (Hc tr).
  destruct (c tr) as [[a|e] tr']; cbn [snd] in *; [|done].
  by rewrite Hf.
Qed.

Lemma quiet_forM {A B} (f : B → A → M B) (acc : B) (l : list A) :
  (∀ b a, quiet (f b a)) → quiet (forM f acc l).
Proof.
  intros Hf. revert acc. induction l as [|x l IH]; intros acc.
  - apply quiet_mret.
  - cbn [forM]. apply quiet_bind; [apply Hf | intros b; apply IH].
Qed.

Lemma enters_intro {A} (m : method) (body : M A) :
  quiet body → enters m (emit (Invoke m) ≫= λ _, body).
Proof.
  intros Hq tr. rewrite bind_emit, Hq. by rewrite invoked_app.
Qed.

Lemma train_enters {optimizer} bs (self : Trainer.t optimizer) :
  enters m_train (Trainer.train bs self).
Proof.
  apply enters_intro, quiet_forM. intros t episode.
  apply quiet_bind; [apply quiet_lift|]. intros batches.
  apply quiet_bind; [apply quiet_lift|]. intros [t' total_loss].
  apply quiet_bind; [by apply quiet_emit | intros _; apply quiet_mret].
Qed.

Lemma evaluate_enters {optimizer} (self : Trainer.t optimizer) :
  enters m_evaluate (Trainer.evaluate self).
Proof.
  apply enters_intro.
  apply quiet_bind; [apply quiet_lift|]. intros batches.
  apply quiet_bind; [apply quiet_lift|]. intros [correct total].
  apply quiet_bind; [apply quiet_lift|]. intros ratio.
  apply quiet_bind; [by apply quiet_emit | intros _; apply quiet_mret].
Qed.

Lemma save_model_enters {optimizer} writable (self : Trainer.t optimizer) :
  enters m_save_model (Trainer.save_model writable self).
Proof.
  apply enters_intro. apply quiet_bind.
  - destruct (writable _); [by apply quiet_emit | apply quiet_lift].
  - intros _. by apply quiet_emit.
Qed.

Lemma print_weights_enters {optimizer} (self : Trainer.t optimizer) :
  enters m_print_weights (Trainer.print_weights self).
Proof.
  apply enters_intro, quiet_forM. intros _ p. by apply quiet_emit.
Qed.

(** C8: once [main] has built the dataset, the split, the loaders, the
    model, the optimizer and the loss, it invokes [Trainer.train], then
    [Trainer.evaluate], then [Trainer.save_model], then
    [Trainer.print_weights]: [train] is entered first; in every run the
    methods entered form an initial part of that sequence (an exception ends
    the run); and a run that completes has entered exactly the four, in
    that order. *)
Theorem main_invokes_trainer_in_order {image} `{Imaging image} {optimizer}
    (env : environment image optimizer) :
  (is_Ok (setup env) → ∃ rest, invoked (main env []).2 = m_train :: rest) ∧
  invoked (main env []).2 `prefix_of`
    [m_train; m_evaluate; m_save_model; m_print_weights] ∧
  ((main env []).1 = Ok tt →
   invoked (main env []).2 = [m_train; m_evaluate; m_save_model; m_print_weights]).
Proof.
  unfold main, mbind, M_bind, lift. destruct (setup env) as [t0|e].
  2:{ cbn [fst snd invoked omap].
      split; [by intros [? ?]|]. split; [apply prefix_nil | done]. }
  pose proof (train_enters (backward_step env) t0 []) as H1.
  destruct (Trainer.train (backward_step env) t0 []) as [[t1|e1] tr1]; cbn [snd] in H1.
  2:{ cbn [fst snd]. rewrite H1. cbn [invoked omap app].
      split; [eauto|]. split; [by eexists | done]. }
  pose proof (evaluate_enters t1 tr1) as H2.
  destruct (Trainer.evaluate t1 tr1) as [[acc|e2] tr2]; cbn [snd] in H2.
  2:{ cbn [fst snd]. rewrite H2, H1. cbn [invoked omap app].
      split; [eauto|]. split; [by eexists | done]. }
  pose proof (save_model_enters (writable env) t1 tr2) as H3.
  destruct (Trainer.save_model (writable env) t1 tr2) as [[[]|e3] tr3]; cbn [snd] in H3.
  2:{ cbn [fst snd]. rewrite H3, H2, H1. cbn [invoked omap app].
      split; [eauto|]. split; [by eexists | done]. }
  pose proof (print_weights_enters t1 tr3) as H4.
  rewrite H4, H3, H2, H1. cbn [invoked omap app].
  split; [eauto|]. split; [done | done].
Qed.

(** ** A complete run of [main] *)

Lemma setup_example : setup example_environment = Ok run_trainer.
Proof.
  unfold setup.
  assert (pd_read_csv (csv_files example_environment)
            "./training_data/visible_states.csv" = Ok run_table) as ->
    by (vm_compute; reflexivity).
  rewrite bind_Ok. cbv zeta.
  assert (random_split
            (VoltorbFlipScreenshotDataset.__len__
               (VoltorbFlipScreenshotDataset.__init__ "./training_data/screenshots/"
                  run_table (Some (VoltorbFlipCNN.TRANSFORM (image:=blank_image)))))
            [train_size _; test_size _] (randperm example_environment) =
          Ok [[1%Z]; [0%Z]]) as -> by (vm_compute; reflexivity).
  rewrite bind_Ok.
  unfold new_DataLoader. cbn [Nat.eqb indices length andb]. rewrite !bind_Ok.
  change (initial_parameters example_environment) with zero_parameters.
  rewrite zero_model_init, bind_Ok. reflexivity.
Qed.

Lemma run_loaders pass :
  Trainer.train_loader run_trainer pass = Ok [example_batch] ∧
  Trainer.test_loader run_trainer pass = Ok [example_batch].
Proof. split; vm_compute; reflexivity. Qed.

Lemma forM_emit_ok {A} (f : A → event) (l : list A) tr :
  (forM (λ _ x, emit (f x)) tt l tr).1 = Ok tt.
Proof.
  revert tr. induction l as [|x l IH]; intros tr; [done|].
  cbn [forM]. rewrite bind_emit. apply IH.
Qed.

(** Training whose optimizer steps leave the trainer unchanged returns it. *)
Lemma train_steady {optimizer} bs (self : Trainer.t optimizer) tr :
  (∀ episode, ∃ batches total_loss,
     Trainer.train_loader self episode = Ok batches ∧
     foldM (Trainer.train_batch bs) (self, 0%R) batches = Ok (self, total_loss)) →
  ∃ tr', Trainer.train bs self tr = (Ok self, tr').
Proof.
  intros Hstep. unfold Trainer.train. rewrite bind_emit.
  generalize (tr ++ [Invoke m_train]) as tr0.
  generalize (seq 0 (Trainer.episodes self)) as l.
  induction l as [|episode l IH]; intros tr0; [by eexists|].
  cbn [forM]. destruct (Hstep episode) as (batches & total_loss & -> & Hfold).
  unfold mbind at 1, M_bind at 1.
  rewrite bind_lift_Ok, Hfold, bind_lift_Ok, bind_emit.
  unfold mret, M_ret. apply IH.
Qed.

Lemma run_train tr :
  ∃ tr', Trainer.train (backward_step example_environment) run_trainer tr =
         (Ok run_trainer, tr').
Proof.
  apply train_steady. intros episode. exists [example_batch], (0 + 0)%R.
  split; [apply run_loaders|].
  cbn [foldM]. unfold Trainer.train_batch, example_batch.
  destruct zero_model_forward as (y & Hy & _).
  change (Trainer.model run_trainer) with zero_model. rewrite Hy, bind_Ok.
  reflexivity.
Qed.

Lemma save_model_ok {optimizer} writable (self : Trainer.t optimizer) tr :
  writable (Trainer.model_path self) = true →
  (Trainer.save_model writable self tr).1 = Ok tt.
Proof. intros Hw. unfold Trainer.save_model. by rewrite bind_emit, Hw, !bind_emit. Qed.

Lemma print_weights_ok {optimizer} (self : Trainer.t optimizer) tr :
  (Trainer.print_weights self tr).1 = Ok tt.
Proof. unfold Trainer.print_weights. rewrite bind_emit. apply forM_emit_ok. Qed.

Lemma run_evaluate tr :
  ∃ accuracy tr', Trainer.evaluate run_trainer tr = (Ok accuracy, tr').
Proof.
  destruct (init_architecture _ _ zero_model_init) as [Ha _].
  destruct (evaluate_loop_all_correct zero_model [example_batch] 0%Z 0%Z Ha)
    as (cells & Hcells & Hloop).
  { constructor; [apply example_batch_all_correct | constructor]. }
  cbn [length] in Hcells.
  unfold Trainer.evaluate. rewrite bind_emit.
  rewrite (proj2 (run_loaders 0)), bind_lift_Ok.
  change (Trainer.model run_trainer) with zero_model.
  rewrite Hloop, bind_lift_Ok, !Z.add_0_l. unfold py_truediv.
  destruct (Z.eqb_spec cells 0); [lia|].
  rewrite bind_lift_Ok, bind_emit. by eexists _, _.
Qed.

Lemma main_example_run : (main example_environment []).1 = Ok tt.
Proof.
  unfold main. rewrite setup_example, bind_lift_Ok.
  destruct (run_train []) as (tr1 & H1).
  destruct (run_evaluate tr1) as (acc & tr2 & H2).
  unfold mbind, M_bind. rewrite H1, H2.
  pose proof (save_model_ok (writable example_environment) run_trainer tr2 eq_refl) as H3.
  destruct (Trainer.save_model _ run_trainer tr2) as [[[]|e] tr3]; [|done].
  apply print_weights_ok.
Qed.

Lemma main_invokes_trainer_in_order_witness :
  (main example_environment []).1 = Ok tt ∧
  invoked (main example_environment []).2 =
  [m_train; m_evaluate; m_save_model; m_print_weights].
Proof.
  split; [apply main_example_run|].
  apply (main_invokes_trainer_in_order example_environment), main_example_run.
Defined.

(** * Further properties of the code *)

(** ** Which inputs [forward] accepts *)

Lemma conv3x3_inv L cin cout x y n c h w :
  conv3x3 L cin cout → shape x = [n; c; h; w] → conv2d L x = Ok y →
  c = cin ∧ 0 < h ∧ 0 < w ∧ shape y = [n; cout; h; w].
Proof.
  intros (Hin & Hout & Hk & Hs & Hp) Hx. unfold conv2d. rewrite Hx. cbn [batched].
  intros Hy. apply bind_Ok_inv in Hy as (s' & Hs' & Hy). injection Hy as <-.
  unfold conv2d_shape in Hs'. rewrite Hin, Hout, Hk, Hs, Hp in Hs'.
  destruct (Nat.eqb_spec c cin); [|discriminate]. cbn [negb Nat.eqb] in Hs'.
  destruct (h + 2 * 1 <? 3) eqn:E1; [discriminate|].
  destruct (w + 2 * 1 <? 3) eqn:E2; [discriminate|].
  apply Nat.ltb_ge in E1, E2. cbn [orb] in Hs'. injection Hs' as <-.
  cbn [shape unbatched_like]. unfold conv_out_size. rewrite !Nat.div_1_r.
  repeat split; [done | lia | lia |]. repeat f_equal; lia.
Qed.

Lemma half_pool h : 2 ≤ h → (h - 2) / 2 + 1 = h / 2.
Proof.
  intros Hh. replace h with (h - 2 + 1 * 2) at 2 by lia.
  by rewrite Nat.div_add.
Qed.

Lemma max_pool2_inv x y n c h w :
  shape x = [n; c; h; w] → F_max_pool2d x 2 = Ok y →
  2 ≤ h ∧ 2 ≤ w ∧ shape y = [n; c; h / 2; w / 2].
Proof.
  intros Hx. unfold F_max_pool2d. rewrite Hx. cbn [batched].
  intros Hy. apply bind_Ok_inv in Hy as (s' & Hs' & Hy). injection Hy as <-.
  unfold max_pool2d_shape in Hs'. cbn [Nat.eqb] in Hs'.
  destruct (c =? 0); [discriminate|].
  destruct (h <? 2) eqn:E1; [discriminate|].
  destruct (w <? 2) eqn:E2; [discriminate|].
  apply Nat.ltb_ge in E1, E2. cbn [orb] in Hs'. rewrite !half_pool in Hs' by done.
  by injection Hs' as <-.
Qed.

Lemma max_pool2_ok x n c h w :
  shape x = [n; c; h; w] → 0 < c → 2 ≤ h → 2 ≤ w →
  ∃ y, F_max_pool2d x 2 = Ok y ∧ shape y = [n; c; h / 2; w / 2].
Proof.
  intros Hx Hc Hh Hw.
  destruct (max_pool2d_4d x 2 n c h w [n; c; h / 2; w / 2] Hx) as (y & Hy & Sy & _);
    [|by exists y].
  unfold max_pool2d_shape. cbn [Nat.eqb].
  destruct (Nat.eqb_spec c 0); [lia|].
  destruct (Nat.ltb_spec h 2); [lia|]. destruct (Nat.ltb_spec w 2); [lia|].
  cbn [orb]. by rewrite !half_pool.
Qed.

Lemma features_inv m x f n c h w :
  architecture m → shape x = [n; c; h; w] → VoltorbFlipCNN.features m x = Ok f →
  c = 3 ∧ 4 ≤ h ∧ 4 ≤ w ∧ shape f = [n; 128; h / 2 / 2; w / 2 / 2].
Proof.
  intros (H1 & H2 & H3 & _) Hx. unfold VoltorbFlipCNN.features. intros Hf.
  apply bind_Ok_inv in Hf as (x1 & E1 & Hf).
  apply fmap_Ok_inv in E1 as (y1 & E1 & ->).
  apply (conv3x3_inv _ _ _ _ _ _ _ _ _ H1 Hx) in E1 as (-> & Hh & Hw & S1).
  apply bind_Ok_inv in Hf as (x2 & E2 & Hf).
  apply (max_pool2_inv (F_relu y1) _ _ _ _ _ S1) in E2 as (Hh2 & Hw2 & S2).
  apply bind_Ok_inv in Hf as (x3 & E3 & Hf).
  apply fmap_Ok_inv in E3 as (y3 & E3 & ->).
  apply (conv3x3_inv _ _ _ _ _ _ _ _ _ H2 S2) in E3 as (_ & _ & _ & S3).
  apply bind_Ok_inv in Hf as (x4 & E4 & Hf).
  apply (max_pool2_inv (F_relu y3) _ _ _ _ _ S3) in E4 as (Hh4 & Hw4 & S4).
  apply fmap_Ok_inv in Hf as (y5 & E5 & ->).
  apply (conv3x3_inv _ _ _ _ _ _ _ _ _ H3 S4) in E5 as (_ & _ & _ & S5).
  split; [done|]. split; [|split; [|done]].
  - destruct (decide (4 ≤ h)); [done|].
    assert (h / 2 < 2) by (apply Nat.Div0.div_lt_upper_bound; lia). lia.
  - destruct (decide (4 ≤ w)); [done|].
    assert (w / 2 < 2) by (apply Nat.Div0.div_lt_upper_bound; lia). lia.
Qed.

Lemma features_any_size m x n h w :
  architecture m → shape x = [n; 3; h; w] → 4 ≤ h → 4 ≤ w →
  ∃ f, VoltorbFlipCNN.features m x = Ok f ∧ shape f = [n; 128; h / 2 / 2; w / 2 / 2].
Proof.
  intros (H1 & H2 & H3 & _) Hx Hh Hw. unfold VoltorbFlipCNN.features.
  assert (2 ≤ h / 2 ∧ 2 ≤ w / 2) as [Hh2 Hw2].
  { split; apply Nat.div_le_lower_bound; lia. }
  assert (1 ≤ h / 2 / 2 ∧ 1 ≤ w / 2 / 2) as [Hh4 Hw4].
  { split; apply Nat.div_le_lower_bound; lia. }
  destruct (conv3x3_step _ _ _ x n h w H1 Hx) as (x1 & -> & S1 & _); [lia..|].
  rewrite bind_Ok.
  destruct (max_pool2_ok x1 n 32 h w S1) as (x2 & -> & S2); [lia..|].
  rewrite bind_Ok.
  destruct (conv3x3_step _ _ _ x2 n _ _ H2 S2) as (x3 & -> & S3 & _); [lia..|].
  rewrite bind_Ok.
  destruct (max_pool2_ok x3 n 64 _ _ S3) as (x4 & -> & S4); [lia..|].
  rewrite bind_Ok.
  destruct (conv3x3_step _ _ _ x4 n _ _ H3 S4) as (x5 & -> & S5 & _); [lia..|].
  by exists x5.
Qed.

Lemma linear_2d_width L x y n k :
  shape x = [n; k] → linear L x = Ok y → k = in_features L.
Proof.
  intros Hx. unfold linear, linear_shape. rewrite Hx. cbn [reverse rev_append].
  destruct (Nat.eqb_spec k (in_features L)); [done | discriminate].
Qed.

Lemma forward_inv m x y b c h w :
  architecture m → VoltorbFlipCNN.flattened_size m = 128 * 8 * 8 →
  shape x = [b; c; h; w] → VoltorbFlipCNN.forward m x = Ok y →
  0 < b ∧ c = 3 ∧ (h / 2 / 2) * (w / 2 / 2) = 64 ∧ shape y = [b; 585].
Proof.
  intros Ha Hfs Hx Hy. pose proof Ha as (_ & _ & _ & Hi1 & Ho1 & _ & Ho2).
  unfold VoltorbFlipCNN.forward in Hy.
  apply bind_Ok_inv in Hy as (f & Hf & Hy).
  apply (features_inv m x f b c h w Ha Hx) in Hf as (-> & Hh & Hw & Sf).
  apply bind_Ok_inv in Hy as (v & Hv & Hy).
  destruct b as [|b]; [by rewrite (flatten_batch_empty f _ Sf) in Hv|].
  rewrite (flatten_batch_ok f (S b) _ _ _ Sf) in Hv by lia.
  assert (shape v = [S b; 128 * (h / 2 / 2 * (w / 2 / 2))]) as Sv.
  { assert (v = Tensor [S b; 128 * (h / 2 / 2 * (w / 2 / 2))] (data f)) as -> by congruence.
    reflexivity. }
  clear Hv. apply bind_Ok_inv in Hy as (h1 & Hh1 & Hy).
  apply fmap_Ok_inv in Hh1 as (h0 & Hh0 & ->).
  pose proof (linear_2d_width _ v _ (S b) _ Sv Hh0) as Hwidth.
  apply (linear_2d_inv _ v _ (S b) _ Sv) in Hh0.
  apply bind_Ok_inv in Hy as (z & Hz & Hy). injection Hy as <-.
  apply (linear_2d_inv _ (F_relu h0) _ (S b) _ Hh0) in Hz.
  rewrite Hi1, Hfs in Hwidth.
  split; [lia|]. split; [done|]. split; [lia|].
  cbn [F_sigmoid tmap shape]. by rewrite Hz, Ho2.
Qed.

Lemma forward_any_size m x b h w :
  architecture m → VoltorbFlipCNN.flattened_size m = 128 * 8 * 8 →
  shape x = [b; 3; h; w] → 0 < b → (h / 2 / 2) * (w / 2 / 2) = 64 →
  ∃ y, VoltorbFlipCNN.forward m x = Ok y.
Proof.
  intros Ha Hfs Hx Hb Hsize.
  assert (4 ≤ h ∧ 4 ≤ w) as [Hh Hw].
  { split.
    - destruct (decide (4 ≤ h)); [done|].
      assert (h / 2 / 2 = 0) as Hz; [|rewrite Hz in Hsize; lia].
      apply Nat.div_small. apply Nat.Div0.div_lt_upper_bound. lia.
    - destruct (decide (4 ≤ w)); [done|].
      assert (w / 2 / 2 = 0) as Hz; [|rewrite Hz in Hsize; lia].
      apply Nat.div_small. apply Nat.Div0.div_lt_upper_bound. lia. }
  unfold VoltorbFlipCNN.forward.
  destruct (features_any_size m x b h w Ha Hx Hh Hw) as (f & -> & Sf). rewrite bind_Ok.
  rewrite (flatten_batch_ok f b _ _ _ Sf Hb), bind_Ok.
  destruct (classifier_ok m (Tensor [b; 128 * (h / 2 / 2 * (w / 2 / 2))] (data f)) b Ha)
    as (h1 & z & -> & Ez & _).
  { cbn [shape]. rewrite Hfs, Hsize. reflexivity. }
  rewrite bind_Ok, Ez, bind_Ok. by eexists.
Qed.

(** X1: a 4-dimensional input of shape (b, c, h, w) is accepted by [forward]
    exactly when the batch is not empty, there are 3 channels, and the
    spatial sizes halved twice multiply to 64 (as 32x32 does, but also 35x33
    or 16x64); every other input makes it raise.  An accepted input yields
    shape (b, 585). *)
Theorem forward_accepts_iff θ m x b c h w :
  VoltorbFlipCNN.__init__ θ = Ok m →
  shape x = [b; c; h; w] →
  (is_Ok (VoltorbFlipCNN.forward m x) ↔ 0 < b ∧ c = 3 ∧ (h / 2 / 2) * (w / 2 / 2) = 64) ∧
  (raises (VoltorbFlipCNN.forward m x) ↔ ¬ (0 < b ∧ c = 3 ∧ (h / 2 / 2) * (w / 2 / 2) = 64)) ∧
  (∀ y, VoltorbFlipCNN.forward m x = Ok y → shape y = [b; 585]).
Proof.
  intros Hm Hx. destruct (init_architecture θ m Hm) as [Ha Hfs].
  assert (is_Ok (VoltorbFlipCNN.forward m x) ↔
          0 < b ∧ c = 3 ∧ h / 2 / 2 * (w / 2 / 2) = 64) as Hiff.
  { split.
    - intros [y Hy]. by destruct (forward_inv m x y b c h w Ha Hfs Hx Hy) as (? & ? & ? & _).
    - intros (Hb & -> & Hsize). apply (forward_any_size m x b h w); done. }
  split; [exact Hiff|]. split.
  - rewrite <- Hiff. unfold raises, is_Ok.
    destruct (VoltorbFlipCNN.forward m x) as [y|e].
    + split; [by intros [? ?] | intros Hn; exfalso; apply Hn; by exists y].
    + split; [by intros _ [? ?] | by exists e].
  - intros y Hy. by destruct (forward_inv m x y b c h w Ha Hfs Hx Hy) as (_ & _ & _ & ?).
Qed.

Lemma forward_accepts_iff_witness :
  (is_Ok (VoltorbFlipCNN.forward zero_model (zeros [2; 3; 35; 33])) ↔
     0 < 2 ∧ 3 = 3 ∧ (35 / 2 / 2) * (33 / 2 / 2) = 64) ∧
  (raises (VoltorbFlipCNN.forward zero_model (zeros [2; 3; 35; 33])) ↔
     ¬ (0 < 2 ∧ 3 = 3 ∧ (35 / 2 / 2) * (33 / 2 / 2) = 64)) ∧
  (∀ y, VoltorbFlipCNN.forward zero_model (zeros [2; 3; 35; 33]) = Ok y →
        shape y = [2; 585]).
Proof.
  apply (forward_accepts_iff zero_parameters zero_model (zeros [2; 3; 35; 33]) 2 3 35 33).
  - apply zero_model_init.
  - reflexivity.
Defined.

(** A 64x64 screenshot that was not resized is refused. *)
Example forward_rejects_64 : raises (VoltorbFlipCNN.forward zero_model (zeros [1; 3; 64; 64])).
Proof.
  destruct (init_architecture _ _ zero_model_init) as [Ha Hfs].
  destruct (VoltorbFlipCNN.forward zero_model (zeros [1; 3; 64; 64])) as [y|e] eqn:E;
    [|by exists e].
  destruct (forward_inv zero_model (zeros [1; 3; 64; 64]) _ 1 3 64 64 Ha Hfs eq_refl E) as (_ & _ & Hsize & _).
  vm_compute in Hsize. discriminate.
Qed.

(** ** Construction of the model *)

Lemma wf_tabulate_4 (a b c d : nat) (f : nat → R) :
  wf (Tensor [a; b; c; d] (tabulate (a * b * c * d) f)).
Proof. unfold wf. cbn [shape data]. rewrite length_tabulate, numel_4. lia. Qed.

Lemma wf_tabulate_2 (a b : nat) (f : nat → R) : wf (Tensor [a; b] (tabulate (a * b) f)).
Proof. unfold wf, numel. cbn [shape data foldr]. rewrite length_tabulate. lia. Qed.

Lemma wf_tabulate_1 (a : nat) (f : nat → R) : wf (Tensor [a] (tabulate a f)).
Proof. unfold wf, numel. cbn [shape data foldr]. rewrite length_tabulate. lia. Qed.

(** X2: constructing the model never raises, whatever the initial parameter
    values: the dummy pass of [_get_flattened_size] goes through and yields
    128 * 8 * 8; the model then holds ten well-formed parameter tensors of
    the shapes listed, whose entries are the initial values. *)
Theorem init_never_raises (θ : string → nat → R) :
  ∃ m, VoltorbFlipCNN.__init__ θ = Ok m ∧
       VoltorbFlipCNN.flattened_size m = 128 * 8 * 8 ∧
       (λ p, (p.1, shape p.2)) <$> Trainer.named_parameters m =
         [ ("conv1.weight", [32; 3; 3; 3]); ("conv1.bias", [32]);
           ("conv2.weight", [64; 32; 3; 3]); ("conv2.bias", [64]);
           ("conv3.weight", [128; 64; 3; 3]); ("conv3.bias", [128]);
           ("fc1.weight", [256; 128 * 8 * 8]); ("fc1.bias", [256]);
           ("fc2.weight", [585; 256]); ("fc2.bias", [585]) ] ∧
       Forall (λ p, wf p.2 ∧ ∀ i, i < length (data p.2) → data p.2 !! i = Some (θ p.1 i))
              (Trainer.named_parameters m).
Proof.
  unfold VoltorbFlipCNN.__init__.
  rewrite get_flattened_size_ok by apply nn_Conv2d_conv3x3.
  rewrite bind_Ok. eexists. split; [reflexivity|]. split; [reflexivity|].
  split; [reflexivity|].
  assert (∀ n (f : nat → R) i, i < length (tabulate n f) → tabulate n f !! i = Some (f i))
    as Hval.
  { intros n f i Hi. rewrite length_tabulate in Hi. unfold tabulate.
    by rewrite list_lookup_fmap, lookup_seq_lt. }
  unfold Trainer.named_parameters.
  repeat first [apply Forall_nil_2 | apply Forall_cons_2]; (split; [|apply Hval]).
  all: first [apply wf_tabulate_4 | apply wf_tabulate_2 | apply wf_tabulate_1].
Qed.

(** ** Targets *)





Lemma one_hot_inv (t : tensor Z) n y :
  F_one_hot t n = Ok y →
  Forall (λ v, 0 ≤ v < Z.of_nat n)%Z (data t) ∧
  y = Tensor (shape t ++ [n]) (flat_map (one_hot_row n) (data t)).
Proof.
  unfold F_one_hot.
  destruct (existsb (λ v, (v <? 0)%Z) (data t)) eqn:Eneg; [discriminate|].
  destruct (existsb (λ v, (Z.of_nat n <=? v)%Z) (data t)) eqn:Ebig; [discriminate|].
  intros [= <-]. split; [|done].
  apply existsb_false_inv in Eneg, Ebig. rewrite Forall_forall in Eneg, Ebig.
  apply Forall_forall. intros v Hv.
  specialize (Eneg v Hv). specialize (Ebig v Hv). cbn in Eneg, Ebig.
  apply Z.ltb_ge in Eneg. apply Z.leb_gt in Ebig. lia.
Qed.

Lemma getitem_inv {image} `{Imaging image} (fs : gmap string image)
    (self : VoltorbFlipScreenshotDataset.t image) idx sample :
  VoltorbFlipScreenshotDataset.__getitem__ fs self idx = Ok sample →
  ∃ img row,
    fs !! VoltorbFlipScreenshotDataset.image_path self idx = Some img ∧
    iloc (VoltorbFlipScreenshotDataset.visible_states self) idx = Ok row ∧
    Forall (λ v, 0 ≤ v < 13)%Z (drop 1 row) ∧
    sample.1 = match VoltorbFlipScreenshotDataset.transform self with
               | Some f => VoltorbFlipScreenshotDataset.TensorImage (f (convert_RGB img))
               | None => VoltorbFlipScreenshotDataset.PILImage (convert_RGB img)
               end ∧
    sample.2 = Tensor [length (drop 1 row) * 13] (flat_map (one_hot_row 13) (drop 1 row)).
Proof.
  unfold VoltorbFlipScreenshotDataset.__getitem__, Image_open.
  fold (VoltorbFlipScreenshotDataset.image_path self idx).
  destruct (fs !! VoltorbFlipScreenshotDataset.image_path self idx) as [img|]; [|discriminate].
  rewrite fmap_Ok, bind_Ok. intros Hs.
  apply bind_Ok_inv in Hs as (labels & Hl & Hs).
  apply fmap_Ok_inv in Hl as (row & Hrow & ->).
  apply bind_Ok_inv in Hs as (enc & He & Hs).
  apply fmap_Ok_inv in He as (oh & Hoh & ->).
  apply one_hot_inv in Hoh as [Hv ->]. injection Hs as <-.
  exists img, row. split; [done|]. split; [done|]. split; [exact Hv|]. split; [done|].
  cbn [snd]. unfold flatten, torch_tensor, numel, VoltorbFlipCNN.N_CLASSES.
  cbn [shape data app foldr]. do 2 f_equal; lia.
Qed.



(** ** Batches of targets *)

Lemma flat_map_data_one_hot (rows : list (list Z)) (s : list nat) :
  flat_map data ((λ l, Tensor s (flat_map (one_hot_row 13) l)) <$> rows) =
  flat_map (one_hot_row 13) (concat rows).
Proof.
  induction rows as [|l rows IH]; [done|].
  cbn [fmap list_fmap flat_map concat data]. rewrite IH.
  by rewrite flat_map_app.
Qed.

Lemma length_concat_const {A} (rows : list (list A)) k :
  Forall (λ l, length l = k) rows → length (concat rows) = length rows * k.
Proof.
  induction 1 as [|l rows Hl _ IH]; [done|].
  cbn [concat length]. rewrite length_app, Hl, IH. lia.
Qed.

Lemma torch_stack_same {A} (ts : list (tensor A)) (s : list nat) :
  ts ≠ [] → Forall (λ t, shape t = s) ts →
  torch_stack ts = Ok (Tensor (length ts :: s) (flat_map data ts)).
Proof.
  intros Hne Hs. destruct ts as [|t0 ts']; [done|]. unfold torch_stack.
  pose proof (Forall_inv Hs) as H0. cbn beta in H0. rewrite H0.
  rewrite (proj2 (forallb_forall _ _)); [done|].
  intros t Ht. apply bool_decide_eq_true_2.
  rewrite Forall_forall in Hs. apply Hs. by apply list_elem_of_In.
Qed.

(** X3: a batch of targets, stacked as the loader does, decodes as in
    [Trainer.evaluate] to the labels of its samples, in order: for label
    rows of 45 entries in [0, 13), [torch.stack] of their one-hot targets
    has shape (b, 585) and its per-cell arg-max is the concatenation of the
    rows. *)
Theorem batch_targets_roundtrip (rows : list (list Z)) :
  rows ≠ [] →
  Forall (λ l, length l = VoltorbFlipCNN.N_FEATURES) rows →
  Forall (Forall (λ v, 0 ≤ v < 13)%Z) rows →
  ∃ labels values,
    torch_stack ((λ l, Tensor [585] (flat_map (one_hot_row 13) l)) <$> rows) = Ok labels ∧
    shape labels = [length rows; 585] ∧ wf labels ∧
    VoltorbFlipCNN.decode labels = Ok (values, Tensor [length rows * 45] (concat rows)).
Proof.
  intros Hne Hlen Hv. unfold VoltorbFlipCNN.N_FEATURES in Hlen.
  destruct rows as [|l0 rows']; [done|]. set (rows := l0 :: rows') in *.
  assert (torch_stack ((λ l, Tensor [585] (flat_map (one_hot_row 13) l)) <$> rows) =
          Ok (Tensor [length rows; 585] (flat_map (one_hot_row 13) (concat rows)))) as Hst.
  { rewrite (torch_stack_same _ [585]).
    - by rewrite length_fmap, flat_map_data_one_hot.
    - done.
    - by apply Forall_fmap, Forall_true. }
  pose proof (length_concat_const rows 45 Hlen) as Hcl.
  eexists _, _. split; [exact Hst|]. split; [reflexivity|]. split.
  - unfold wf, numel. cbn [shape data foldr].
    rewrite (length_flat_map_const _ 13) by apply length_one_hot_row. lia.
  - unfold VoltorbFlipCNN.decode, VoltorbFlipCNN.N_CLASSES.
    rewrite (view_shape _ _ [length rows * 45; 13]).
    + rewrite bind_Ok. cbn [data]. rewrite <- Hcl.
      apply torch_max_one_hot; [lia|]. by apply Forall_concat.
    + cbn [shape]. replace (numel [length rows; 585]) with ((length rows * 45) * 13)
        by (unfold numel; cbn [foldr]; lia).
      rewrite infer_size_rows by (lia || apply Nat.Div0.mod_mul).
      by rewrite Nat.div_mul.
Qed.

Lemma batch_targets_roundtrip_witness :
  ∃ labels values,
    torch_stack ((λ l, Tensor [585] (flat_map (one_hot_row 13) l)) <$>
                 [example_labels; replicate 45 0%Z]) = Ok labels ∧
    shape labels = [2; 585] ∧ wf labels ∧
    VoltorbFlipCNN.decode labels =
      Ok (values, Tensor [2 * 45] (concat [example_labels; replicate 45 0%Z])).
Proof.
  apply (batch_targets_roundtrip [example_labels; replicate 45 0%Z]).
  - discriminate.
  - repeat constructor.
  - apply Forall_cons_2; [|apply Forall_cons_2; [|apply Forall_nil_2]].
    + apply Forall_forall. intros v Hv. apply list_elem_of_fmap in Hv as (i & -> & _).
      pose proof (Nat.mod_upper_bound i 13). lia.
    + apply Forall_forall. intros v Hv. apply elem_of_replicate in Hv as [-> _]. lia.
Defined.

(** ** Which indices [__getitem__] accepts *)

Lemma iloc_Ok_iff (df : DataFrame) (idx : Z) row :
  iloc df idx = Ok row ↔
  (- Z.of_nat (length df) ≤ idx < Z.of_nat (length df))%Z ∧
  df !! Z.to_nat (idx `mod` Z.of_nat (length df)) = Some row.
Proof.
  unfold iloc. set (n := Z.of_nat (length df)).
  destruct (Z.ltb_spec idx 0) as [Hneg|Hpos].
  - destruct (Z.leb_spec 0 (idx + n)) as [Hlo|Hlo]; cbn [andb].
    + destruct (Z.ltb_spec (idx + n) n) as [_|?]; [|lia].
      assert (idx `mod` n = idx + n)%Z as ->.
      { symmetry. apply (Z.mod_unique_pos idx n (-1)); lia. }
      destruct (df !! Z.to_nat (idx + n)) as [r|]; split.
      * intros [= <-]. split; [lia | done].
      * by intros [_ [= <-]].
      * discriminate.
      * by intros [_ ?].
    + split; [discriminate | lia].
  - destruct (Z.leb_spec 0 idx) as [_|?]; [|lia]. cbn [andb].
    destruct (Z.ltb_spec idx n) as [Hlt|Hge].
    + rewrite Z.mod_small by lia.
      destruct (df !! Z.to_nat idx) as [r|]; split.
      * intros [= <-]. split; [lia | done].
      * by intros [_ [= <-]].
      * discriminate.
      * by intros [_ ?].
    + split; [discriminate | lia].
Qed.

Lemma iloc_out_of_range (df : DataFrame) (idx : Z) :
  ¬ (- Z.of_nat (length df) ≤ idx < Z.of_nat (length df))%Z →
  ∃ msg, iloc df idx = Raise (IndexError msg).
Proof.
  intros Hout. unfold iloc. set (n := Z.of_nat (length df)) in *.
  destruct (Z.ltb_spec idx 0).
  - destruct (Z.leb_spec 0 (idx + n)); [lia|]. cbn [andb]. by eexists.
  - destruct (Z.leb_spec 0 idx); [|lia].
    destruct (Z.ltb_spec idx n); [lia|]. cbn [andb]. by eexists.
Qed.


(** X6: with the file [{idx}.png] present, an index outside [-len, len)
    makes [__getitem__] raise [IndexError] (from [iloc]); the image has been
    opened by then. *)
Theorem getitem_index_error {image} `{Imaging image} (fs : gmap string image)
    (self : VoltorbFlipScreenshotDataset.t image) (idx : Z) :
  is_Some (fs !! VoltorbFlipScreenshotDataset.image_path self idx) →
  ¬ (- VoltorbFlipScreenshotDataset.__len__ self ≤ idx <
       VoltorbFlipScreenshotDataset.__len__ self)%Z →
  ∃ msg, VoltorbFlipScreenshotDataset.__getitem__ fs self idx = Raise (IndexError msg).
Proof.
  intros [img Himg] Hout.
  unfold VoltorbFlipScreenshotDataset.__getitem__, Image_open.
  fold (VoltorbFlipScreenshotDataset.image_path self idx).
  rewrite Himg, fmap_Ok, bind_Ok.
  destruct (iloc_out_of_range _ idx Hout) as [msg ->]. by exists msg.
Qed.

Lemma getitem_index_error_witness :
  ∃ msg, VoltorbFlipScreenshotDataset.__getitem__
           (<["./training_data/screenshots/7.png" := (480, 640)]> example_files)
           short_dataset 7 = Raise (IndexError msg).
Proof.
  apply (getitem_index_error
           (<["./training_data/screenshots/7.png" := (480, 640)]> example_files)
           short_dataset 7).
  - exists (480, 640). vm_compute. reflexivity.
  - vm_compute. intros [_ Hlt]. discriminate.
Defined.

(** ** File names *)

Lemma pretty_N_go_ne_slash x s s' : s ≠ "/" +:+ s' → pretty_N_go x s ≠ "/" +:+ s'.
Proof.
  revert s. induction (N.lt_wf_0 x) as [x _ IH]; intros s ?.
  assert (x = 0 ∨ 0 < x)%N as [->|?] by lia.
  - by rewrite pretty_N_go_0.
  - rewrite pretty_N_go_step by done. apply IH.
    { by apply N.div_lt. }
    unfold pretty_N_char. by repeat case_match.
Qed.

Lemma pretty_Z_ne_slash (idx : Z) s' : pretty idx ≠ "/" +:+ s'.
Proof.
  destruct idx as [|p|p]; unfold pretty, pretty_Z; [done| |done].
  unfold pretty, pretty_positive, pretty, pretty_N.
  case_decide; [done|]. by apply pretty_N_go_ne_slash.
Qed.

Lemma prefix_slash_inv (b : string) : String.prefix "/" b = true → ∃ s', b = "/" +:+ s'.
Proof.
  destruct b as [|c b]; [discriminate|]. intros Hp. cbn [String.prefix] in Hp.
  destruct (ascii_dec "/" c) as [<-|]; [|discriminate]. by exists b.
Qed.

Lemma string_length_app (s1 s2 : string) :
  String.length (s1 +:+ s2) = String.length s1 + String.length s2.
Proof.
  induction s1 as [|c s1 IH]; [done|].
  change (String c s1 +:+ s2) with (String c (s1 +:+ s2)).
  cbn [String.length]. by rewrite IH.
Qed.

Lemma string_app_assoc (s1 s2 s3 : string) : s1 +:+ (s2 +:+ s3) = (s1 +:+ s2) +:+ s3.
Proof.
  induction s1 as [|c s1 IH]; [done|].
  change (String c (s1 +:+ (s2 +:+ s3)) = String c ((s1 +:+ s2) +:+ s3)). by rewrite IH.
Qed.

Lemma app_inj_r (s1 s2 t : string) : s1 +:+ t = s2 +:+ t → s1 = s2.
Proof.
  revert s2. induction s1 as [|c s1 IH]; intros [|d s2] Heq.
  - done.
  - apply (f_equal String.length) in Heq.
    rewrite !string_length_app in Heq. cbn [String.length] in Heq. lia.
  - apply (f_equal String.length) in Heq.
    rewrite !string_length_app in Heq. cbn [String.length] in Heq. lia.
  - change (String c (s1 +:+ t) = String d (s2 +:+ t)) in Heq.
    injection Heq as -> Heq. f_equal. by apply IH.
Qed.

Lemma image_path_eq {image} (self : VoltorbFlipScreenshotDataset.t image) :
  ∃ folder, ∀ idx,
    VoltorbFlipScreenshotDataset.image_path self idx = folder +:+ (pretty idx +:+ ".png").
Proof.
  unfold VoltorbFlipScreenshotDataset.image_path, os_path_join.
  set (a := VoltorbFlipScreenshotDataset.image_folder self).
  exists (if bool_decide (a = "") || ends_with_slash a then a else a +:+ "/").
  intros idx.
  destruct (String.prefix "/" (pretty idx +:+ ".png")) eqn:Ep.
  - apply prefix_slash_inv in Ep as [s' Ep].
    destruct (pretty idx) as [|c p] eqn:Eidx.
    + discriminate.
    + cbn in Ep. injection Ep as -> _. by destruct (pretty_Z_ne_slash idx p).
  - destruct (bool_decide (a = "") || ends_with_slash a); [done|].
    apply string_app_assoc.
Qed.

(** X7: distinct indices name distinct files: the path [__getitem__] opens
    is an injective function of [idx], whatever the image folder. *)
Theorem image_path_injective {image} (self : VoltorbFlipScreenshotDataset.t image)
    (i j : Z) :
  VoltorbFlipScreenshotDataset.image_path self i =
  VoltorbFlipScreenshotDataset.image_path self j ↔ i = j.
Proof.
  split; [|by intros ->].
  destruct (image_path_eq self) as [folder Hp]. rewrite !Hp. intros Heq.
  apply String.app_inj, app_inj_r in Heq. by apply pretty_Z_inj in Heq.
Qed.

(** ** Sizes of the split *)




(** ** What the trainer prints and keeps *)

Lemma train_batch_configuration {optimizer} bs (self self' : Trainer.t optimizer)
    total total' b :
  Trainer.train_batch bs (self, total) b = Ok (self', total') →
  same_configuration self' self.
Proof.
  unfold Trainer.train_batch. destruct b as [screenshots labels]. intros Hb.
  apply bind_Ok_inv in Hb as (output & _ & Hb).
  apply bind_Ok_inv in Hb as (loss & _ & Hb).
  destruct (bs _ _ _ _) as [o m]. injection Hb as <- _. by repeat split.
Qed.

Lemma same_configuration_trans {optimizer} (a b c : Trainer.t optimizer) :
  same_configuration a b → same_configuration b c → same_configuration a c.
Proof.
  intros (?&?&?&?&?) (?&?&?&?&?). repeat split; congruence.
Qed.

Lemma train_loop_configuration {optimizer} bs (batches : list batch)
    (self self' : Trainer.t optimizer) total total' :
  foldM (Trainer.train_batch bs) (self, total) batches = Ok (self', total') →
  same_configuration self' self.
Proof.
  revert self total. induction batches as [|b batches IH]; intros self total.
  - intros [= <- _]. by repeat split.
  - cbn [foldM]. intros Hb. apply bind_Ok_inv in Hb as ([self1 total1] & H1 & Hb).
    eapply same_configuration_trans; [by eapply IH|].
    by eapply train_batch_configuration.
Qed.

Lemma episode_lines_cons E l losses :
  episode_lines E (l :: losses) =
  PrintEpisode 1 E l :: imap (λ i total_loss, PrintEpisode (S i + 1) E total_loss) losses.
Proof. reflexivity. Qed.

(** The episodes [k], [k + 1], ... of the training loop. *)
Lemma train_episodes_log {optimizer} bs E (n k : nat) (self : Trainer.t optimizer) tr r tr' :
  Trainer.episodes self = E →
  forM (λ self episode,
          batches ← lift (Trainer.train_loader self episode);
          '(self, total_loss) ← lift (foldM (Trainer.train_batch bs) (self, 0%R) batches);
          _ ← emit (PrintEpisode (episode + 1) (Trainer.episodes self) total_loss);
          mret self) self (seq k n) tr = (r, tr') →
  ∃ losses,
    tr' = tr ++ imap (λ i total_loss, PrintEpisode (k + i + 1) E total_loss) losses ∧
    match r with
    | Ok self' => length losses = n ∧ same_configuration self' self
    | Raise _ => length losses < n
    end.
Proof.
  revert k self tr. induction n as [|n IH]; intros k self tr HE.
  - cbn [seq forM]. intros [= <- <-]. exists []. cbn [imap]. rewrite app_nil_r.
    split; [done|]. split; [done|]. by repeat split.
  - cbn [seq forM]. unfold mbind at 1, M_bind at 1.
    destruct (Trainer.train_loader self k) as [batches|e].
    2:{ rewrite bind_lift_Raise. intros [= <- <-]. exists []. cbn [imap length].
        rewrite app_nil_r. split; [done | lia]. }
    rewrite bind_lift_Ok.
    destruct (foldM (Trainer.train_batch bs) (self, 0%R) batches) as [[self1 total]|e] eqn:Hf.
    2:{ rewrite bind_lift_Raise. intros [= <- <-]. exists []. cbn [imap length].
        rewrite app_nil_r. split; [done | lia]. }
    rewrite bind_lift_Ok, bind_emit. unfold mret at 1, M_ret at 1.
    apply train_loop_configuration in Hf as Hc.
    assert (Trainer.episodes self1 = E) as HE1 by (destruct Hc as (_&_&_&->&_); done).
    rewrite HE1. intros Hrest.
    apply (IH (S k) self1 _ HE1) in Hrest as (losses & -> & Hr).
    exists (total :: losses). split.
    + rewrite <- app_assoc. f_equal. cbn [imap app]. rewrite Nat.add_0_r. f_equal.
      apply imap_ext. intros i l _. cbn. f_equal. lia.
    + destruct r as [self'|e]; cbn [length]; [|lia].
      destruct Hr as [-> Hc']. split; [done|].
      by eapply same_configuration_trans.
Qed.

Lemma train_log {optimizer} bs (self : Trainer.t optimizer) tr :
  ∃ losses,
    (Trainer.train bs self tr).2 =
      tr ++ Invoke m_train :: episode_lines (Trainer.episodes self) losses ∧
    match (Trainer.train bs self tr).1 with
    | Ok self' => length losses = Trainer.episodes self ∧ same_configuration self' self
    | Raise _ => length losses < Trainer.episodes self
    end.
Proof.
  unfold Trainer.train. rewrite bind_emit.
  match goal with |- context [forM ?f self ?l ?t] => destruct (forM f self l t) as [r tr'] eqn:E end.
  apply (train_episodes_log bs (Trainer.episodes self)) in E as (losses & -> & Hr); [|done].
  exists losses. cbn [fst snd]. split; [|done].
  rewrite <- app_assoc. reflexivity.
Qed.

(** X9: [train] prints one line per completed episode, numbered from 1,
    each with the configured number of episodes, and nothing else. When it
    returns, every episode was completed and the trainer differs from the
    initial one at most in its model and optimizer state; when it raises,
    fewer lines than episodes were printed. *)
Theorem train_prints_each_episode {optimizer} bs (self : Trainer.t optimizer) tr :
  ∃ losses,
    (Trainer.train bs self tr).2 =
      tr ++ Invoke m_train :: episode_lines (Trainer.episodes self) losses ∧
    (∀ self', (Trainer.train bs self tr).1 = Ok self' →
       length losses = Trainer.episodes self ∧ same_configuration self' self) ∧
    (raises (Trainer.train bs self tr).1 → length losses < Trainer.episodes self).
Proof.
  destruct (train_log bs self tr) as (losses & Htr & Hr). exists losses.
  split; [done|]. destruct (Trainer.train bs self tr).1 as [s|e]; split.
  - by intros ? [= <-].
  - by intros [? ?].
  - done.
  - done.
Qed.

Lemma evaluate_log {optimizer} (self : Trainer.t optimizer) tr :
  (Trainer.evaluate self tr).2 =
    tr ++ Invoke m_evaluate ::
      match (Trainer.evaluate self tr).1 with
      | Ok accuracy => [PrintAccuracy accuracy]
      | Raise _ => []
      end.
Proof.
  unfold Trainer.evaluate. rewrite bind_emit.
  destruct (Trainer.test_loader self 0) as [batches|e]; [|done].
  rewrite bind_lift_Ok.
  destruct (foldM _ _ batches) as [[correct total]|e]; [|done].
  rewrite bind_lift_Ok.
  destruct (py_truediv correct total) as [ratio|e]; [|done].
  rewrite bind_lift_Ok, bind_emit. cbn. by rewrite <- app_assoc.
Qed.

Lemma save_model_log {optimizer} writable (self : Trainer.t optimizer) tr :
  Trainer.save_model writable self tr =
    if writable (Trainer.model_path self)
    then (Ok tt, tr ++ [Invoke m_save_model;
                        Saved (Trainer.model_path self)
                              (Trainer.named_parameters (Trainer.model self));
                        PrintSaved (Trainer.model_path self)])
    else (Raise (RuntimeError "Parent directory does not exist."),
          tr ++ [Invoke m_save_model]).
Proof.
  unfold Trainer.save_model. rewrite bind_emit.
  destruct (writable _); [|done].
  rewrite !bind_emit. unfold emit. by rewrite <- !app_assoc.
Qed.

Lemma forM_emit_log {A} (f : A → event) (l : list A) tr :
  forM (λ _ x, emit (f x)) tt l tr = (Ok tt, tr ++ (f <$> l)).
Proof.
  revert tr. induction l as [|x l IH]; intros tr.
  - cbn. by rewrite app_nil_r.
  - cbn [forM]. rewrite bind_emit, IH. cbn [fmap list_fmap]. by rewrite <- app_assoc.
Qed.

Lemma print_weights_log {optimizer} (self : Trainer.t optimizer) tr :
  Trainer.print_weights self tr =
    (Ok tt, tr ++ Invoke m_print_weights ::
                  layer_lines (Trainer.named_parameters (Trainer.model self))).
Proof.
  unfold Trainer.print_weights. rewrite bind_emit.
  rewrite (forM_emit_log (λ p, PrintLayer p.1 p.2)). by rewrite <- app_assoc.
Qed.

(** ** Evaluation *)

(** X10: with an empty test loader, [evaluate] raises [ZeroDivisionError]
    ([correct / total] with [total = 0]) and prints no accuracy. *)
Theorem evaluate_empty_test_set {optimizer} (self : Trainer.t optimizer) tr :
  Trainer.test_loader self 0 = Ok [] →
  Trainer.evaluate self tr = (Raise ZeroDivisionError, tr ++ [Invoke m_evaluate]).
Proof.
  intros Hl. unfold Trainer.evaluate. rewrite bind_emit, Hl, bind_lift_Ok.
  cbn [foldM]. by rewrite bind_lift_Ok.
Qed.

Lemma evaluate_empty_test_set_witness :
  Trainer.evaluate
    (Trainer.__init__ zero_model tt (λ _ _, Ok 0%R) (λ _, Ok []) (λ _, Ok [])
       VoltorbFlipCNN.MODEL_PATH 5) [] =
  (Raise ZeroDivisionError, [] ++ [Invoke m_evaluate]).
Proof.
  apply (evaluate_empty_test_set
           (Trainer.__init__ zero_model tt (λ _ _, Ok 0%R) (λ _, Ok []) (λ _, Ok [])
              VoltorbFlipCNN.MODEL_PATH 5) []).
  reflexivity.
Defined.

Lemma sum_item_bound (t : tensor bool) : (0 ≤ sum_item t ≤ Z.of_nat (length (data t)))%Z.
Proof. unfold sum_item. pose proof (length_filter (λ b, b = true) (data t)). lia. Qed.

Lemma evaluate_batch_well_shaped m b correct total :
  architecture m → VoltorbFlipCNN.flattened_size m = 128 * 8 * 8 → well_shaped b →
  ∃ hits cells, (0 ≤ hits ≤ cells)%Z ∧ (0 < cells)%Z ∧
    Trainer.evaluate_batch m (correct, total) b = Ok (correct + hits, total + cells)%Z.
Proof.
  intros Ha Hfs (n & Hn & Hx & Hl). destruct b as [screenshots labels]. cbn [fst snd] in *.
  unfold Trainer.evaluate_batch.
  destruct (forward_ok m screenshots n Ha Hfs Hx Hn) as (y & -> & Hy & _).
  rewrite bind_Ok.
  destruct (decode_rows y (n * 45)) as (vo & ->).
  { rewrite Hy. unfold numel. cbn [foldr]. lia. }
  rewrite bind_Ok.
  destruct (decode_rows labels (n * 45)) as (vl & ->).
  { rewrite Hl. unfold numel. cbn [foldr]. lia. }
  rewrite bind_Ok. unfold tensor_eq. cbn [shape data]. rewrite Nat.eqb_refl, bind_Ok.
  eexists _, (Z.of_nat (n * 45)). split; [|split; [lia|]].
  2:{ do 3 f_equal. unfold numel. cbn [foldr]. lia. }
  pose proof (sum_item_bound (Tensor [n * 45]
    (zip_with Z.eqb
       ((λ g, Z.of_nat (row_max (row_of 13 (data y) g)).2) <$> seq 0 (n * 45))
       ((λ g, Z.of_nat (row_max (row_of 13 (data labels) g)).2) <$> seq 0 (n * 45)))))
    as Hb.
  cbn [data] in Hb. rewrite length_zip_with, !length_fmap, !length_seq in Hb. lia.
Qed.

Lemma evaluate_loop_well_shaped m batches correct total :
  architecture m → VoltorbFlipCNN.flattened_size m = 128 * 8 * 8 →
  Forall well_shaped batches →
  ∃ hits cells, (0 ≤ hits ≤ cells)%Z ∧ (Z.of_nat (length batches) ≤ cells)%Z ∧
    foldM (Trainer.evaluate_batch m) (correct, total) batches =
    Ok (correct + hits, total + cells)%Z.
Proof.
  intros Ha Hfs Hall. revert correct total.
  induction Hall as [|b batches Hb _ IH]; intros correct total.
  - exists 0%Z, 0%Z. cbn [foldM length]. rewrite !Z.add_0_r. repeat split; lia.
  - cbn [foldM length].
    destruct (evaluate_batch_well_shaped m b correct total Ha Hfs Hb)
      as (h1 & c1 & Hh1 & Hc1 & ->).
    destruct (IH (correct + h1)%Z (total + c1)%Z) as (h2 & c2 & Hh2 & Hc2 & IH').
    exists (h1 + h2)%Z, (c1 + c2)%Z. rewrite bind_Ok, IH'.
    split; [lia|]. split; [lia|]. do 2 f_equal; lia.
Qed.

Lemma percentage_range (correct total : Z) :
  (0 ≤ correct ≤ total)%Z → (0 < total)%Z →
  (0 <= inject_Z correct / inject_Z total * 100)%Q ∧
  (inject_Z correct / inject_Z total * 100 <= 100)%Q.
Proof.
  intros Hc Ht. destruct total as [|p|p]; [lia| |lia].
  unfold Qle, Qdiv, Qmult, Qinv, inject_Z. cbn.
  rewrite ?Pos.mul_1_r, ?Pos.mul_1_l. split; lia.
Qed.

(** X11: on a non-empty list of batches of resized screenshots with
    45 x 13 targets, [evaluate] does not raise, whatever the parameters of
    the model; the accuracy it prints and returns lies between 0 and 100. *)
Theorem evaluate_accuracy_range {optimizer} θ (self : Trainer.t optimizer)
    (batches : list batch) (tr : list event) :
  VoltorbFlipCNN.__init__ θ = Ok (Trainer.model self) →
  Trainer.test_loader self 0 = Ok batches →
  batches ≠ [] →
  Forall well_shaped batches →
  ∃ accuracy,
    Trainer.evaluate self tr =
      (Ok accuracy, tr ++ [Invoke m_evaluate; PrintAccuracy accuracy]) ∧
    (0 <= accuracy)%Q ∧ (accuracy <= 100)%Q.
Proof.
  intros Hinit Hl Hne Hall.
  destruct (init_architecture _ _ Hinit) as [Ha Hfs].
  destruct (evaluate_loop_well_shaped (Trainer.model self) batches 0 0 Ha Hfs Hall)
    as (hits & cells & Hh & Hc & Hloop).
  assert (0 < cells)%Z as Hpos by (destruct batches; [done | cbn [length] in Hc; lia]).
  unfold Trainer.evaluate. rewrite bind_emit, Hl, bind_lift_Ok, Hloop, bind_lift_Ok.
  rewrite !Z.add_0_l. unfold py_truediv.
  destruct (Z.eqb_spec cells 0); [lia|].
  rewrite bind_lift_Ok, bind_emit. eexists. split.
  - unfold mret, M_ret. by rewrite <- app_assoc.
  - by apply percentage_range.
Qed.

Lemma evaluate_accuracy_range_witness :
  ∃ accuracy,
    Trainer.evaluate example_trainer [] =
      (Ok accuracy, [] ++ [Invoke m_evaluate; PrintAccuracy accuracy]) ∧
    (0 <= accuracy)%Q ∧ (accuracy <= 100)%Q.
Proof.
  apply (evaluate_accuracy_range zero_parameters example_trainer [example_batch] []).
  - apply zero_model_init.
  - reflexivity.
  - discriminate.
  - apply Forall_cons_2; [|apply Forall_nil_2]. exists 1. split; [lia | split; reflexivity].
Defined.

(** ** The output of a run of [main] *)

Lemma setup_inv {image} `{Imaging image} {optimizer}
    (env : environment image optimizer) (t0 : Trainer.t optimizer) :
  setup env = Ok t0 →
  VoltorbFlipCNN.__init__ (initial_parameters env) = Ok (Trainer.model t0) ∧
  Trainer.episodes t0 = 50 ∧
  Trainer.model_path t0 = VoltorbFlipCNN.MODEL_PATH.
Proof.
  unfold setup. intros Hs.
  apply bind_Ok_inv in Hs as (visible_states & _ & Hs). cbv zeta in Hs.
  apply bind_Ok_inv in Hs as (parts & _ & Hs).
  destruct parts as [|train_indices [|test_indices [|? ?]]]; try discriminate.
  apply bind_Ok_inv in Hs as (train_loader & _ & Hs).
  apply bind_Ok_inv in Hs as (test_loader & _ & Hs).
  apply bind_Ok_inv in Hs as (cnn_model & Hinit & Hs).
  injection Hs as <-. by repeat split.
Qed.

Lemma main_unfold {image} `{Imaging image} {optimizer} (env : environment image optimizer) :
  main env [] =
  match setup env with
  | Raise e => (Raise e, [])
  | Ok t0 =>
      match Trainer.train (backward_step env) t0 [] with
      | (Raise e, tr1) => (Raise e, tr1)
      | (Ok t1, tr1) =>
          match Trainer.evaluate t1 tr1 with
          | (Raise e, tr2) => (Raise e, tr2)
          | (Ok _, tr2) =>
              match Trainer.save_model (writable env) t1 tr2 with
              | (Raise e, tr3) => (Raise e, tr3)
              | (Ok _, tr3) => Trainer.print_weights t1 tr3
              end
          end
      end
  end.
Proof. unfold main, mbind, M_bind, lift. by destruct (setup env). Qed.

(** X12: the complete output of a run of [main] that ends normally: the 50
    episode lines of training, the accuracy line, the save of the trained
    model's parameters to [MODEL_PATH] with its message, and one line per
    parameter tensor of the trained model, in this order and nothing else. *)
Theorem main_complete_output {image} `{Imaging image} {optimizer}
    (env : environment image optimizer) :
  (main env []).1 = Ok tt →
  ∃ t0 t1 losses accuracy,
    setup env = Ok t0 ∧
    (Trainer.train (backward_step env) t0 []).1 = Ok t1 ∧
    length losses = 50 ∧
    (main env []).2 =
      Invoke m_train :: episode_lines 50 losses ++
      [Invoke m_evaluate; PrintAccuracy accuracy;
       Invoke m_save_model;
       Saved VoltorbFlipCNN.MODEL_PATH (Trainer.named_parameters (Trainer.model t1));
       PrintSaved VoltorbFlipCNN.MODEL_PATH;
       Invoke m_print_weights] ++
      layer_lines (Trainer.named_parameters (Trainer.model t1)).
Proof.
  rewrite main_unfold.
  destruct (setup env) as [t0|e] eqn:Hsetup; [|discriminate].
  apply setup_inv in Hsetup as (_ & Hep & Hpath).
  destruct (train_log (backward_step env) t0 []) as (losses & Htr1 & Hr1).
  destruct (Trainer.train (backward_step env) t0 []) as [[t1|e] tr1] eqn:Htrain;
    [|discriminate].
  cbn [fst snd] in Htr1, Hr1. destruct Hr1 as [Hlen (_ & _ & _ & _ & Hpath1)].
  pose proof (evaluate_log t1 tr1) as Htr2.
  destruct (Trainer.evaluate t1 tr1) as [[accuracy|e] tr2]; [|discriminate].
  cbn [fst snd] in Htr2.
  rewrite save_model_log.
  destruct (writable env (Trainer.model_path t1)); [|discriminate].
  rewrite print_weights_log. intros _. exists t0, t1, losses, accuracy.
  split; [reflexivity|]. split; [by rewrite Htrain|]. split; [congruence|].
  cbn [snd]. rewrite Htr2, Htr1, Hpath1, Hpath, Hep. cbn [app].
  rewrite <- !app_assoc. reflexivity.
Qed.

Lemma main_complete_output_witness :
  ∃ t0 t1 losses accuracy,
    setup example_environment = Ok t0 ∧
    (Trainer.train (backward_step example_environment) t0 []).1 = Ok t1 ∧
    length losses = 50 ∧
    (main example_environment []).2 =
      Invoke m_train :: episode_lines 50 losses ++
      [Invoke m_evaluate; PrintAccuracy accuracy;
       Invoke m_save_model;
       Saved VoltorbFlipCNN.MODEL_PATH (Trainer.named_parameters (Trainer.model t1));
       PrintSaved VoltorbFlipCNN.MODEL_PATH;
       Invoke m_print_weights] ++
      layer_lines (Trainer.named_parameters (Trainer.model t1)).
Proof. apply (main_complete_output example_environment), main_example_run. Defined.

Lemma saved_files_app tr tr' : saved_files (tr ++ tr') = saved_files tr ++ saved_files tr'.
Proof. apply omap_app. Qed.

Lemma saved_files_imap {A} (f : nat → A → event) (l : list A) :
  (∀ i x, saved_files [f i x] = []) → saved_files (imap f l) = [].
Proof.
  revert f. induction l as [|x l IH]; intros f Hf; [done|].
  cbn [imap]. change (f 0 x :: imap (f ∘ S) l) with ([f 0 x] ++ imap (f ∘ S) l).
  rewrite saved_files_app, Hf. apply IH. intros i y. apply Hf.
Qed.

Lemma saved_files_episode_lines E losses : saved_files (episode_lines E losses) = [].
Proof. by apply saved_files_imap. Qed.

Lemma saved_files_layer_lines params : saved_files (layer_lines params) = [].
Proof. induction params as [|p params IH]; [done | exact IH]. Qed.

(** X13: in any run of [main], also one that ends with an exception,
    [torch.save] is called at most once, only after [train] and [evaluate]
    have both returned, and then with the parameters of the trained model
    and the path [MODEL_PATH]. *)
Theorem main_saves_once_after_evaluation {image} `{Imaging image} {optimizer}
    (env : environment image optimizer) :
  saved_files (main env []).2 = [] ∨
  ∃ t0 t1 accuracy,
    setup env = Ok t0 ∧
    (Trainer.train (backward_step env) t0 []).1 = Ok t1 ∧
    (Trainer.evaluate t1 (Trainer.train (backward_step env) t0 []).2).1 = Ok accuracy ∧
    saved_files (main env []).2 =
      [(VoltorbFlipCNN.MODEL_PATH, Trainer.named_parameters (Trainer.model t1))].
Proof.
  rewrite main_unfold.
  destruct (setup env) as [t0|e] eqn:Hsetup; [|by left].
  apply setup_inv in Hsetup as (_ & Hep & Hpath).
  destruct (train_log (backward_step env) t0 []) as (losses & Htr1 & Hr1).
  destruct (Trainer.train (backward_step env) t0 []) as [[t1|e] tr1] eqn:Htrain;
    cbn [fst snd] in Htr1, Hr1.
  2:{ left. cbn [snd]. rewrite Htr1. cbn [app].
      apply (saved_files_episode_lines (Trainer.episodes t0) losses). }
  destruct Hr1 as [Hlen (_ & _ & _ & _ & Hpath1)].
  pose proof (evaluate_log t1 tr1) as Htr2.
  assert (saved_files tr1 = []) as Hs1.
  { rewrite Htr1. cbn [app].
    apply (saved_files_episode_lines (Trainer.episodes t0) losses). }
  destruct (Trainer.evaluate t1 tr1) as [[accuracy|e] tr2] eqn:Heval;
    cbn [fst snd] in Htr2.
  2:{ left. cbn [snd]. by rewrite Htr2, saved_files_app, Hs1. }
  assert (saved_files tr2 = []) as Hs2 by (by rewrite Htr2, saved_files_app, Hs1).
  rewrite save_model_log.
  destruct (writable env (Trainer.model_path t1)).
  2:{ left. cbn [snd]. by rewrite saved_files_app, Hs2. }
  rewrite print_weights_log. right. exists t0, t1, accuracy.
  rewrite Htrain. cbn [fst snd]. rewrite Heval.
  do 3 (split; [reflexivity|]).
  cbn [snd]. rewrite !saved_files_app, Hs2, Hpath1, Hpath. cbn [app].
  change (saved_files (Invoke m_print_weights :: ?l)) with (saved_files l).
  rewrite saved_files_layer_lines. reflexivity.
Qed.


(** ** Batches yielded by a loader *)

Lemma mapM_Ok_inv {A B} (f : A → result B) (l : list A) (ys : list B) :
  mapM f l = Ok ys → Forall2 (λ x y, f x = Ok y) l ys.
Proof.
  revert ys. induction l as [|x l IH]; intros ys; cbn [mapM].
  - intros [= <-]. constructor.
  - intros Hm. apply bind_Ok_inv in Hm as (y & Hy & Hm).
    apply bind_Ok_inv in Hm as (k & Hk & Hm). injection Hm as <-.
    constructor; [done | by apply IH].
Qed.

Lemma chunks_go_bounds {A} (fuel k : nat) (l : list A) :
  0 < k → Forall (λ c, 0 < length c ≤ k) (chunks_go fuel k l).
Proof.
  intros Hk. revert l. induction fuel as [|fuel IH]; intros l.
  - destruct l; constructor.
  - destruct l as [|x l]; [constructor|]. cbn [chunks_go]. constructor; [|apply IH].
    rewrite length_take. cbn [length]. lia.
Qed.

Lemma torch_stack_inv {A} (ts : list (tensor A)) (t : tensor A) (s : list nat) :
  torch_stack ts = Ok t → Forall (λ x, shape x = s) ts → ts ≠ [] →
  shape t = length ts :: s.
Proof.
  intros Ht Hs Hne. rewrite (torch_stack_same ts s Hne Hs) in Ht. by injection Ht as <-.
Qed.

Lemma loader_sample_shapes {image} `{Imaging image} (fs : gmap string image)
    (ds : Subset (VoltorbFlipScreenshotDataset.t image)) (i : nat)
    (sample : VoltorbFlipScreenshotDataset.picture image * tensor Z) :
  VoltorbFlipScreenshotDataset.transform (dataset ds) = Some VoltorbFlipCNN.TRANSFORM →
  Forall (λ row, length (drop 1 row) = VoltorbFlipCNN.N_FEATURES)
         (VoltorbFlipScreenshotDataset.visible_states (dataset ds)) →
  Subset_getitem fs ds i = Ok sample →
  (∃ x, sample.1 = VoltorbFlipScreenshotDataset.TensorImage x ∧ shape x = [3; 32; 32]) ∧
  shape sample.2 = [585].
Proof.
  intros Htr Hrows. unfold Subset_getitem.
  destruct (indices ds !! i) as [idx|]; [|discriminate]. intros Hs.
  apply getitem_inv in Hs as (img & row & _ & Hrow & _ & H1 & H2).
  rewrite Htr in H1. split.
  - eexists. split; [exact H1|]. unfold VoltorbFlipCNN.TRANSFORM.
    by rewrite ToTensor_shape, Resize_bands, Resize_height, Resize_width, convert_RGB_bands.
  - rewrite H2. cbn [shape]. apply iloc_Ok_iff in Hrow as [_ Hrow].
    apply list_elem_of_lookup_2 in Hrow. rewrite Forall_forall in Hrows.
    by rewrite (Hrows row Hrow).
Qed.

Lemma default_collate_shapes {image} `{Imaging image}
    (samples : list (VoltorbFlipScreenshotDataset.picture image * tensor Z)) (b : batch) :
  samples ≠ [] →
  Forall (λ sample,
            (∃ x, sample.1 = VoltorbFlipScreenshotDataset.TensorImage x ∧
                  shape x = [3; 32; 32]) ∧
            shape sample.2 = [585]) samples →
  default_collate samples = Ok b →
  shape b.1 = [length samples; 3; 32; 32] ∧ shape b.2 = [length samples; 585].
Proof.
  intros Hne Hall. unfold default_collate. intros Hb.
  apply bind_Ok_inv in Hb as (images & Himg & Hb).
  apply bind_Ok_inv in Hb as (screenshots & Hsc & Hb).
  apply bind_Ok_inv in Hb as (labels & Hlb & Hb). injection Hb as <-. cbn [fst snd].
  apply mapM_Ok_inv in Himg.
  assert (length images = length samples) as Hlen by (symmetry; by eapply Forall2_length).
  assert (Forall (λ x, shape x = [3; 32; 32]) images) as Himgs.
  { clear Hsc Hlen Hne Hlb.
    induction Himg as [|s x samples' images' Hx _ IH]; [constructor|].
    apply Forall_cons in Hall as [[(x' & Hs & Hx') _] Hall'].
    constructor; [|by apply IH]. rewrite Hs in Hx. by injection Hx as <-. }
  split.
  - rewrite (torch_stack_inv images screenshots [3; 32; 32] Hsc Himgs), Hlen; [done|].
    intros ->. by destruct samples.
  - rewrite (torch_stack_inv (snd <$> samples) labels [585] Hlb).
    + by rewrite length_fmap.
    + apply Forall_fmap. eapply Forall_impl; [exact Hall|]. by intros s [_ ?].
    + by destruct samples.
Qed.

(** X14: every batch yielded by a loader over a dataset that uses
    [TRANSFORM] and whose label rows have 45 labels holds between 1 and
    [batch_size] samples, as screenshots of shape (n, 3, 32, 32) with
    targets of shape (n, 585); hence [forward] of any constructed model
    accepts its screenshots and returns an output of the targets' shape. *)
Theorem loader_batches_well_shaped {image} `{Imaging image} (fs : gmap string image)
    (dl : DataLoader image) (perm : list nat) (batches : list batch) θ m :
  0 < batch_size dl →
  VoltorbFlipScreenshotDataset.transform (dataset (loader_dataset dl)) =
    Some VoltorbFlipCNN.TRANSFORM →
  Forall (λ row, length (drop 1 row) = VoltorbFlipCNN.N_FEATURES)
         (VoltorbFlipScreenshotDataset.visible_states (dataset (loader_dataset dl))) →
  VoltorbFlipCNN.__init__ θ = Ok m →
  DataLoader_iter fs dl perm = Ok batches →
  Forall (λ b, ∃ n output,
            0 < n ≤ batch_size dl ∧
            shape b.1 = [n; 3; 32; 32] ∧ shape b.2 = [n; 585] ∧
            VoltorbFlipCNN.forward m b.1 = Ok output ∧ shape output = shape b.2)
         batches.
Proof.
  intros Hk Htr Hrows Hinit. unfold DataLoader_iter.
  destruct (init_architecture _ _ Hinit) as [Ha Hfs].
  pose proof (chunks_go_bounds
    (length (if shuffle dl then perm else seq 0 (length (indices (loader_dataset dl)))))
    (batch_size dl)
    (if shuffle dl then perm else seq 0 (length (indices (loader_dataset dl)))) Hk) as Hch.
  fold (chunks (batch_size dl)
          (if shuffle dl then perm else seq 0 (length (indices (loader_dataset dl))))) in Hch.
  revert Hch.
  generalize (chunks (batch_size dl)
    (if shuffle dl then perm else seq 0 (length (indices (loader_dataset dl))))) as cs.
  intros cs Hch Hm. apply mapM_Ok_inv in Hm.
  induction Hm as [|chunk b cs' batches' Hb _ IH]; [constructor|].
  apply Forall_cons in Hch as [Hc Hch']. constructor; [|by apply IH].
  apply bind_Ok_inv in Hb as (samples & Hsamples & Hb).
  apply mapM_Ok_inv in Hsamples.
  assert (length samples = length chunk) as Hlen by (symmetry; by eapply Forall2_length).
  assert (Forall (λ sample,
            (∃ x, sample.1 = VoltorbFlipScreenshotDataset.TensorImage x ∧
                  shape x = [3; 32; 32]) ∧
            shape sample.2 = [585]) samples) as Hall.
  { clear Hb Hlen Hc. induction Hsamples as [|i s chunk' samples' Hs _ IH']; [constructor|].
    constructor; [|exact IH']. by eapply loader_sample_shapes. }
  apply default_collate_shapes in Hb as [Hx Hl]; [|intros ->; cbn in Hlen; lia|exact Hall].
  destruct (forward_ok m b.1 (length samples) Ha Hfs Hx) as (y & Hy & Sy & _); [lia|].
  exists (length samples), y. split; [lia|]. by rewrite Hl.
Qed.

Lemma loader_batches_well_shaped_witness :
  Forall (λ b, ∃ n output,
            0 < n ≤ 16 ∧
            shape b.1 = [n; 3; 32; 32] ∧ shape b.2 = [n; 585] ∧
            VoltorbFlipCNN.forward zero_model b.1 = Ok output ∧ shape output = shape b.2)
         [example_batch].
Proof.
  apply (loader_batches_well_shaped example_files
           {| loader_dataset := {| dataset := run_dataset; indices := [0%Z] |};
              batch_size := 16; shuffle := false |} [] [example_batch] zero_parameters
           zero_model).
  - cbn. lia.
  - reflexivity.
  - repeat constructor.
  - apply zero_model_init.
  - vm_compute. reflexivity.
Defined.

(** ** Loading saved weights *)

Lemma load_param_shape sd key param : shape (load_param sd key param).1 = shape param.
Proof.
  unfold load_param. destruct (state_get sd key) as [v|]; [|done].
  case_bool_decide; done.
Qed.

Lemma load_param_value sd key param v :
  state_get sd key = Some v → shape v = shape param → load_param sd key param = (v, []).
Proof. intros Hg Hs. unfold load_param. by rewrite Hg, bool_decide_eq_true_2. Qed.

Lemma load_param_ok_iff sd key param :
  (load_param sd key param).2 = [] ↔
  ∃ v, state_get sd key = Some v ∧ shape v = shape param.
Proof.
  unfold load_param. destruct (state_get sd key) as [v|].
  - case_bool_decide; cbn [snd]; split.
    + by exists v.
    + done.
    + discriminate.
    + intros (v' & [= <-] & ?). done.
  - split; [discriminate | by intros (? & ? & _)].
Qed.

Lemma load_Conv2d_layout sd prefix L :
  Conv2d_layout (load_Conv2d sd prefix L).1 = Conv2d_layout L.
Proof. unfold Conv2d_layout, load_Conv2d. cbn. by rewrite !load_param_shape. Qed.

Lemma load_Linear_layout sd prefix L :
  Linear_layout (load_Linear sd prefix L).1 = Linear_layout L.
Proof. unfold Linear_layout, load_Linear. cbn. by rewrite !load_param_shape. Qed.

Lemma load_state_dict_layout self sd : layout (load_state_dict self sd).1 = layout self.
Proof.
  unfold layout, load_state_dict. cbn [fst VoltorbFlipCNN.conv1 VoltorbFlipCNN.conv2
    VoltorbFlipCNN.conv3 VoltorbFlipCNN.fc1 VoltorbFlipCNN.fc2 VoltorbFlipCNN.flattened_size].
  by rewrite !load_Conv2d_layout, !load_Linear_layout.
Qed.

Lemma load_weights_layout disk self : layout (load_weights disk self).1 = layout self.
Proof.
  unfold load_weights. destruct (torch_load disk _); [apply load_state_dict_layout | done].
Qed.

Lemma layout_architecture a b :
  layout a = layout b → architecture b →
  architecture a ∧ VoltorbFlipCNN.flattened_size a = VoltorbFlipCNN.flattened_size b.
Proof.
  unfold layout, Conv2d_layout, Linear_layout, architecture, conv3x3.
  intros Hl Hb. injection Hl as -> -> -> -> -> _ _ -> -> -> -> -> _ _ -> -> -> -> -> _ _
    -> -> -> _ _ -> -> _ _. done.
Qed.

(** X15: whatever the weights directory holds, and also when it raises,
    [load_weights] leaves the layer hyper-parameters and the shapes of all
    parameters as they were; so a constructed model still maps an image to
    45 class indices in [0, 13) after any call of [load_weights]. *)
Theorem load_weights_keeps_layout {image} `{Imaging image} θ m
    (disk : gmap string state_dict) (input_image : image) :
  VoltorbFlipCNN.__init__ θ = Ok m →
  layout (load_weights disk m).1 = layout m ∧
  ∃ decoded,
    VoltorbFlipCNN.predict (load_weights disk m).1 input_image = Ok decoded ∧
    shape decoded = [45] ∧ length (data decoded) = 45 ∧
    Forall (λ c, 0 ≤ c < 13)%Z (data decoded).
Proof.
  intros Hm. destruct (init_architecture θ m Hm) as [Ha Hfs].
  pose proof (load_weights_layout disk m) as Hl. split; [exact Hl|].
  destruct (layout_architecture _ _ Hl Ha) as [Ha' Hfs']. rewrite Hfs in Hfs'.
  set (m' := (load_weights disk m).1) in *.
  set (x := unsqueeze0 (VoltorbFlipCNN.TRANSFORM (convert_RGB input_image))).
  assert (shape x = [1; 3; 32; 32]) as Hx.
  { unfold x, unsqueeze0, VoltorbFlipCNN.TRANSFORM. cbn [shape].
    rewrite ToTensor_shape, Resize_bands, Resize_height, Resize_width, convert_RGB_bands.
    reflexivity. }
  destruct (forward_ok m' x 1 Ha' Hfs' Hx) as (output & Hout & Sout & _); [lia|].
  destruct (decode_rows output 45) as (values & Hdec).
  { rewrite Sout. reflexivity. }
  eexists. unfold VoltorbFlipCNN.predict. fold x. rewrite Hout, bind_Ok, Hdec, bind_Ok.
  split; [reflexivity|]. cbn [shape data]. split; [reflexivity|].
  split; [by rewrite length_fmap, length_seq|].
  apply Forall_fmap, Forall_forall. intros g _. cbn.
  pose proof (row_max_bound (row_of 13 (data output) g) 13) as Hb.
  specialize (Hb ltac:(lia) (length_row_of _ _ _)). lia.
Qed.

Lemma load_weights_keeps_layout_witness :
  layout (load_weights ∅ zero_model).1 = layout zero_model ∧
  ∃ decoded,
    VoltorbFlipCNN.predict (load_weights ∅ zero_model).1 ((480, 640) : blank_image) =
      Ok decoded ∧
    shape decoded = [45] ∧ length (data decoded) = 45 ∧
    Forall (λ c, 0 ≤ c < 13)%Z (data decoded).
Proof.
  apply (load_weights_keeps_layout zero_parameters zero_model ∅ ((480, 640) : blank_image)).
  apply zero_model_init.
Defined.

Lemma load_state_dict_own_state (m0 m : VoltorbFlipCNN.t) :
  layout m0 = layout m → load_state_dict m0 (Trainer.named_parameters m) = (m, Ok tt).
Proof.
  unfold layout, Conv2d_layout, Linear_layout. intros Hl.
  destruct m as [[] [] [] ? [] []], m0 as [[] [] [] ? [] []].
  cbn in Hl. injection Hl as -> -> -> -> -> Hw1 Hb1 -> -> -> -> -> Hw2 Hb2
    -> -> -> -> -> Hw3 Hb3 -> -> -> Hw4 Hb4 -> -> Hw5 Hb5.
  unfold load_state_dict, load_Conv2d, load_Linear.
  cbn [VoltorbFlipCNN.conv1 VoltorbFlipCNN.conv2 VoltorbFlipCNN.conv3 VoltorbFlipCNN.fc1
       VoltorbFlipCNN.fc2 VoltorbFlipCNN.flattened_size in_channels out_channels kernel_size
       stride padding weight bias in_features out_features lweight lbias].
  repeat match goal with
  | |- context [load_param ?sd ?k ?p] =>
      rewrite (load_param_value sd k p _ eq_refl) by (cbn; congruence)
  end.
  reflexivity.
Qed.

Lemma written_app disk tr tr' : written disk (tr ++ tr') = written (written disk tr) tr'.
Proof. unfold written. by rewrite saved_files_app, foldl_app. Qed.

(** X16: weights saved by [save_model] load back: after a successful
    [save_model] to [MODEL_PATH], [load_weights] on any model of the same
    layout (for instance a freshly constructed one) returns normally and
    turns it into the saved model. *)
Theorem save_then_load_weights {optimizer} (writable : string → bool)
    (self : Trainer.t optimizer) (tr : list event) (disk : gmap string state_dict)
    (m0 : VoltorbFlipCNN.t) :
  Trainer.model_path self = VoltorbFlipCNN.MODEL_PATH →
  writable VoltorbFlipCNN.MODEL_PATH = true →
  layout m0 = layout (Trainer.model self) →
  (Trainer.save_model writable self tr).1 = Ok tt ∧
  load_weights (written disk (Trainer.save_model writable self tr).2) m0 =
    (Trainer.model self, Ok tt).
Proof.
  intros Hpath Hw Hl. rewrite save_model_log, Hpath, Hw. cbn [fst snd].
  split; [done|]. rewrite written_app.
  change (written ?d [Invoke m_save_model; Saved ?p ?sd; PrintSaved ?q])
    with (<[p := sd]> d).
  unfold load_weights, torch_load. rewrite lookup_insert_eq.
  by apply load_state_dict_own_state.
Qed.

Lemma save_then_load_weights_witness :
  (Trainer.save_model (λ _, true) run_trainer []).1 = Ok tt ∧
  load_weights (written ∅ (Trainer.save_model (λ _, true) run_trainer []).2) zero_model =
    (Trainer.model run_trainer, Ok tt).
Proof.
  apply (save_then_load_weights (λ _, true) run_trainer [] ∅ zero_model); reflexivity.
Defined.

Lemma unexpected_keys_nil (keys : list string) :
  filter (λ k, existsb (String.eqb k) parameter_names = false) keys = [] ↔
  Forall (λ k, k ∈ parameter_names) keys.
Proof.
  induction keys as [|k keys IH]; [by split|].
  rewrite filter_cons, Forall_cons, <- IH.
  assert (existsb (String.eqb k) parameter_names = true ↔ k ∈ parameter_names) as Hk.
  { rewrite existsb_exists, list_elem_of_In. split.
    - by intros (x & Hx & ->%String.eqb_eq).
    - intros Hin. exists k. split; [done | apply String.eqb_refl]. }
  case_decide as Hd.
  - split; [discriminate|]. intros [Hin _]. apply Hk in Hin. congruence.
  - split; [|by intros [_ ?]]. intros Hf. split; [|done].
    apply Hk. by destruct (existsb _ _).
Qed.

Lemma no_errors_iff (error_msgs : list string) (e : exn) :
  match error_msgs with [] => Ok tt | _ => Raise e end = Ok tt ↔ error_msgs = [].
Proof. by destruct error_msgs. Qed.

Lemma load_state_dict_ok_iff self sd :
  (load_state_dict self sd).2 = Ok tt ↔
  Forall (λ k, k ∈ parameter_names) (fst <$> sd) ∧
  Forall (λ p, ∃ v, state_get sd p.1 = Some v ∧ shape v = shape p.2)
         (Trainer.named_parameters self).
Proof.
  unfold load_state_dict. cbn [snd]. rewrite no_errors_iff.
  unfold load_Conv2d, load_Linear. cbn [snd].
  rewrite !app_nil, unexpected_keys_nil, !load_param_ok_iff.
  unfold Trainer.named_parameters. rewrite !Forall_cons, Forall_nil. cbn [fst snd].
  change ("conv1." +:+ "weight") with "conv1.weight".
  change ("conv1." +:+ "bias") with "conv1.bias".
  change ("conv2." +:+ "weight") with "conv2.weight".
  change ("conv2." +:+ "bias") with "conv2.bias".
  change ("conv3." +:+ "weight") with "conv3.weight".
  change ("conv3." +:+ "bias") with "conv3.bias".
  change ("fc1." +:+ "weight") with "fc1.weight".
  change ("fc1." +:+ "bias") with "fc1.bias".
  change ("fc2." +:+ "weight") with "fc2.weight".
  change ("fc2." +:+ "bias") with "fc2.bias".
  tauto.
Qed.

Lemma load_state_dict_values self sd :
  (load_state_dict self sd).2 = Ok tt →
  Forall (λ p, state_get sd p.1 = Some p.2)
         (Trainer.named_parameters (load_state_dict self sd).1).
Proof.
  rewrite load_state_dict_ok_iff. intros [_ Hp].
  unfold Trainer.named_parameters in *. rewrite !Forall_cons, Forall_nil in Hp.
  cbn [fst snd] in Hp.
  destruct Hp as ((v1 & G1 & S1) & (v2 & G2 & S2) & (v3 & G3 & S3) & (v4 & G4 & S4) &
                  (v5 & G5 & S5) & (v6 & G6 & S6) & (v7 & G7 & S7) & (v8 & G8 & S8) &
                  (v9 & G9 & S9) & (v10 & G10 & S10) & _).
  unfold load_state_dict, load_Conv2d, load_Linear.
  cbn [fst VoltorbFlipCNN.conv1 VoltorbFlipCNN.conv2 VoltorbFlipCNN.conv3 VoltorbFlipCNN.fc1
       VoltorbFlipCNN.fc2 weight bias lweight lbias].
  change ("conv1." +:+ "weight") with "conv1.weight".
  change ("conv1." +:+ "bias") with "conv1.bias".
  change ("conv2." +:+ "weight") with "conv2.weight".
  change ("conv2." +:+ "bias") with "conv2.bias".
  change ("conv3." +:+ "weight") with "conv3.weight".
  change ("conv3." +:+ "bias") with "conv3.bias".
  change ("fc1." +:+ "weight") with "fc1.weight".
  change ("fc1." +:+ "bias") with "fc1.bias".
  change ("fc2." +:+ "weight") with "fc2.weight".
  change ("fc2." +:+ "bias") with "fc2.bias".
  rewrite (load_param_value _ _ _ _ G1 S1), (load_param_value _ _ _ _ G2 S2),
    (load_param_value _ _ _ _ G3 S3), (load_param_value _ _ _ _ G4 S4),
    (load_param_value _ _ _ _ G5 S5), (load_param_value _ _ _ _ G6 S6),
    (load_param_value _ _ _ _ G7 S7), (load_param_value _ _ _ _ G8 S8),
    (load_param_value _ _ _ _ G9 S9), (load_param_value _ _ _ _ G10 S10).
  cbn [fst snd]. repeat (apply Forall_cons_2; [done|]). apply Forall_nil_2.
Qed.

(** X17: [load_weights] returns normally exactly when the file at
    [MODEL_PATH] exists, names no tensor that the model does not have, and
    holds, for each of the ten parameters, a tensor of that parameter's
    shape; the model's parameters are then the tensors of the file.  When
    the file is missing, [FileNotFoundError] is raised and the model is
    unchanged. *)
Theorem load_weights_succeeds_iff (disk : gmap string state_dict) (self : VoltorbFlipCNN.t) :
  ((load_weights disk self).2 = Ok tt ↔
   ∃ sd, disk !! VoltorbFlipCNN.MODEL_PATH = Some sd ∧
         Forall (λ k, k ∈ parameter_names) (fst <$> sd) ∧
         Forall (λ p, ∃ v, state_get sd p.1 = Some v ∧ shape v = shape p.2)
                (Trainer.named_parameters self)) ∧
  (∀ sd, disk !! VoltorbFlipCNN.MODEL_PATH = Some sd →
         (load_weights disk self).2 = Ok tt →
         Forall (λ p, state_get sd p.1 = Some p.2)
                (Trainer.named_parameters (load_weights disk self).1)) ∧
  (disk !! VoltorbFlipCNN.MODEL_PATH = None →
   load_weights disk self = (self, Raise (FileNotFoundError VoltorbFlipCNN.MODEL_PATH))).
Proof.
  unfold load_weights, torch_load.
  destruct (disk !! VoltorbFlipCNN.MODEL_PATH) as [sd|]; split.
  - rewrite load_state_dict_ok_iff. split.
    + intros [? ?]. by exists sd.
    + by intros (sd' & [= <-] & ? & ?).
  - split; [|discriminate]. intros sd' [= <-]. apply load_state_dict_values.
  - split; [discriminate|]. by intros (? & ? & _).
  - split; [discriminate | done].
Qed.

(** A saved state with one tensor of the wrong shape is refused, but the
    other parameters have been overwritten by then. *)
Example load_weights_partial :
  let sd := ("conv1.bias", Tensor [31] (replicate 31 1%R)) ::
            ("conv2.bias", Tensor [64] (replicate 64 1%R)) :: [] in
  let r := load_weights {[ VoltorbFlipCNN.MODEL_PATH := sd ]} zero_model in
  raises r.2 ∧
  bias (VoltorbFlipCNN.conv1 r.1) = bias (VoltorbFlipCNN.conv1 zero_model) ∧
  bias (VoltorbFlipCNN.conv2 r.1) = Tensor [64] (replicate 64 1%R).
Proof.
  cbv zeta. unfold load_weights, torch_load. rewrite lookup_singleton_eq.
  split; [|split].
  - eexists. reflexivity.
  - reflexivity.
  - reflexivity.
Qed.
